(** * ArcPy-Parquet-Tools: the Python toolbox, embedded and verified

    The toolbox (ArcPy-Parquet-Tools.pyt) declares three geoprocessing tools.
    This development embeds the parameter declarations of
    [FeatureClassToParquet] and [ParquetToFeatureClass], the validation
    routine [ParquetToFeatureClass.updateParameters] and
    [ParquetToFeatureClass.execute], and proves what they do with the
    parameter objects, the directory tree of a Parquet dataset and the
    dataset's schema.

    The repository holds two copies of the toolbox. The one embedded in full
    is the current one, with the coordinate and H3 columns; module [Earlier]
    embeds the steps in which the other copy differs.

    Conventions.
    - Python values are the type [pyval]; [None] is [PyNone]. Strings are
      byte strings, and [lower] maps the ASCII letters.
    - A parameter object is a record; the fifteen objects handed to the tool
      form a store indexed by the local names the tool gives them, so that an
      assignment to an attribute updates the one shared object.
    - A Python exception ends a run with [Raised]; the store keeps every
      attribute assigned before the exception.
    - The file system is a finite tree with the working directory at its
      root; paths follow pathlib's POSIX flavour, and [..] is not resolved.
    - What lies outside the toolbox is a parameter of the model: the tree,
      the current workspace, the column names the Parquet reader reports for
      a folder, and the helper [deactivate_parameter]. *)

From Stdlib Require Import String Ascii List Bool Arith ZArith Lia.
From Stdlib Require Import DecimalString DecimalPos DecimalZ.
Import ListNotations.
Local Open Scope string_scope.
Local Open Scope list_scope.
Local Open Scope nat_scope.

(** ** Python strings *)

Module PyStr.

(** [str.lower] on the ASCII range: the letters A..Z move down by 32, every
    other byte stays. *)
Definition lower_ascii (a : ascii) : ascii :=
  let n := nat_of_ascii a in
  if (65 <=? n) && (n <=? 90) then ascii_of_nat (n + 32) else a.

Fixpoint lower (s : string) : string :=
  match s with
  | EmptyString => EmptyString
  | String a s' => String (lower_ascii a) (lower s')
  end.

(** [s.startswith(p)] *)
Fixpoint startswith (s p : string) {struct p} : bool :=
  match p with
  | EmptyString => true
  | String a p' =>
      match s with
      | EmptyString => false
      | String b s' => Ascii.eqb a b && startswith s' p'
      end
  end.

(** [sub in s]: some suffix of [s] starts with [sub]. *)
Fixpoint contains (sub s : string) : bool :=
  if startswith s sub then true
  else match s with
       | EmptyString => false
       | String _ s' => contains sub s'
       end.

(** [x in [a, b, c]] for a list of strings. *)
Fixpoint mem (x : string) (l : list string) : bool :=
  match l with
  | [] => false
  | y :: l' => String.eqb x y || mem x l'
  end.

(** [s.rfind(c)] for a one-character needle; [None] stands for -1. *)
Fixpoint rfind (c : ascii) (s : string) : option nat :=
  match s with
  | EmptyString => None
  | String a s' =>
      match rfind c s' with
      | Some i => Some (S i)
      | None => if Ascii.eqb a c then Some 0 else None
      end
  end.

(** [str(n)] and [int(s)] for decimal numerals. [int] covers the numerals
    [str] prints (an optional minus sign and digits). *)
Definition str_of_int (z : Z) : string := NilZero.string_of_int (Z.to_int z).

Definition int_of_str (s : string) : option Z :=
  option_map Z.of_int (NilZero.int_of_string s).

End PyStr.

(** ** pathlib over a finite directory tree *)

Module Pathlib.
Import PyStr.

(** A file of any kind: a regular file or a directory with its entries, in
    the order the operating system lists them. *)
#[local] Unset Elimination Schemes.
Inductive node : Type :=
| File (name : string)
| Dir (name : string) (children : list node).
#[local] Set Elimination Schemes.

(** Induction over the tree, with the hypothesis for every entry of a
    directory. *)
Fixpoint node_ind (P : node -> Prop)
  (HF : forall nm, P (File nm))
  (HD : forall nm ch, Forall P ch -> P (Dir nm ch)) (n : node) : P n :=
  match n with
  | File nm => HF nm
  | Dir nm ch =>
      HD nm ch
        ((fix go (l : list node) : Forall P l :=
            match l with
            | [] => Forall_nil P
            | c :: l' => Forall_cons c (node_ind P HF HD c) (go l')
            end) ch)
  end.

Definition node_name (n : node) : string :=
  match n with File name => name | Dir name _ => name end.

Definition node_is_dir (n : node) : bool :=
  match n with File _ => false | Dir _ _ => true end.

Definition entries (n : node) : list node :=
  match n with File _ => [] | Dir _ ch => ch end.

(** A path is the list of its components below the root of the tree. *)
Definition path := list string.

Fixpoint split (sep : ascii) (s : string) : list string :=
  match s with
  | EmptyString => [EmptyString]
  | String a s' =>
      if Ascii.eqb a sep then EmptyString :: split sep s'
      else match split sep s' with
           | [] => [String a EmptyString]
           | w :: ws => String a w :: ws
           end
  end.

(** The components of a path string: empty components and "." are dropped,
    as [PurePosixPath] does when it parses. *)
Definition components (s : string) : list string :=
  filter (fun c => negb (String.eqb c "") && negb (String.eqb c "."))
         (split "/" s).

(** [Path(s)] *)
Definition Path (s : string) : path := components s.

(** [p / s]: an absolute right operand replaces the left one. *)
Definition joinpath (p : path) (s : string) : path :=
  if startswith s "/" then Path s else p ++ components s.

(** [p.parent] *)
Definition parent (p : path) : path := removelast p.

(** [p.name] *)
Definition name (p : path) : string := last p "".

(** [str(p)] *)
Definition str (p : path) : string := "/" ++ String.concat "/" p.

(** [PurePath.stem]: the name without its last suffix,
    [i = name.rfind('.'); name[:i] if 0 < i < len(name) - 1 else name]. *)
Definition stem_of_name (nm : string) : string :=
  match rfind "." nm with
  | Some i =>
      if (0 <? i) && (i <? String.length nm - 1) then substring 0 i nm else nm
  | None => nm
  end.

Definition stem (p : path) : string := stem_of_name (name p).

Fixpoint find_child (nm : string) (l : list node) : option node :=
  match l with
  | [] => None
  | n :: l' => if String.eqb (node_name n) nm then Some n else find_child nm l'
  end.

(** The file a path names, if there is one. *)
Fixpoint lookup (n : node) (p : path) : option node :=
  match p with
  | [] => Some n
  | c :: p' =>
      match find_child c (entries n) with
      | Some m => lookup m p'
      | None => None
      end
  end.

(** [p.is_dir()] *)
Definition is_dir (root : node) (p : path) : bool :=
  match lookup root p with
  | Some n => node_is_dir n
  | None => false
  end.

(** One path component of a glob pattern against one name ([fnmatch], case
    sensitive): [*] stands for any run of characters, [?] for one, every
    other character for itself. *)
Fixpoint fnmatch (pat nm : string) {struct pat} : bool :=
  match pat with
  | EmptyString => match nm with EmptyString => true | _ => false end
  | String c pat' =>
      if Ascii.eqb c "*" then
        (fix star (n : string) : bool :=
           fnmatch pat' n ||
           match n with
           | EmptyString => false
           | String _ n' => star n'
           end) nm
      else
        match nm with
        | EmptyString => false
        | String a nm' =>
            (Ascii.eqb c "?" || Ascii.eqb a c) && fnmatch pat' nm'
        end
  end.

(** [p.glob(pat)] for a one-component pattern: the entries of the
    directory whose names match; nothing when [p] is not a directory. *)
Definition glob (root : node) (p : path) (pat : string) : list path :=
  match lookup root p with
  | Some n =>
      map (fun c => p ++ [node_name c])
          (filter (fun c => fnmatch pat (node_name c)) (entries n))
  | None => []
  end.

(** [p.rglob(pat)], which is [p.glob("**/" + pat)]: the directory itself and
    then every directory below it, parents before children, each one
    contributing its matching entries (files of any kind). *)
Fixpoint rglob_node (pat : string) (here : path) (n : node) : list path :=
  match n with
  | File _ => []
  | Dir _ ch =>
      map (fun c => here ++ [node_name c])
          (filter (fun c => fnmatch pat (node_name c)) ch)
      ++ flat_map (fun c => rglob_node pat (here ++ [node_name c]) c) ch
  end.

Definition rglob (root : node) (p : path) (pat : string) : list path :=
  match lookup root p with
  | Some n => rglob_node pat p n
  | None => []
  end.

(** *** What the tree contains, stated without the traversal *)

(** [below n x]: the file [x] lies somewhere under the directory [n]. *)
Inductive below : node -> node -> Prop :=
| below_entry : forall nm ch c, In c ch -> below (Dir nm ch) c
| below_deeper : forall nm ch c x, In c ch -> below c x -> below (Dir nm ch) x.

(** Entries of a well-formed directory have distinct, non-empty names, at
    every depth. *)
Fixpoint distinct (l : list string) : bool :=
  match l with
  | [] => true
  | x :: l' => negb (mem x l') && distinct l'
  end.

Fixpoint well_formed (n : node) : bool :=
  match n with
  | File _ => true
  | Dir _ ch =>
      distinct (map node_name ch) &&
      forallb (fun c => negb (String.eqb (node_name c) "") && well_formed c) ch
  end.

(** The names of the sub-directories right under the directory at [p]. *)
Definition child_dir_names (root : node) (p : path) : list string :=
  match lookup root p with
  | Some n => map node_name (filter node_is_dir (entries n))
  | None => []
  end.

End Pathlib.

(** ** arcpy parameter objects and the runs of a validation routine *)

Module Arcpy.
Import PyStr.

(** The Python values a parameter holds. *)
Inductive pyval : Type :=
| PyNone
| PyBool (b : bool)
| PyInt (z : Z)
| PyStr (s : string).

Definition is_None (v : pyval) : bool :=
  match v with PyNone => true | _ => false end.

(** [v is True], [v is False] *)
Definition is_True (v : pyval) : bool :=
  match v with PyBool true => true | _ => false end.

Definition is_False (v : pyval) : bool :=
  match v with PyBool false => true | _ => false end.

(** [v == s] for a string literal [s] *)
Definition eq_str (v : pyval) (s : string) : bool :=
  match v with PyStr t => String.eqb t s | _ => false end.

(** A local variable bound to a string or to [None], as a value. *)
Definition of_option (o : option string) : pyval :=
  match o with Some s => PyStr s | None => PyNone end.

(** The exceptions a run can end with. [DatasetError] stands for whatever
    the Parquet reader raises on a folder it cannot read. *)
Inductive exn : Type :=
| AttributeError
| TypeError
| ValueError
| UnboundLocalError
| DatasetError.

(** The number a value counts as in a comparison ([bool] is a subclass of
    [int]); strings and [None] do not compare with numbers. *)
Definition as_number (v : pyval) : option Z :=
  match v with
  | PyInt z => Some z
  | PyBool b => Some (if b then 1%Z else 0%Z)
  | _ => None
  end.

(** [v < k] for an integer literal [k]; a [TypeError] where Python 3 refuses
    the comparison. *)
Definition py_lt (v : pyval) (k : Z) : exn + bool :=
  match as_number v with
  | Some z => inr (Z.ltb z k)
  | None => inl TypeError
  end.

(** [parameterType] *)
Inductive ptype : Type := Required | Optional | Derived.

(** [param.filter] *)
Record Filter : Type := mkFilter {
  filter_type : string;
  filter_list : list string
}.

(** An [arcpy.Parameter] object. [altered] is maintained by the framework and
    only read by the tool; [message] is the error message a validation
    routine posts with [setErrorMessage]. *)
Record Param : Type := mkParam {
  name : string;
  displayName : string;
  direction : string;
  datatype : string;
  parameterType : ptype;
  category : option string;
  enabled : bool;
  filter : Filter;
  value : pyval;
  altered : bool;
  message : option string
}.

(** [arcpy.Parameter(name=..., displayName=..., direction=..., datatype=...,
    parameterType=..., category=..., enabled=...)] *)
Definition new_Param (nm dn dir dt : string) (pt : ptype)
  (cat : option string) (en : bool) : Param :=
  mkParam nm dn dir dt pt cat en (mkFilter "" []) PyNone false None.

Definition with_parameterType (pt : ptype) (p : Param) : Param :=
  mkParam (name p) (displayName p) (direction p) (datatype p) pt
    (category p) (enabled p) (filter p) (value p) (altered p) (message p).

Definition with_enabled (en : bool) (p : Param) : Param :=
  mkParam (name p) (displayName p) (direction p) (datatype p)
    (parameterType p) (category p) en (filter p) (value p) (altered p)
    (message p).

Definition with_value (v : pyval) (p : Param) : Param :=
  mkParam (name p) (displayName p) (direction p) (datatype p)
    (parameterType p) (category p) (enabled p) (filter p) v (altered p)
    (message p).

Definition with_filter_type (t : string) (p : Param) : Param :=
  mkParam (name p) (displayName p) (direction p) (datatype p)
    (parameterType p) (category p) (enabled p)
    (mkFilter t (filter_list (filter p))) (value p) (altered p) (message p).

Definition with_filter_list (l : list string) (p : Param) : Param :=
  mkParam (name p) (displayName p) (direction p) (datatype p)
    (parameterType p) (category p) (enabled p)
    (mkFilter (filter_type (filter p)) l) (value p) (altered p) (message p).

(** The framework marks a parameter the user has edited. *)
Definition with_altered (a : bool) (p : Param) : Param :=
  mkParam (name p) (displayName p) (direction p) (datatype p)
    (parameterType p) (category p) (enabled p) (filter p) (value p) a
    (message p).

(** [param.setErrorMessage(msg)] *)
Definition with_message (msg : string) (p : Param) : Param :=
  mkParam (name p) (displayName p) (direction p) (datatype p)
    (parameterType p) (category p) (enabled p) (filter p) (value p)
    (altered p) (Some msg).

(** [param.valueAsText]: [None] for no value, the decimal numeral of a long,
    the text of a string or path. *)
Definition valueAsText (p : Param) : option string :=
  match value p with
  | PyNone => None
  | PyBool b => Some (if b then "true" else "false")
  | PyInt z => Some (str_of_int z)
  | PyStr s => Some s
  end.

(** The fifteen parameter objects of the Parquet to Feature Class tool, by
    the local names [updateParameters] unpacks them to, in the order of
    [getParameterInfo]'s list. *)
Inductive pname : Type :=
| pqt_pth | pqt_prt_01 | pqt_prt_02 | pqt_prt_03 | sptl_ref | out_fc_pth
| geom_col | geom_type | x_col | y_col | h3_col | build_idx | smpl
| smpl_cnt | schema_file_pth.

Definition pname_eq_dec (a b : pname) : {a = b} + {a <> b}.
Proof. decide equality. Defined.

Definition all_pnames : list pname :=
  [pqt_pth; pqt_prt_01; pqt_prt_02; pqt_prt_03; sptl_ref; out_fc_pth;
   geom_col; geom_type; x_col; y_col; h3_col; build_idx; smpl; smpl_cnt;
   schema_file_pth].

(** The store of the parameter objects. *)
Definition parameters : Type := pname -> Param.

Definition update (st : parameters) (n : pname) (f : Param -> Param)
  : parameters :=
  fun m => if pname_eq_dec n m then f (st m) else st m.

(** How a run ends: normally with a result, or with an exception; either
    way the store holds what was assigned on the way. *)
Inductive outcome (A : Type) : Type :=
| Done (a : A) (st : parameters)
| Raised (e : exn) (st : parameters).

Arguments Done {A} a st.
Arguments Raised {A} e st.

Definition final_store {A : Type} (o : outcome A) : parameters :=
  match o with Done _ st => st | Raised _ st => st end.

Definition completes {A : Type} (o : outcome A) : bool :=
  match o with Done _ _ => true | Raised _ _ => false end.

(** Computations over the store that may raise. *)
Definition M (A : Type) : Type := parameters -> outcome A.

Definition ret {A : Type} (a : A) : M A := fun st => Done a st.

Definition bind {A B : Type} (m : M A) (k : A -> M B) : M B :=
  fun st =>
    match m st with
    | Done a st' => k a st'
    | Raised e st' => Raised e st'
    end.

Definition raise {A : Type} (e : exn) : M A := fun st => Raised e st.

(** Read an attribute of a parameter object. *)
Definition getattr {A : Type} (n : pname) (f : Param -> A) : M A :=
  fun st => Done (f (st n)) st.

(** Assign to an attribute of a parameter object, or call a method that
    changes the object. *)
Definition setattr (n : pname) (f : Param -> Param) : M unit :=
  fun st => Done tt (update st n f).

(** The value of a fallible pure operation. *)
Definition lift {A : Type} (r : exn + A) : M A :=
  match r with inl e => raise e | inr a => ret a end.

(** [if c: body] *)
Definition when (c : bool) (body : M unit) : M unit :=
  if c then body else ret tt.

(** [a and b] where evaluating [b] may raise: [b] runs only if [a] holds. *)
Definition and_then (a : bool) (b : M bool) : M bool :=
  if a then b else ret false.

(** [param.stem]: a parameter object has no such attribute. *)
Definition getattr_stem (n : pname) : M string := raise AttributeError.

Declare Scope py_scope.
Delimit Scope py_scope with py.
Notation "x <- m ;; k" := (bind m (fun x => k))
  (at level 61, m at next level, right associativity) : py_scope.
Notation "m ;; k" := (bind m (fun _ => k))
  (at level 61, right associativity) : py_scope.

End Arcpy.

(** ** The toolbox *)

(** What a tool sees of the machine it runs on. *)
Record World : Type := mkWorld {
  (** the directory tree *)
  root : Pathlib.node;
  (** [arcpy.env.currentWorkspace] *)
  currentWorkspace : option string;
  (** [pq.ParquetDataset(folder, use_legacy_dataset=False).schema.names];
      [None] when the reader raises *)
  schema_names : string -> option (list string)
}.

Module pyt_utils.
Import Arcpy.

(** Modelled from the spec: [arcpy_parquet.utils.pyt_utils.deactivate_parameter]
    is imported by the toolbox and its source is not part of the sources at
    hand. The tool activates a column parameter by making it required and
    enabled; a deactivated parameter is one that is neither: optional and
    not enabled. Nothing is said about its value. *)
Definition deactivate_parameter (param : Param) : Param :=
  with_enabled false (with_parameterType Optional param).

End pyt_utils.

Module FeatureClassToParquet.
Import Arcpy.

Definition getParameterInfo : list Param :=
  let input_table :=
    new_Param "input_table" "Input Feature Class" "Input" "GPFeatureLayer"
      Required None true in
  let output_parquet :=
    new_Param "pqt_pth" "Output Parquet" "Output" "DEFolder" Required None
      true in
  let geometry_format :=
    new_Param "geometry_format" "Geometry Format" "Input" "GPString" Required
      (Some "Advanced") true in
  let geometry_format := with_filter_type "ValueList" geometry_format in
  let geometry_format := with_filter_list ["WKB"; "WKT"; "XY"] geometry_format in
  let geometry_format := with_value (PyStr "WKB") geometry_format in
  [input_table; output_parquet; geometry_format].

End FeatureClassToParquet.

Module ParquetToFeatureClass.
Import PyStr Arcpy.
Local Open Scope py_scope.

(** [get_partition_lst]:
    [[p.stem for p in dir_pth.glob("*") if p.is_dir() and p.stem]] *)
Definition get_partition_lst (fs : Pathlib.node) (dir_pth : Pathlib.path)
  : list string :=
  map Pathlib.stem
      (List.filter (fun p => Pathlib.is_dir fs p
                        && negb (String.eqb (Pathlib.stem p) ""))
              (Pathlib.glob fs dir_pth "*")).

(** [getParameterInfo]; [has_h3] is the module-level flag telling whether the
    h3 package can be imported, [wgs84] the text of
    [arcpy.SpatialReference(4326).exportToString()]. *)
Definition getParameterInfo (has_h3 : bool) (wgs84 : string) : list Param :=
  let pqt_pth :=
    new_Param "pqt_pth" "Parquet Folder" "Input" "DEFolder" Required None
      true in
  let pqt_prt_01 :=
    new_Param "pqt_prt_01" "Parquet Partition" "Input" "GPString" Optional
      None false in
  let pqt_prt_02 :=
    new_Param "pqt_prt_02" "Parquet Partition" "Input" "GPString" Optional
      None false in
  let pqt_prt_03 :=
    new_Param "pqt_prt_03" "Parquet Partition" "Input" "GPString" Optional
      None false in
  let sptl_ref :=
    new_Param "sptl_ref" "Spatial Reference" "Input" "GPSpatialReference"
      Required None true in
  let sptl_ref := with_value (PyStr wgs84) sptl_ref in
  let geom_type :=
    new_Param "geom_type" "Geometry Type" "Input" "GPString" Required None
      true in
  let geom_type := with_filter_type "ValueList" geom_type in
  let fltr_lst := ["POINT"; "POLYLINE"; "POLYGON"; "COORDINATES"] in
  let fltr_lst := if has_h3 then fltr_lst ++ ["H3"] else fltr_lst in
  let geom_type := with_filter_list fltr_lst geom_type in
  let geom_type := with_value (PyStr "COORDINATES") geom_type in
  let x_col :=
    new_Param "x_col" "Longitude (X) Column" "Input" "GPString" Optional None
      true in
  let x_col := with_filter_type "ValueList" x_col in
  let y_col :=
    new_Param "y_col" "Latitude (Y) Column" "Input" "GPString" Optional None
      true in
  let y_col := with_filter_type "ValueList" y_col in
  let h3_col :=
    new_Param "h3_col" "H3 Index Column" "Input" "GPString" Optional None
      false in
  let h3_col := with_filter_type "ValueList" h3_col in
  let out_fc_pth :=
    new_Param "out_fc_pth" "Output Feature Class Path" "Output"
      "DEFeatureClass" Required None true in
  let geom_col :=
    new_Param "geom_col" "Geometry Column" "Input" "GPString" Optional
      (Some "Advanced") false in
  let geom_col := with_filter_type "ValueList" geom_col in
  let build_idx :=
    new_Param "build_idx" "Build Spatial Index" "Output" "GPBoolean" Required
      (Some "Advanced") true in
  let build_idx := with_value (PyBool true) build_idx in
  let smpl :=
    new_Param "smpl" "Export Sample" "Input" "GPBoolean" Optional
      (Some "Advanced") true in
  let smpl := with_value (PyBool false) smpl in
  let smpl_cnt :=
    new_Param "smpl_cnt" "Sample Count" "Input" "GPLong" Optional
      (Some "Advanced") false in
  let smpl_cnt := with_value (PyInt 100) smpl_cnt in
  let schema_file_pth :=
    new_Param "schema_file_pth" "Schema File" "Input" "DEFile" Optional
      (Some "Advanced") true in
  let schema_file_pth := with_filter_list ["csv"] schema_file_pth in
  [pqt_pth; pqt_prt_01; pqt_prt_02; pqt_prt_03; sptl_ref; out_fc_pth;
   geom_col; geom_type; x_col; y_col; h3_col; build_idx; smpl; smpl_cnt;
   schema_file_pth].

(** The store the framework hands to [updateParameters] and [execute]: the
    objects of a list, in order. *)
Definition index (n : pname) : nat :=
  match n with
  | pqt_pth => 0 | pqt_prt_01 => 1 | pqt_prt_02 => 2 | pqt_prt_03 => 3
  | sptl_ref => 4 | out_fc_pth => 5 | geom_col => 6 | geom_type => 7
  | x_col => 8 | y_col => 9 | h3_col => 10 | build_idx => 11 | smpl => 12
  | smpl_cnt => 13 | schema_file_pth => 14
  end.

Definition store_of (l : list Param) : parameters :=
  fun n => nth (index n) l (new_Param "" "" "" "" Optional None true).

(** The defaults the column search of [updateParameters] keeps in its four
    local variables. *)
Record defaults : Type := mkDefaults {
  geom_col_value : option string;
  x_col_value : option string;
  y_col_value : option string;
  h3_col_value : option string
}.

(** One turn of [for col in col_lst]. *)
Definition search_step (d : defaults) (col : string) : defaults :=
  let g := if contains "wkb" (lower col) then Some col else geom_col_value d in
  let x := if mem (lower col) ["x"; "lon"; "longitude"] then Some col
           else x_col_value d in
  let y := if mem (lower col) ["y"; "lat"; "latitude"] then Some col
           else y_col_value d in
  let h := if startswith (lower col) "h3" then Some col else h3_col_value d in
  mkDefaults g x y h.

Definition search_defaults (col_lst : list string) : defaults :=
  fold_left search_step col_lst (mkDefaults None None None None).

(** The two validation messages of the tool. The first one reads: Cannot
    locate parquet, the word part between double quotes, files. *)
Definition dquote : string := String (ascii_of_nat 34) EmptyString.

Definition cannot_locate : string :=
  ("Cannot locate parquet " ++ dquote ++ "part" ++ dquote ++ " files.")%string.

Definition sample_count_positive : string :=
  "Sample count must be greater than zero.".

(** [Path(s)] for a text that may be [None] *)
Definition Path_of (t : option string) : M Pathlib.path :=
  match t with
  | Some s => ret (Pathlib.Path s)
  | None => raise TypeError
  end.

(** Reading the local variable [p_pth], bound only where the parquet path
    was altered. *)
Definition read_local {A : Type} (x : option A) : M A :=
  match x with
  | Some a => ret a
  | None => raise UnboundLocalError
  end.

(** [p / v] for a path and a parameter value *)
Definition truediv (p : Pathlib.path) (v : pyval) : M Pathlib.path :=
  match v with
  | PyStr s => ret (Pathlib.joinpath p s)
  | _ => raise TypeError
  end.

(** Filling a partition drop-down when there are partition directories. *)
Definition offer_partitions (n : pname) (lst : list string) : M unit :=
  when (negb (Nat.eqb (List.length lst) 0))
    (setattr n (with_filter_type "ValueList") ;;
     setattr n (with_filter_list lst) ;;
     setattr n (with_enabled true)).

Section UpdateParameters.

(** The helper imported from [arcpy_parquet.utils.pyt_utils]. *)
Variable deactivate_parameter : Param -> Param.

Variable w : World.

(** pre-populate the output name *)
Definition prepopulate_output_name : M unit :=
  a <- getattr pqt_pth altered ;;
  v <- getattr out_fc_pth value ;;
  when (a && is_None v)
    (fc_name <- getattr_stem out_fc_pth ;;
     ws <- Path_of (currentWorkspace w) ;;
     setattr out_fc_pth
       (with_value (PyStr (Pathlib.str (Pathlib.joinpath ws fc_name))))).

(** take actions if parquet path is provided; the result is the binding of
    the local variable [p_pth] *)
Definition inspect_parquet_path : M (option Pathlib.path) :=
  a <- getattr pqt_pth altered ;;
  if a then
    t <- getattr pqt_pth valueAsText ;;
    p_pth <- Path_of t ;;
    let has_part_file :=
      match Pathlib.rglob (root w) p_pth "part-*.parquet" with
      | [] => false
      | _ :: _ => true
      end in
    when (negb has_part_file)
      (setattr pqt_pth (with_message cannot_locate)) ;;
    let prt_01_lst := get_partition_lst (root w) p_pth in
    offer_partitions pqt_prt_01 prt_01_lst ;;
    ret (Some p_pth)
  else ret None.

(** if the partition 01 is modified, populate and enable level two *)
Definition level_two (p_pth : option Pathlib.path) : M unit :=
  a <- getattr pqt_prt_01 altered ;;
  when a
    (p <- read_local p_pth ;;
     v1 <- getattr pqt_prt_01 value ;;
     d <- truediv p v1 ;;
     offer_partitions pqt_prt_02 (get_partition_lst (root w) d)).

(** if the partition 02 is modified, populate and enable level three *)
Definition level_three (p_pth : option Pathlib.path) : M unit :=
  a <- getattr pqt_prt_02 altered ;;
  when a
    (p <- read_local p_pth ;;
     v1 <- getattr pqt_prt_01 value ;;
     d1 <- truediv p v1 ;;
     v2 <- getattr pqt_prt_02 value ;;
     d2 <- truediv d1 v2 ;;
     offer_partitions pqt_prt_03 (get_partition_lst (root w) d2)).

(** if a sample is desired, add ability to specify the sample count *)
Definition sample_count_rules : M unit :=
  sv <- getattr smpl value ;;
  sa <- getattr smpl altered ;;
  cv <- getattr smpl_cnt value ;;
  let too_small := lift (py_lt cv 1) in
  let err := setattr smpl_cnt (with_message sample_count_positive) in
  if is_True sv && is_None cv then err
  else
    c2 <- and_then (is_True sv) too_small ;;
    if c2 then err
    else if sa && is_True sv then setattr smpl_cnt (with_enabled true)
    else if sa && is_False sv && is_None cv then
      setattr smpl_cnt (with_value (PyInt 100))
    else
      c5 <- and_then (sa && is_False sv) too_small ;;
      if c5 then setattr smpl_cnt (with_value (PyInt 100))
      else if sa && is_False sv then setattr smpl_cnt (with_enabled false)
      else ret tt.

(** if an input parquet dataset is provided, read the columns, offer them
    for every column parameter and search for logical defaults *)
Definition read_columns : M defaults :=
  a <- getattr pqt_pth altered ;;
  if a then
    t <- getattr pqt_pth valueAsText ;;
    col_lst <- match t with
               | Some s =>
                   match schema_names w s with
                   | Some l => ret l
                   | None => raise DatasetError
                   end
               | None => raise TypeError
               end ;;
    setattr geom_col (with_filter_list col_lst) ;;
    setattr x_col (with_filter_list col_lst) ;;
    setattr y_col (with_filter_list col_lst) ;;
    setattr h3_col (with_filter_list col_lst) ;;
    ret (search_defaults col_lst)
  else ret (mkDefaults None None None None).

(** [param.parameterType = "Required"; param.enabled = True;
    if param.value is None: param.value = default] *)
Definition activate (n : pname) (default : option string) : M unit :=
  setattr n (with_parameterType Required) ;;
  setattr n (with_enabled true) ;;
  v <- getattr n value ;;
  when (is_None v) (setattr n (with_value (of_option default))).

(** [for param in (...): deactivate_parameter(param)] *)
Fixpoint deactivate_all (l : list pname) : M unit :=
  match l with
  | [] => ret tt
  | n :: l' => setattr n deactivate_parameter ;; deactivate_all l'
  end.

(** once there is something to work with, ensure correct required columns
    are present *)
Definition require_columns (d : defaults) : M unit :=
  ga <- getattr geom_type altered ;;
  pa <- getattr pqt_pth altered ;;
  when (ga || pa)
    (gv <- getattr geom_type value ;;
     if eq_str gv "COORDINATES" then
       activate x_col (x_col_value d) ;;
       activate y_col (y_col_value d) ;;
       deactivate_all [geom_col; h3_col]
     else if eq_str gv "H3" then
       activate h3_col (h3_col_value d) ;;
       deactivate_all [geom_col; x_col; y_col]
     else
       activate geom_col (geom_col_value d) ;;
       deactivate_all [x_col; y_col; h3_col]).

(** if following convention with schema in a nearby directory, search for
    the schema file *)
Definition find_schema_file : M unit :=
  a <- getattr pqt_pth altered ;;
  when a
    (t <- getattr pqt_pth valueAsText ;;
     p <- Path_of t ;;
     let ds_pth := Pathlib.parent p in
     match Pathlib.rglob (root w) ds_pth "schema" with
     | [] => ret tt
     | schm_dir_pth :: _ =>
         match Pathlib.rglob (root w) schm_dir_pth "part*.csv" with
         | [] => ret tt
         | csv_pth :: _ =>
             setattr schema_file_pth (with_value (PyStr (Pathlib.str csv_pth)))
         end
     end).

(** [ParquetToFeatureClass.updateParameters] *)
Definition updateParameters : M unit :=
  prepopulate_output_name ;;
  p_pth <- inspect_parquet_path ;;
  level_two p_pth ;;
  level_three p_pth ;;
  sample_count_rules ;;
  d <- read_columns ;;
  require_columns d ;;
  find_schema_file.

End UpdateParameters.

(** What [execute] passes as [geometry_column]. *)
Inductive geometry_column_arg : Type :=
| Columns (cols : list (option string))
| Column (col : option string).

(** The arguments of the call to [parquet_to_feature_class]. *)
Record conversion_call : Type := mkCall {
  parquet_path : option string;
  output_feature_class : Pathlib.path;
  schema_file : option Pathlib.path;
  geometry_type : option string;
  parquet_partitions : list string;
  geometry_column : geometry_column_arg;
  spatial_reference : pyval;
  sample_count : option Z;
  build_spatial_index : pyval
}.

(** [[p for p in partition_vals if p is not None]] *)
Fixpoint not_none (l : list (option string)) : list string :=
  match l with
  | [] => []
  | Some p :: l' => p :: not_none l'
  | None :: l' => not_none l'
  end.

(** [int(s)] *)
Definition int (s : option string) : exn + Z :=
  match s with
  | None => inl TypeError
  | Some t => match int_of_str t with Some z => inr z | None => inl ValueError end
  end.

(** [ParquetToFeatureClass.execute]: the call it ends with, or the exception
    raised before. The parameter objects are only read. *)
Definition execute (st : parameters) : exn + conversion_call :=
  let pqt_pth_ := valueAsText (st pqt_pth) in
  let pqt_prt_01_ := valueAsText (st pqt_prt_01) in
  let pqt_prt_02_ := valueAsText (st pqt_prt_02) in
  let pqt_prt_03_ := valueAsText (st pqt_prt_03) in
  let sptl_ref_ := value (st sptl_ref) in
  let out_fc_pth_ := valueAsText (st out_fc_pth) in
  let geom_col_ := valueAsText (st geom_col) in
  let geom_type_ := valueAsText (st geom_type) in
  let x_col_ := valueAsText (st x_col) in
  let y_col_ := valueAsText (st y_col) in
  let h3_col_ := valueAsText (st h3_col) in
  let build_idx_ := value (st build_idx) in
  let smpl_ := value (st smpl) in
  let smpl_cnt_ := valueAsText (st smpl_cnt) in
  let schema_file_pth_ := option_map Pathlib.Path (valueAsText (st schema_file_pth)) in
  let partition_vals := [pqt_prt_01_; pqt_prt_02_; pqt_prt_03_] in
  let partition_vals := not_none partition_vals in
  let geometry_column_ :=
    if eq_str (of_option geom_type_) "COORDINATES" then Columns [x_col_; y_col_]
    else if eq_str (of_option geom_type_) "H3" then Column h3_col_
    else Column geom_col_ in
  match (if is_True smpl_ then
           match int smpl_cnt_ with
           | inr z => inr (Some z)
           | inl e => inl e
           end
         else inr None) with
  | inl e => inl e
  | inr smpl_cnt_ =>
      match out_fc_pth_ with
      | None => inl TypeError
      | Some o =>
          inr (mkCall pqt_pth_ (Pathlib.Path o) schema_file_pth_ geom_type_
                 partition_vals geometry_column_ sptl_ref_ smpl_cnt_
                 build_idx_)
      end
  end.

End ParquetToFeatureClass.

(** The repository keeps an earlier copy of the toolbox beside the current
    one. Its Parquet to Feature Class tool has no coordinate or H3 columns;
    the steps of its [updateParameters] that differ from the current ones
    are embedded here. *)
Module Earlier.
Import PyStr Arcpy.
Local Open Scope py_scope.

(** [part_lst = [itm for itm in p_pth.rglob('part-*')]] and the test
    [len(part_lst) == 0] *)
Definition no_part_files (fs : Pathlib.node) (p_pth : Pathlib.path) : bool :=
  Nat.eqb (List.length (Pathlib.rglob fs p_pth "part-*")) 0.

(** if a sample is desired, add ability to specify the sample count: the
    count is compared with 1 without a test for [None] *)
Definition sample_count_rules : M unit :=
  sv <- getattr smpl value ;;
  sa <- getattr smpl altered ;;
  cv <- getattr smpl_cnt value ;;
  let too_small := lift (py_lt cv 1) in
  c1 <- and_then (is_True sv) too_small ;;
  if c1 then
    setattr smpl_cnt
      (with_message ParquetToFeatureClass.sample_count_positive)
  else if sa && is_True sv then setattr smpl_cnt (with_enabled true)
  else
    c3 <- and_then (sa && is_False sv) too_small ;;
    if c3 then setattr smpl_cnt (with_value (PyInt 100))
    else if sa && is_False sv then setattr smpl_cnt (with_enabled false)
    else ret tt.

(** [for col in col_lst: if 'wkb' in col.lower(): geom_col.value = col;
    break] *)
Fixpoint first_wkb (col_lst : list string) : option string :=
  match col_lst with
  | [] => None
  | col :: rest =>
      if contains "wkb" (lower col) then Some col else first_wkb rest
  end.

(** if an input parquet dataset is provided, read the columns to provide
    options for the advanced input *)
Definition read_columns (w : World) : M unit :=
  a <- getattr pqt_pth altered ;;
  when a
    (t <- getattr pqt_pth valueAsText ;;
     col_lst <- match t with
                | Some s =>
                    match schema_names w s with
                    | Some l => ret l
                    | None => raise DatasetError
                    end
                | None => raise TypeError
                end ;;
     setattr geom_col (with_filter_list col_lst) ;;
     match first_wkb col_lst with
     | Some col => setattr geom_col (with_value (PyStr col))
     | None => ret tt
     end).

End Earlier.

(** ** Notions the statements are written with *)

Module Spec.
Import PyStr Arcpy ParquetToFeatureClass.

(** [keeps f n m]: whatever way [m] ends, the attribute [f] of the object
    [n] is what it was. *)
Definition keeps {A B : Type} (f : Param -> B) (n : pname) (m : M A) : Prop :=
  forall st, f (final_store (m st) n) = f (st n).

(** The names the pattern [part-*.parquet] describes. *)
Definition is_part_file_name (nm : string) : Prop :=
  exists mid, nm = ("part-" ++ mid ++ ".parquet")%string.

Definition wildcard (c : ascii) : bool := Ascii.eqb c "*" || Ascii.eqb c "?".

Fixpoint literal (pat : string) : bool :=
  match pat with
  | EmptyString => true
  | String c pat' => negb (wildcard c) && literal pat'
  end.

(** [under fs p x]: [x] lies somewhere under the directory the path names. *)
Definition under (fs : Pathlib.node) (p : Pathlib.path) (x : Pathlib.node) : Prop :=
  exists n, Pathlib.lookup fs p = Some n /\ Pathlib.below n x.

(** The last element of a list that passes a test, if any, else [init]. *)
Definition last_such (f : string -> bool) (l : list string)
  (init : option string) : option string :=
  fold_left (fun acc c => if f c then Some c else acc) l init.

Definition is_wkb (col : string) : bool := contains "wkb" (lower col).
Definition is_lon (col : string) : bool :=
  mem (lower col) ["x"; "lon"; "longitude"].
Definition is_lat (col : string) : bool :=
  mem (lower col) ["y"; "lat"; "latitude"].
Definition is_h3 (col : string) : bool := startswith (lower col) "h3".

(** The sample count is missing or less than one. *)
Definition no_sample_count (cv : pyval) : Prop :=
  cv = PyNone \/ exists z, as_number cv = Some z /\ (z < 1)%Z.

(** What activating the parameter [n] with a default makes of it. *)
Definition activated (n : pname) (default : option string)
  (st s' : parameters) : Prop :=
  parameterType (s' n) = Required /\
  enabled (s' n) = true /\
  value (s' n) = (if is_None (value (st n)) then of_option default
                  else value (st n)) /\
  filter (s' n) = filter (st n).

(** Column names as the search for defaults recognises them. *)
Definition wkb_name (col : string) : Prop :=
  exists a b, lower col = (a ++ "wkb" ++ b)%string.
Definition lon_name (col : string) : Prop :=
  In (lower col) ["x"; "lon"; "longitude"].
Definition lat_name (col : string) : Prop :=
  In (lower col) ["y"; "lat"; "latitude"].
Definition h3_name (col : string) : Prop :=
  exists r, lower col = ("h3" ++ r)%string.

(** A value that was unset becomes a column of the wanted kind when the
    schema has one, and stays unset when it has none; a value that was set
    stays what it was. *)
Definition default_or_kept (wanted : string -> Prop) (col_lst : list string)
  (before after : pyval) : Prop :=
  (before = PyNone ->
   ((exists c, In c col_lst /\ wanted c) ->
    exists c, after = PyStr c /\ In c col_lst /\ wanted c) /\
   ((forall c, In c col_lst -> ~ wanted c) -> after = PyNone)) /\
  (before <> PyNone -> after = before).

(** The column parameter [n] is enabled and required. *)
Definition switched_on (st : parameters) (n : pname) : Prop :=
  enabled (st n) = true /\ parameterType (st n) = Required.

(** The column parameter [n] is what the helper made of it, and is not
    enabled. *)
Definition switched_off (deactivate_parameter : Param -> Param)
  (st : parameters) (n : pname) : Prop :=
  (exists q, st n = deactivate_parameter q) /\ enabled (st n) = false.

(** When a run of [updateParameters] gets through, read off the
    parameters and the machine before the run:
    - an altered parquet path needs a text, an output that already has a
      value and a folder the Parquet reader can open;
    - an altered partition needs the parquet path altered too, and texts in
      the partition values joined to the folder;
    - a sample count that gets compared with 1 must be a number. *)
Definition is_text (v : pyval) : bool :=
  match v with PyStr _ => true | _ => false end.

Definition is_number (v : pyval) : bool :=
  match as_number v with Some _ => true | None => false end.

Definition folder_ready (w : World) (st : parameters) : bool :=
  if altered (st pqt_pth) then
    negb (is_None (value (st out_fc_pth))) &&
    match valueAsText (st pqt_pth) with
    | Some p => match schema_names w p with Some _ => true | None => false end
    | None => false
    end
  else true.

Definition partitions_ready (st : parameters) : bool :=
  (if altered (st pqt_prt_01)
   then altered (st pqt_pth) && is_text (value (st pqt_prt_01)) else true)
  &&
  (if altered (st pqt_prt_02)
   then altered (st pqt_pth) && is_text (value (st pqt_prt_01))
        && is_text (value (st pqt_prt_02))
   else true).

Definition sample_ready (st : parameters) : bool :=
  if (is_True (value (st smpl))
      || (altered (st smpl) && is_False (value (st smpl))))
     && negb (is_None (value (st smpl_cnt)))
  then is_number (value (st smpl_cnt)) else true.

Definition runs_through (w : World) (st : parameters) : bool :=
  folder_ready w st && partitions_ready st && sample_ready st.

End Spec.

(** ** Concrete machines and parameter states *)

Module Examples.
Import Arcpy ParquetToFeatureClass.

(** A dataset partitioned by year, month and day, with its schema folder
    next to it. The second year directory has a suffix in its name. *)
Definition tree : Pathlib.node :=
  Pathlib.Dir ""
    [Pathlib.Dir "data"
       [Pathlib.Dir "pqt"
          [Pathlib.Dir "year=2020"
             [Pathlib.Dir "month=1"
                [Pathlib.Dir "day=5"
                   [Pathlib.File "part-00000-a1.snappy.parquet"]]];
           Pathlib.Dir "year=2021.5" [];
           Pathlib.File "_SUCCESS"];
        Pathlib.Dir "schema" [Pathlib.File "part-0.csv"]]].

(** A folder that holds a directory named like a part file and no regular
    file, and an empty folder. *)
Definition bare_tree : Pathlib.node :=
  Pathlib.Dir "" [Pathlib.Dir "empty" []; Pathlib.Dir "odd" [Pathlib.Dir "part-0.parquet" []]].

Definition columns : list string := ["id"; "WKB_geom"; "Lon"; "LAT"; "h3_09"].

Definition machine : World :=
  mkWorld tree (Some "/ws/project.gdb")
    (fun folder => if String.eqb folder "/data/pqt" then Some columns else None).

Definition bare_machine : World :=
  mkWorld bare_tree (Some "/ws/project.gdb")
    (fun folder => if String.eqb folder "/empty" then Some [] else None).

(** The parameters as the tool declares them. *)
Definition fresh : parameters := store_of (getParameterInfo true "GEOGCS").

(** The user enters a value: the object holds it and counts as altered. *)
Definition enter (n : pname) (v : pyval) (st : parameters) : parameters :=
  update st n (fun q => with_altered true (with_value v q)).

(** The folder is chosen and the framework has proposed an output. *)
Definition folder_chosen : parameters :=
  enter pqt_pth (PyStr "/data/pqt")
    (update fresh out_fc_pth (with_value (PyStr "/ws/project.gdb/pqt"))).

(** The folder is chosen while the output has no value yet. *)
Definition folder_chosen_no_output : parameters :=
  enter pqt_pth (PyStr "/data/pqt") fresh.

(** Year and month are chosen as well. *)
Definition partitions_chosen : parameters :=
  enter pqt_prt_02 (PyStr "month=1")
    (enter pqt_prt_01 (PyStr "year=2020") folder_chosen).

(** A partition holds a value while the folder parameter is unaltered, as
    after the user blanks the folder out again. *)
Definition partition_only : parameters :=
  enter pqt_prt_01 (PyStr "year=2020") fresh.

(** The geometry type is switched to POINT, to H3. *)
Definition point_chosen : parameters :=
  enter geom_type (PyStr "POINT") folder_chosen.

Definition h3_chosen : parameters :=
  enter geom_type (PyStr "H3") folder_chosen.

(** A sample is asked for with the count blanked out, with a count of 25;
    the sample is switched off with a count of zero. *)
Definition sample_without_count : parameters :=
  enter smpl_cnt PyNone (enter smpl (PyBool true) folder_chosen).

Definition sample_of_25 : parameters :=
  enter smpl_cnt (PyInt 25) (enter smpl (PyBool true) folder_chosen).

Definition sample_off_zero : parameters :=
  enter smpl (PyBool false) (enter smpl_cnt (PyInt 0) folder_chosen).

(** The empty folder is chosen. *)
Definition empty_folder_chosen : parameters :=
  enter pqt_pth (PyStr "/empty")
    (update fresh out_fc_pth (with_value (PyStr "/ws/project.gdb/empty"))).

End Examples.

(** ** The rest of the toolbox *)

(** The statements at the head of the toolbox file: the local library is
    imported from the environment if it is installed there, and from the
    [src] folder two levels above the toolbox file otherwise. *)
Module Loading.
Import PyStr.

(** [find_spec name is not None] is the argument [installed]; [file] is
    [__file__], [sys_path] is [sys.path]. The result is [sys.path] after the
    statements, or [None] where they raise the exception telling to run
    make env or keep the toolbox with the project. *)
Definition import_local_library (installed : bool) (fs : Pathlib.node)
  (file : Pathlib.path) (sys_path : list string) : option (list string) :=
  if installed then Some sys_path
  else
    let dir_src :=
      Pathlib.joinpath (Pathlib.parent (Pathlib.parent file)) "src" in
    let pkg_dir_lst :=
      List.filter (fun pth => String.eqb (Pathlib.stem pth) "arcpy_parquet")
                  (Pathlib.glob fs dir_src "*") in
    if Nat.eqb (List.length pkg_dir_lst) 0 then None
    else Some (Pathlib.str dir_src :: sys_path).

End Loading.

Module CreateSchemaFile.
Import Arcpy.

Definition getParameterInfo : list Param :=
  let tmplt_fc_pth :=
    new_Param "tmplt_fc_pth" "Template Feature Class Path" "Input"
      "DEFeatureClass" Required None true in
  let schema_file_pth :=
    new_Param "schema_file_pth" "Schema File" "Output" "DEFile" Optional None
      true in
  [tmplt_fc_pth; schema_file_pth].

(** The arguments of the call to [create_schema_file]. *)
Record schema_call : Type := mkSchemaCall {
  template_feature_class_path : Pathlib.path;
  output_schema_file : Pathlib.path
}.

(** [execute], on the two parameter objects of the tool:
    [Path(parameters[0].valueAsText)], then [Path(parameters[1].valueAsText)],
    then the call. *)
Definition execute (tmplt_fc_pth schema_file_pth : Param)
  : exn + schema_call :=
  match valueAsText tmplt_fc_pth with
  | None => inl TypeError
  | Some t =>
      match valueAsText schema_file_pth with
      | None => inl TypeError
      | Some s => inr (mkSchemaCall (Pathlib.Path t) (Pathlib.Path s))
      end
  end.

End CreateSchemaFile.

(** The earlier copy's [updateParameters], put together from the steps it
    shares with the current copy and the steps of [Earlier]. *)
Module EarlierRun.
Import PyStr Arcpy.
Local Open Scope py_scope.

(** take actions if parquet path is provided *)
Definition inspect_parquet_path (w : World) : M (option Pathlib.path) :=
  a <- getattr pqt_pth altered ;;
  if a then
    t <- getattr pqt_pth valueAsText ;;
    p_pth <- ParquetToFeatureClass.Path_of t ;;
    when (Earlier.no_part_files (root w) p_pth)
      (setattr pqt_pth (with_message ParquetToFeatureClass.cannot_locate)) ;;
    let prt_01_lst := ParquetToFeatureClass.get_partition_lst (root w) p_pth in
    ParquetToFeatureClass.offer_partitions pqt_prt_01 prt_01_lst ;;
    ret (Some p_pth)
  else ret None.

Definition updateParameters (w : World) : M unit :=
  ParquetToFeatureClass.prepopulate_output_name w ;;
  p_pth <- inspect_parquet_path w ;;
  ParquetToFeatureClass.level_two w p_pth ;;
  ParquetToFeatureClass.level_three w p_pth ;;
  Earlier.sample_count_rules ;;
  Earlier.read_columns w ;;
  ParquetToFeatureClass.find_schema_file w.

End EarlierRun.

Module MoreSpec.
Import PyStr Arcpy.

(** The names the pattern [part*.csv] describes. *)
Definition is_schema_part_name (nm : string) : Prop :=
  exists mid, nm = ("part" ++ mid ++ ".csv")%string.

(** The tool was opened and nothing has been entered yet, or what was
    entered does not concern [updateParameters]. *)
Definition nothing_to_do (st : parameters) : bool :=
  negb (altered (st pqt_pth)) && negb (altered (st pqt_prt_01))
  && negb (altered (st pqt_prt_02)) && negb (altered (st geom_type))
  && negb (altered (st smpl)) && negb (is_True (value (st smpl))).

End MoreSpec.

Module MoreExamples.
Import Arcpy Examples.

(** A project folder with the toolbox in [arcgis] and, in [src], only the
    metadata folder of the package. *)
Definition project_tree : Pathlib.node :=
  Pathlib.Dir ""
    [Pathlib.Dir "project"
       [Pathlib.Dir "arcgis" [Pathlib.File "ArcPy-Parquet-Tools.pyt"];
        Pathlib.Dir "src" [Pathlib.Dir "arcpy_parquet.egg-info" []]]].

Definition toolbox_file : Pathlib.path :=
  ["project"; "arcgis"; "ArcPy-Parquet-Tools.pyt"].

(** A sample is switched on with a count of 25. *)
Definition sample_switched_on : parameters :=
  enter smpl (PyBool true) (enter smpl_cnt (PyInt 25) folder_chosen).

(** A sample is asked for with the count blanked out, nothing else entered. *)
Definition only_sample_without_count : parameters :=
  enter smpl_cnt PyNone (enter smpl (PyBool true) fresh).

(** The user picked the identifier column as geometry column. *)
Definition geometry_column_picked : parameters :=
  enter geom_col (PyStr "id") point_chosen.

(** The dataset folder of [Examples.tree] and its first year. *)
Definition year_2020 : Pathlib.node :=
  Pathlib.Dir "year=2020"
    [Pathlib.Dir "month=1"
       [Pathlib.Dir "day=5" [Pathlib.File "part-00000-a1.snappy.parquet"]]].

Definition dataset : Pathlib.node :=
  Pathlib.Dir "pqt"
    [year_2020; Pathlib.Dir "year=2021.5" []; Pathlib.File "_SUCCESS"].

End MoreExamples.

(** * Facts *)

(** ** Python strings *)

Module PyStrFacts.
Import PyStr.

Lemma startswith_spec (s p : string) :
  startswith s p = true <-> exists r, s = (p ++ r)%string.
Proof.
  revert s; induction p as [|a p IH]; intros s; simpl.
  - split; [intros _; now exists s | reflexivity].
  - destruct s as [|b s].
    + split; [discriminate | intros [r Hr]; discriminate].
    + rewrite andb_true_iff, Ascii.eqb_eq, IH. split.
      * intros [-> [r ->]]. now exists r.
      * intros [r Hr]. injection Hr as -> ->. split; [reflexivity | now exists r].
Qed.

Lemma contains_spec (sub s : string) :
  contains sub s = true <-> exists a b, s = (a ++ sub ++ b)%string.
Proof.
  induction s as [|c s IH]; simpl contains.
  - destruct (startswith "" sub) eqn:E.
    + split; [intros _|reflexivity].
      apply startswith_spec in E. destruct E as [r Hr]. now exists "", r.
    + split; [discriminate|]. intros (a & b & H).
      destruct a; simpl in H; [|discriminate].
      assert (startswith "" sub = true) by (apply startswith_spec; now exists b).
      congruence.
  - destruct (startswith (String c s) sub) eqn:E.
    + split; [intros _|reflexivity].
      apply startswith_spec in E. destruct E as [r Hr]. now exists "", r.
    + rewrite IH. split.
      * intros (a & b & ->). now exists (String c a), b.
      * intros (a & b & H). destruct a as [|c' a]; simpl in H.
        -- assert (startswith (String c s) sub = true)
             by (apply startswith_spec; now exists b).
           congruence.
        -- injection H as _ ->. now exists a, b.
Qed.

Lemma mem_spec (x : string) (l : list string) : mem x l = true <-> In x l.
Proof.
  induction l as [|y l IH]; simpl.
  - split; [discriminate | tauto].
  - rewrite orb_true_iff, IH, String.eqb_eq. intuition congruence.
Qed.

Lemma int_of_str_of_int (z : Z) : int_of_str (str_of_int z) = Some z.
Proof.
  unfold int_of_str, str_of_int.
  assert (H : NilZero.int_of_string (NilZero.string_of_int (Z.to_int z))
              = Some (Z.to_int z)).
  { apply NilZero.isi; destruct z; simpl; try discriminate;
      intros [= E]; revert E; apply DecimalPos.Unsigned.to_uint_nonnil. }
  rewrite H. simpl. now rewrite DecimalZ.of_to.
Qed.

End PyStrFacts.

(** ** pathlib *)

Module PathlibFacts.
Import PyStr Pathlib Spec.

Lemma fnmatch_empty (nm : string) : fnmatch "" nm = true <-> nm = "".
Proof. destruct nm; simpl; split; congruence. Qed.

Lemma fnmatch_char (c : ascii) (pat nm : string) :
  wildcard c = false ->
  fnmatch (String c pat) nm = true <->
  exists nm', nm = String c nm' /\ fnmatch pat nm' = true.
Proof.
  unfold wildcard. intros Hc. apply orb_false_iff in Hc. destruct Hc as [H1 H2].
  simpl. rewrite H1, H2. destruct nm as [|a nm].
  - split; [discriminate | intros (? & ? & _); discriminate].
  - simpl. rewrite andb_true_iff, Ascii.eqb_eq. split.
    + intros [-> H]. eauto.
    + intros (nm' & E & H). injection E as -> ->. auto.
Qed.

Lemma fnmatch_star (pat nm : string) :
  fnmatch (String "*" pat) nm = true <->
  exists a b, nm = (a ++ b)%string /\ fnmatch pat b = true.
Proof.
  simpl. induction nm as [|c nm IH].
  - rewrite orb_false_r. split.
    + intros H. now exists "", "".
    + intros (a & b & E & H). destruct a; [|discriminate].
      simpl in E. now subst b.
  - rewrite orb_true_iff, IH. split.
    + intros [H | (a & b & -> & H)].
      * now exists "", (String c nm).
      * now exists (String c a), b.
    + intros (a & b & E & H). destruct a as [|c' a]; simpl in E.
      * left. now subst b.
      * injection E as -> ->. right. eauto.
Qed.

Lemma fnmatch_literal (pat nm : string) :
  literal pat = true -> (fnmatch pat nm = true <-> nm = pat).
Proof.
  revert nm. induction pat as [|c pat IH]; intros nm Hl.
  - apply fnmatch_empty.
  - simpl in Hl. apply andb_true_iff in Hl. destruct Hl as [Hc Hl].
    apply negb_true_iff in Hc. rewrite (fnmatch_char c pat nm Hc). split.
    + intros (nm' & -> & H). f_equal. now apply IH.
    + intros ->. exists pat. split; [reflexivity | now apply IH].
Qed.

(** The glob pattern of one directory level accepts every name. *)
Lemma fnmatch_any (nm : string) : fnmatch "*" nm = true.
Proof.
  apply fnmatch_star. exists nm, "". split.
  - induction nm; simpl; congruence.
  - reflexivity.
Qed.

(** What [part-*.parquet] accepts. *)
Lemma fnmatch_part_parquet (nm : string) :
  fnmatch "part-*.parquet" nm = true <-> is_part_file_name nm.
Proof.
  unfold is_part_file_name.
  rewrite fnmatch_char by reflexivity. split.
  - intros (n1 & -> & H). apply fnmatch_char in H; [|reflexivity].
    destruct H as (n2 & -> & H). apply fnmatch_char in H; [|reflexivity].
    destruct H as (n3 & -> & H). apply fnmatch_char in H; [|reflexivity].
    destruct H as (n4 & -> & H). apply fnmatch_char in H; [|reflexivity].
    destruct H as (n5 & -> & H). apply fnmatch_star in H.
    destruct H as (a & b & -> & H). apply fnmatch_literal in H; [|reflexivity].
    subst b. now exists a.
  - intros (mid & ->). exists ("art-" ++ mid ++ ".parquet")%string.
    split; [reflexivity|].
    do 4 (apply fnmatch_char; [reflexivity|]; eexists; split; [reflexivity|]).
    apply fnmatch_star. exists mid, ".parquet". split; reflexivity.
Qed.

(** *** stems *)

Lemma substring_prefix_nonempty (i : nat) (s : string) :
  0 < i -> s <> "" -> substring 0 i s <> "".
Proof.
  intros Hi Hs. destruct i; [lia|]. destruct s; [congruence|]. simpl. discriminate.
Qed.

Lemma stem_of_name_nonempty (nm : string) :
  nm <> "" -> stem_of_name nm <> "".
Proof.
  intros H. unfold stem_of_name. destruct (rfind "." nm) as [i|]; [|exact H].
  destruct (0 <? i) eqn:Hi; simpl; [|exact H].
  destruct (i <? String.length nm - 1); [|exact H].
  apply substring_prefix_nonempty; [now apply Nat.ltb_lt | exact H].
Qed.

Lemma name_snoc (p : path) (c : string) : name (p ++ [c]) = c.
Proof. unfold name. apply last_last. Qed.

(** *** looking paths up *)

Lemma find_child_In (nm : string) (l : list node) (n : node) :
  find_child nm l = Some n -> In n l /\ node_name n = nm.
Proof.
  induction l as [|c l IH]; simpl; [discriminate|].
  destruct (String.eqb_spec (node_name c) nm) as [E|E].
  - intros [= <-]. auto.
  - intros H. destruct (IH H). auto.
Qed.

Lemma find_child_self (l : list node) (c : node) :
  distinct (map node_name l) = true -> In c l ->
  find_child (node_name c) l = Some c.
Proof.
  induction l as [|d l IH]; simpl; [tauto|].
  intros Hd Hin. apply andb_true_iff in Hd. destruct Hd as [Hm Hd].
  destruct Hin as [->|Hin].
  - now rewrite String.eqb_refl.
  - destruct (String.eqb_spec (node_name d) (node_name c)) as [E|E].
    + exfalso. apply negb_true_iff in Hm.
      assert (mem (node_name d) (map node_name l) = true).
      { apply PyStrFacts.mem_spec. rewrite E. now apply in_map. }
      congruence.
    + now apply IH.
Qed.

Lemma lookup_snoc (fs : node) (p : path) (c : string) :
  lookup fs (p ++ [c]) =
  match lookup fs p with
  | Some n => find_child c (entries n)
  | None => None
  end.
Proof.
  revert fs. induction p as [|d p IH]; intros fs; simpl.
  - now destruct (find_child c (entries fs)).
  - destruct (find_child d (entries fs)); [apply IH | reflexivity].
Qed.

Lemma well_formed_entries (n : node) :
  well_formed n = true ->
  distinct (map node_name (entries n)) = true /\
  forall c, In c (entries n) -> node_name c <> "" /\ well_formed c = true.
Proof.
  destruct n as [nm|nm ch]; simpl.
  - intros _. split; [reflexivity | tauto].
  - intros H. apply andb_true_iff in H. destruct H as [Hd Hf]. split; [exact Hd|].
    intros c Hc. rewrite forallb_forall in Hf. specialize (Hf c Hc).
    apply andb_true_iff in Hf. destruct Hf as [Hn Hw]. split; [|exact Hw].
    apply negb_true_iff in Hn. now apply String.eqb_neq.
Qed.

Lemma lookup_well_formed (fs : node) (p : path) (n : node) :
  well_formed fs = true -> lookup fs p = Some n -> well_formed n = true.
Proof.
  revert fs. induction p as [|c p IH]; intros fs Hw; simpl.
  - now intros [= <-].
  - destruct (find_child c (entries fs)) as [m|] eqn:E; [|discriminate].
    apply find_child_In in E. destruct E as [Hin _].
    apply IH. now apply (well_formed_entries fs Hw).
Qed.

(** *** recursive globbing finds nothing exactly when nothing below matches *)

Lemma flat_map_nil {A B : Type} (f : A -> list B) (l : list A) :
  flat_map f l = [] <-> forall a, In a l -> f a = [].
Proof.
  induction l as [|a l IH]; simpl.
  - split; [tauto | reflexivity].
  - split.
    + intros H. apply app_eq_nil in H. destruct H as [Ha Hl].
      intros b [<-|Hb]; [exact Ha | now apply IH].
    + intros H. rewrite (H a) by now left. simpl. apply IH. intros b Hb.
      apply H. now right.
Qed.

Lemma filter_nil {A : Type} (f : A -> bool) (l : list A) :
  filter f l = [] <-> forall a, In a l -> f a = false.
Proof.
  induction l as [|a l IH]; simpl.
  - split; [tauto | reflexivity].
  - destruct (f a) eqn:E.
    + split; [discriminate|]. intros H. specialize (H a (or_introl eq_refl)).
      congruence.
    + rewrite IH. split.
      * intros H b [<-|Hb]; auto.
      * intros H b Hb. apply H. now right.
Qed.

Lemma rglob_node_nil (pat : string) (n : node) :
  forall here,
    rglob_node pat here n = [] <->
    forall x, below n x -> fnmatch pat (node_name x) = false.
Proof.
  induction n as [nm|nm ch IH] using node_ind; intros here; simpl.
  - split; [|reflexivity]. intros _ x Hx. inversion Hx.
  - rewrite Forall_forall in IH. split.
    + intros H. apply app_eq_nil in H. destruct H as [H1 H2].
      apply map_eq_nil in H1. rewrite filter_nil in H1.
      rewrite flat_map_nil in H2.
      intros x Hx. inversion Hx as [? ? c Hc|? ? c y Hc Hy]; subst.
      * now apply H1.
      * apply (IH c Hc (here ++ [node_name c])); [now apply H2 | exact Hy].
    + intros H.
      assert (H1 : filter (fun c => fnmatch pat (node_name c)) ch = []).
      { apply filter_nil. intros c Hc. apply H. now constructor. }
      assert (H2 : flat_map
                     (fun c => rglob_node pat (here ++ [node_name c]) c) ch = []).
      { apply flat_map_nil. intros c Hc. apply (IH c Hc). intros x Hx.
        apply H. now apply below_deeper with c. }
      now rewrite H1, H2.
Qed.

Lemma rglob_nil (fs : node) (p : path) (pat : string) :
  rglob fs p pat = [] <->
  ~ exists x, under fs p x /\ fnmatch pat (node_name x) = true.
Proof.
  unfold rglob, under. destruct (lookup fs p) as [n|].
  - rewrite rglob_node_nil. split.
    + intros H (x & (m & [= <-] & Hx) & Hm). rewrite (H x Hx) in Hm. discriminate.
    + intros H x Hx. destruct (fnmatch pat (node_name x)) eqn:E; [|reflexivity].
      exfalso. apply H. exists x. split; [|exact E]. now exists n.
  - split; [|reflexivity]. intros _ (x & (m & [=] & _) & _).
Qed.

End PathlibFacts.

(** ** Runs over the store *)

Module RunFacts.
Import Arcpy Spec.

Lemma update_same (st : parameters) (n : pname) (f : Param -> Param) :
  update st n f n = f (st n).
Proof. unfold update. destruct (pname_eq_dec n n); congruence. Qed.

Lemma update_other (st : parameters) (n m : pname) (f : Param -> Param) :
  n <> m -> update st n f m = st m.
Proof. unfold update. destruct (pname_eq_dec n m); congruence. Qed.

Section Keeps.
Context {B : Type} (f : Param -> B) (n : pname).

Lemma keeps_ret {A : Type} (a : A) : keeps f n (ret a).
Proof. intros st. reflexivity. Qed.

Lemma keeps_raise {A : Type} (e : exn) : keeps f n (@raise A e).
Proof. intros st. reflexivity. Qed.

Lemma keeps_getattr {A : Type} (m : pname) (g : Param -> A) :
  keeps f n (getattr m g).
Proof. intros st. reflexivity. Qed.

Lemma keeps_getattr_stem (m : pname) : keeps f n (getattr_stem m).
Proof. intros st. reflexivity. Qed.

Lemma keeps_lift {A : Type} (r : exn + A) : keeps f n (lift r).
Proof. intros st. destruct r; reflexivity. Qed.

Lemma keeps_setattr_other (m : pname) (g : Param -> Param) :
  m <> n -> keeps f n (setattr m g).
Proof. intros H st. simpl. now rewrite update_other. Qed.

Lemma keeps_setattr_field (m : pname) (g : Param -> Param) :
  (forall p, f (g p) = f p) -> keeps f n (setattr m g).
Proof.
  intros H st. simpl. unfold update. destruct (pname_eq_dec m n); [|reflexivity].
  subst m. apply H.
Qed.

Lemma keeps_bind {A C : Type} (m : M A) (k : A -> M C) :
  keeps f n m -> (forall a, keeps f n (k a)) -> keeps f n (bind m k).
Proof.
  intros Hm Hk st. unfold bind. specialize (Hm st).
  destruct (m st) as [a st1|e st1]; simpl in *.
  - now rewrite Hk.
  - exact Hm.
Qed.

Lemma keeps_when (c : bool) (body : M unit) :
  keeps f n body -> keeps f n (when c body).
Proof. intros H. destruct c; [exact H | apply keeps_ret]. Qed.

Lemma keeps_and_then (a : bool) (b : M bool) :
  keeps f n b -> keeps f n (and_then a b).
Proof. intros H. destruct a; [exact H | apply keeps_ret]. Qed.

(** What the first part of a sequence leaves in [f] of [n] is final when
    the rest keeps it. *)
Lemma final_bind {A C : Type} (m : M A) (k : A -> M C) (st : parameters) :
  (forall a, keeps f n (k a)) ->
  f (final_store (bind m k st) n) = f (final_store (m st) n).
Proof.
  intros Hk. unfold bind. destruct (m st) as [a st1|e st1]; simpl.
  - apply Hk.
  - reflexivity.
Qed.

End Keeps.

Lemma bind_Done {A C : Type} (m : M A) (k : A -> M C) (st st2 : parameters)
  (c : C) :
  bind m k st = Done c st2 ->
  exists a st1, m st = Done a st1 /\ k a st1 = Done c st2.
Proof.
  unfold bind. destruct (m st) as [a st1|e st1]; [|discriminate]. eauto.
Qed.

Lemma bind_step {A C : Type} (m : M A) (k : A -> M C) (st st1 : parameters)
  (a : A) :
  m st = Done a st1 -> bind m k st = k a st1.
Proof. unfold bind. now intros ->. Qed.

Lemma keeps_Done {A B : Type} (f : Param -> B) (n : pname) (m : M A)
  (st st1 : parameters) (a : A) :
  keeps f n m -> m st = Done a st1 -> f (st1 n) = f (st n).
Proof. intros H E. specialize (H st). now rewrite E in H. Qed.

Lemma completes_bind {A C : Type} (m : M A) (k : A -> M C) (st : parameters) :
  completes (bind m k st) =
  match m st with
  | Done a st1 => completes (k a st1)
  | Raised _ _ => false
  end.
Proof. unfold bind. now destruct (m st). Qed.

(** A sequence gets through when its first part does and the rest does from
    wherever the first part leaves the store. *)
Lemma completes_seq {A C : Type} (m : M A) (k : A -> M C) (st : parameters)
  (b c : bool) :
  completes (m st) = b ->
  (forall a st1, m st = Done a st1 -> completes (k a st1) = c) ->
  completes (bind m k st) = b && c.
Proof.
  intros Hb Hc. rewrite completes_bind.
  destruct (m st) as [a st1|e st1]; simpl in Hb; subst b; simpl.
  - now apply Hc.
  - reflexivity.
Qed.

Lemma completes_Done (o : outcome unit) :
  completes o = true -> exists st, o = Done tt st.
Proof. destruct o as [[] st|e st]; [eauto | discriminate]. Qed.

Ltac keeps_step :=
  first
    [ apply keeps_ret
    | apply keeps_raise
    | apply keeps_getattr
    | apply keeps_getattr_stem
    | apply keeps_lift
    | apply keeps_setattr_other; discriminate
    | apply keeps_setattr_field; reflexivity
    | apply keeps_when
    | apply keeps_and_then
    | apply keeps_bind; [|intros ?]
    | match goal with
      | |- keeps _ _ (if ?c then _ else _) => destruct c
      | |- keeps _ _ (match ?c with _ => _ end) => destruct c
      end ].

Ltac keeps_auto := repeat keeps_step.

End RunFacts.

(** ** The Parquet to Feature Class tool *)

Module ToolFacts.
Import PyStr Arcpy ParquetToFeatureClass Spec RunFacts.
Local Open Scope py_scope.

(** *** Partition directories *)

Lemma filter_all {A : Type} (f : A -> bool) (l : list A) :
  (forall a, In a l -> f a = true) -> List.filter f l = l.
Proof.
  induction l as [|a l IH]; simpl; intros H; [reflexivity|].
  rewrite (H a) by now left. f_equal. apply IH. intros b Hb. apply H. now right.
Qed.

(** The helper lists the stems of the sub-directories right under the
    directory, in listing order: on a well-formed tree the test [p.stem]
    drops nothing and [is_dir] answers for the very entry that was listed. *)
Lemma get_partition_lst_spec (fs : Pathlib.node) (p : Pathlib.path) :
  Pathlib.well_formed fs = true ->
  get_partition_lst fs p =
  map Pathlib.stem_of_name (Pathlib.child_dir_names fs p).
Proof.
  intros Hw. unfold get_partition_lst, Pathlib.glob, Pathlib.child_dir_names.
  destruct (Pathlib.lookup fs p) as [n|] eqn:Hn; [|reflexivity].
  rewrite (filter_all (fun c => Pathlib.fnmatch "*" (Pathlib.node_name c)))
    by (intros; apply PathlibFacts.fnmatch_any).
  pose proof (PathlibFacts.lookup_well_formed fs p n Hw Hn) as Hwn.
  apply PathlibFacts.well_formed_entries in Hwn. destruct Hwn as [Hd Hne].
  assert (G : forall l, incl l (Pathlib.entries n) ->
    map Pathlib.stem
      (List.filter
         (fun q => Pathlib.is_dir fs q
                   && negb (String.eqb (Pathlib.stem q) ""))
         (map (fun c => p ++ [Pathlib.node_name c]) l)) =
    map Pathlib.stem_of_name
      (map Pathlib.node_name (List.filter Pathlib.node_is_dir l))).
  { induction l as [|c l IH]; intros Hl; [reflexivity|].
    assert (Hc : In c (Pathlib.entries n)) by (apply Hl; now left).
    assert (Hl' : incl l (Pathlib.entries n))
      by (intros x Hx; apply Hl; now right).
    cbn [map List.filter].
    assert (Hdir : Pathlib.is_dir fs (p ++ [Pathlib.node_name c])
                   = Pathlib.node_is_dir c).
    { unfold Pathlib.is_dir.
      rewrite PathlibFacts.lookup_snoc, Hn.
      now rewrite (PathlibFacts.find_child_self _ c Hd Hc). }
    assert (Hst : Pathlib.stem (p ++ [Pathlib.node_name c])
                  = Pathlib.stem_of_name (Pathlib.node_name c)).
    { unfold Pathlib.stem. now rewrite PathlibFacts.name_snoc. }
    assert (Hs : String.eqb (Pathlib.stem_of_name (Pathlib.node_name c)) ""
                 = false).
    { apply String.eqb_neq. apply PathlibFacts.stem_of_name_nonempty.
      now apply Hne. }
    rewrite Hdir, Hst, Hs, andb_true_r.
    destruct (Pathlib.node_is_dir c); cbn [map].
    - rewrite Hst. f_equal. now apply IH.
    - now apply IH. }
  apply G. apply incl_refl.
Qed.

Lemma offer_partitions_some (n : pname) (lst : list string) (st : parameters) :
  lst <> [] ->
  exists st1, offer_partitions n lst st = Done tt st1 /\
              enabled (st1 n) = true /\
              filter_list (filter (st1 n)) = lst.
Proof.
  intros H. destruct lst as [|x lst]; [congruence|].
  eexists. split; [reflexivity|]. simpl.
  rewrite !update_same. split; reflexivity.
Qed.

(** *** The search for default columns *)

Lemma search_fold (l : list string) (d : defaults) :
  geom_col_value (fold_left search_step l d) = last_such is_wkb l (geom_col_value d)
  /\ x_col_value (fold_left search_step l d) = last_such is_lon l (x_col_value d)
  /\ y_col_value (fold_left search_step l d) = last_such is_lat l (y_col_value d)
  /\ h3_col_value (fold_left search_step l d) = last_such is_h3 l (h3_col_value d).
Proof.
  revert d. induction l as [|c l IH]; intros d; [repeat split|].
  simpl fold_left. destruct (IH (search_step d c)) as (H1 & H2 & H3 & H4).
  rewrite H1, H2, H3, H4. repeat split.
Qed.

Lemma search_defaults_spec (l : list string) :
  geom_col_value (search_defaults l) = last_such is_wkb l None
  /\ x_col_value (search_defaults l) = last_such is_lon l None
  /\ y_col_value (search_defaults l) = last_such is_lat l None
  /\ h3_col_value (search_defaults l) = last_such is_h3 l None.
Proof. apply (search_fold l (mkDefaults None None None None)). Qed.

Lemma last_such_sound (f : string -> bool) (l : list string)
  (init : option string) (c : string) :
  last_such f l init = Some c ->
  (In c l /\ f c = true) \/ init = Some c.
Proof.
  revert init. induction l as [|a l IH]; intros init; simpl.
  - auto.
  - intros H. apply IH in H. destruct H as [[Hin Hf]|H]; [left; auto|].
    destruct (f a) eqn:E.
    + injection H as <-. left. auto.
    + now right.
Qed.

Lemma last_such_found (f : string -> bool) (l : list string)
  (init : option string) :
  (exists c, In c l /\ f c = true) ->
  exists c, last_such f l init = Some c /\ In c l /\ f c = true.
Proof.
  revert init. induction l as [|a l IH]; intros init (c & Hin & Hf).
  - destruct Hin.
  - simpl. destruct (List.existsb f l) eqn:Ex.
    + apply existsb_exists in Ex.
      destruct (IH (if f a then Some a else init) Ex) as (c' & E & Hin' & Hf').
      exists c'. auto.
    + destruct Hin as [->|Hin].
      2:{ assert (List.existsb f l = true)
            by (apply existsb_exists; eauto). congruence. }
      rewrite Hf.
      assert (G : forall l0 i, List.existsb f l0 = false ->
                               last_such f l0 i = i).
      { induction l0 as [|b l0 IH0]; intros i; simpl; [reflexivity|].
        intros H. apply orb_false_iff in H. destruct H as [Hb Hl].
        rewrite Hb. now apply IH0. }
      exists c. split; [now apply G | auto].
Qed.

Lemma last_such_none (f : string -> bool) (l : list string) :
  (forall c, In c l -> f c = false) -> last_such f l None = None.
Proof.
  induction l as [|a l IH]; intros H; simpl; [reflexivity|].
  rewrite (H a) by now left. apply IH. intros c Hc. apply H. now right.
Qed.

Lemma is_wkb_spec (c : string) : is_wkb c = true <-> wkb_name c.
Proof. apply PyStrFacts.contains_spec. Qed.

Lemma is_lon_spec (c : string) : is_lon c = true <-> lon_name c.
Proof. apply PyStrFacts.mem_spec. Qed.

Lemma is_lat_spec (c : string) : is_lat c = true <-> lat_name c.
Proof. apply PyStrFacts.mem_spec. Qed.

Lemma is_h3_spec (c : string) : is_h3 c = true <-> h3_name c.
Proof. apply PyStrFacts.startswith_spec. Qed.

Lemma default_from_search (f : string -> bool) (wanted : string -> Prop)
  (col_lst : list string) (before : pyval) :
  (forall c, f c = true <-> wanted c) ->
  default_or_kept wanted col_lst before
    (if is_None before then of_option (last_such f col_lst None) else before).
Proof.
  intros Hf. split.
  - intros ->. simpl. split.
    + intros (c & Hin & Hc).
      destruct (last_such_found f col_lst None) as (c' & E & Hin' & Hc').
      { exists c. split; [exact Hin | now apply Hf]. }
      exists c'. rewrite E. split; [reflexivity|]. split; [exact Hin'|].
      now apply Hf.
    + intros Hno. rewrite last_such_none; [reflexivity|].
      intros c Hc. destruct (f c) eqn:E; [|reflexivity].
      exfalso. apply (Hno c Hc). now apply Hf.
  - intros Hb. destruct before; [congruence | reflexivity..].
Qed.

Ltac open_blocks :=
  unfold level_two, level_three, sample_count_rules, read_columns,
    require_columns, find_schema_file, prepopulate_output_name,
    inspect_parquet_path, activate, offer_partitions, Path_of, read_local,
    truediv;
  cbn [deactivate_all]; cbv zeta.

Ltac keeps_blocks := open_blocks; keeps_auto.

(** [f] of [n] after the completed step [E] is what it was before. *)
Ltac kept f n E := refine (keeps_Done f n _ _ _ _ _ E); keeps_blocks.

Ltac kept_whole E :=
  match goal with
  | |- _ ?n = _ ?n => kept (fun q : Param => q) n E
  end.

Section Runs.

Variable deactivate_parameter : Param -> Param.
Variable w : World.

Local Abbreviation run := (updateParameters deactivate_parameter w).

(** The first statement of the routine does nothing when the parquet path
    is unaltered or the output already has a value. *)
Lemma prepopulate_skips (st : parameters) :
  altered (st pqt_pth) && is_None (value (st out_fc_pth)) = false ->
  prepopulate_output_name w st = Done tt st.
Proof.
  intros H. unfold prepopulate_output_name, bind, getattr. now rewrite H.
Qed.

(** The first statement ends the run when the parquet path is altered and
    the output has no value yet. *)
Lemma prepopulate_raises (st : parameters) :
  altered (st pqt_pth) = true -> value (st out_fc_pth) = PyNone ->
  run st = Raised AttributeError st.
Proof.
  intros Ha Hv. unfold updateParameters, prepopulate_output_name, bind, getattr.
  now rewrite Ha, Hv.
Qed.

Lemma set_not_None (v : pyval) : v <> PyNone -> is_None v = false.
Proof. intros H. destruct v; [now contradiction H | reflexivity..]. Qed.

(** What inspecting an altered parquet path leaves behind. *)
Lemma inspect_altered (st : parameters) (p : string) :
  altered (st pqt_pth) = true ->
  valueAsText (st pqt_pth) = Some p ->
  exists st1,
    inspect_parquet_path w st = Done (Some (Pathlib.Path p)) st1 /\
    message (st1 pqt_pth) =
      (match Pathlib.rglob (root w) (Pathlib.Path p) "part-*.parquet" with
       | [] => Some cannot_locate
       | _ :: _ => message (st pqt_pth)
       end) /\
    (get_partition_lst (root w) (Pathlib.Path p) <> [] ->
     enabled (st1 pqt_prt_01) = true /\
     filter_list (filter (st1 pqt_prt_01)) =
       get_partition_lst (root w) (Pathlib.Path p)).
Proof.
  intros Ha Ht. unfold inspect_parquet_path, bind at 1, getattr at 1.
  rewrite Ha. unfold bind at 1, getattr at 1. rewrite Ht. simpl Path_of.
  unfold bind at 1, ret at 1.
  set (lst := get_partition_lst (root w) (Pathlib.Path p)).
  destruct (Pathlib.rglob (root w) (Pathlib.Path p) "part-*.parquet") as [|x l];
    simpl when; unfold bind at 1.
  - unfold setattr at 1.
    destruct lst as [|y lst].
    + eexists. split; [reflexivity|]. split; [|congruence].
      now rewrite update_same.
    + eexists. split; [reflexivity|]. split; [|intros _; split]; reflexivity.
  - unfold ret at 1.
    destruct lst as [|y lst].
    + eexists. split; [reflexivity|]. split; [reflexivity | congruence].
    + eexists. split; [reflexivity|]. split; [|intros _; split]; reflexivity.
Qed.

Lemma offer_partitions_Done (n : pname) (lst : list string) (st : parameters) :
  exists st1, offer_partitions n lst st = Done tt st1.
Proof. destruct lst; eexists; reflexivity. Qed.

(** The two later levels, where the local variable [p_pth] is bound. *)
Lemma level_two_bound (st : parameters) (d : Pathlib.path) (v1 : string) :
  altered (st pqt_prt_01) = true -> value (st pqt_prt_01) = PyStr v1 ->
  level_two w (Some d) st =
  offer_partitions pqt_prt_02
    (get_partition_lst (root w) (Pathlib.joinpath d v1)) st.
Proof.
  intros Ha Hv. unfold level_two, bind at 1, getattr at 1. rewrite Ha.
  simpl when. unfold read_local, bind at 1, ret at 1, bind at 1, getattr at 1.
  rewrite Hv. reflexivity.
Qed.

Lemma level_two_skip (st : parameters) (x : option Pathlib.path) :
  altered (st pqt_prt_01) = false -> level_two w x st = Done tt st.
Proof. intros Ha. unfold level_two, bind, getattr. now rewrite Ha. Qed.

Lemma level_three_bound (st : parameters) (d : Pathlib.path) (v1 v2 : string) :
  altered (st pqt_prt_02) = true ->
  value (st pqt_prt_01) = PyStr v1 -> value (st pqt_prt_02) = PyStr v2 ->
  level_three w (Some d) st =
  offer_partitions pqt_prt_03
    (get_partition_lst (root w)
       (Pathlib.joinpath (Pathlib.joinpath d v1) v2)) st.
Proof.
  intros Ha Hv1 Hv2. unfold level_three, bind at 1, getattr at 1. rewrite Ha.
  simpl when. unfold read_local, bind at 1, ret at 1, bind at 1, getattr at 1.
  rewrite Hv1. simpl truediv. unfold bind at 1, ret at 1, bind at 1, getattr at 1.
  rewrite Hv2. reflexivity.
Qed.

Lemma level_three_skip (st : parameters) (x : option Pathlib.path) :
  altered (st pqt_prt_02) = false -> level_three w x st = Done tt st.
Proof. intros Ha. unfold level_three, bind, getattr. now rewrite Ha. Qed.

(** With [p_pth] bound and a text in the first partition value whenever it
    is needed, the second level does not raise. *)
Lemma level_two_Done (st : parameters) (d : Pathlib.path) :
  (altered (st pqt_prt_01) = true -> exists v1, value (st pqt_prt_01) = PyStr v1) ->
  exists st1, level_two w (Some d) st = Done tt st1.
Proof.
  intros H. destruct (altered (st pqt_prt_01)) eqn:Ha.
  - destruct (H eq_refl) as [v1 Hv]. rewrite (level_two_bound st d v1 Ha Hv).
    apply offer_partitions_Done.
  - rewrite (level_two_skip st _ Ha). eauto.
Qed.

(** A run that completes went through its eight steps, each completing. *)
Lemma run_Done (st st' : parameters) :
  run st = Done tt st' ->
  exists s1 p_pth s2 s3 s4 s5 d s6 s7,
    prepopulate_output_name w st = Done tt s1 /\
    inspect_parquet_path w s1 = Done p_pth s2 /\
    level_two w p_pth s2 = Done tt s3 /\
    level_three w p_pth s3 = Done tt s4 /\
    sample_count_rules s4 = Done tt s5 /\
    read_columns w s5 = Done d s6 /\
    require_columns deactivate_parameter d s6 = Done tt s7 /\
    find_schema_file w s7 = Done tt st'.
Proof.
  unfold updateParameters. intros H.
  apply bind_Done in H. destruct H as ([] & s1 & H1 & H).
  apply bind_Done in H. destruct H as (p_pth & s2 & H2 & H).
  apply bind_Done in H. destruct H as ([] & s3 & H3 & H).
  apply bind_Done in H. destruct H as ([] & s4 & H4 & H).
  apply bind_Done in H. destruct H as ([] & s5 & H5 & H).
  apply bind_Done in H. destruct H as (d & s6 & H6 & H).
  apply bind_Done in H. destruct H as ([] & s7 & H7 & H).
  exists s1, p_pth, s2, s3, s4, s5, d, s6, s7. tauto.
Qed.

(** *** The sample count *)

Lemma sample_count_rules_spec (st s' : parameters) :
  sample_count_rules st = Done tt s' ->
  let sv := value (st smpl) in
  let cv := value (st smpl_cnt) in
  (is_True sv = true /\ no_sample_count cv ->
   message (s' smpl_cnt) = Some sample_count_positive) /\
  (~ (is_True sv = true /\ no_sample_count cv) ->
   message (s' smpl_cnt) = message (st smpl_cnt)) /\
  (altered (st smpl) = true -> is_False sv = true -> no_sample_count cv ->
   value (s' smpl_cnt) = PyInt 100).
Proof.
  unfold sample_count_rules, no_sample_count, bind, getattr, and_then, lift,
    py_lt, ret, raise, setattr. cbv zeta.
  destruct (value (st smpl)) as [|[|]|z0|t0] eqn:Hsv;
    destruct (value (st smpl_cnt)) as [|[|]|z|t] eqn:Hcv;
    destruct (altered (st smpl)) eqn:Hsa;
    cbn [is_True is_False is_None andb as_number];
    try (destruct (Z.ltb_spec z 1));
    try change (1 <? 1)%Z with false; try change (0 <? 1)%Z with true;
    cbv beta iota;
    intros E; try discriminate E; injection E as <-;
    rewrite ?update_same;
    cbn [message value with_message with_value with_enabled].
  all: (split; [|split]).
  all: try (intros; reflexivity).
  all: try (intros; discriminate).
  all: try (intros [? [?|(? & ? & ?)]];
            congruence || discriminate || (exfalso; lia)).
  all: try (intros ? ? [?|(? & ? & ?)];
            congruence || discriminate || (exfalso; lia)).
  all: try (intros Hn; exfalso; apply Hn; split; [reflexivity|];
            (now left) || (right; eexists; split; [reflexivity|lia])).
  all: try (intros [_ [Hx|(zz & Hx & Hy)]];
            [discriminate Hx | injection Hx as <-; lia]).
  all: intros _ _ [Hx|(zz & Hx & Hy)];
       [discriminate Hx | injection Hx as <-; lia].
Qed.

(** *** Reading the columns *)

Lemma read_columns_altered (st s' : parameters) (d : defaults) (p : string) :
  altered (st pqt_pth) = true ->
  valueAsText (st pqt_pth) = Some p ->
  read_columns w st = Done d s' ->
  exists col_lst,
    schema_names w p = Some col_lst /\
    d = search_defaults col_lst /\
    (forall n, In n [geom_col; x_col; y_col; h3_col] ->
               s' n = with_filter_list col_lst (st n)) /\
    (forall n, ~ In n [geom_col; x_col; y_col; h3_col] -> s' n = st n).
Proof.
  intros Ha Ht. unfold read_columns, bind at 1, getattr at 1. rewrite Ha.
  unfold bind at 1, getattr at 1. rewrite Ht.
  destruct (schema_names w p) as [col_lst|]; [|discriminate].
  unfold bind, ret, setattr. intros [= <- <-].
  exists col_lst. split; [reflexivity|]. split; [reflexivity|]. split.
  - intros n Hn. simpl in Hn.
    destruct Hn as [<-|[<-|[<-|[<-|[]]]]]; reflexivity.
  - intros n Hn. destruct n; try reflexivity; exfalso; apply Hn; simpl; tauto.
Qed.

Lemma read_columns_unaltered (st s' : parameters) (d : defaults) :
  altered (st pqt_pth) = false ->
  read_columns w st = Done d s' ->
  d = mkDefaults None None None None /\ s' = st.
Proof.
  intros Ha. unfold read_columns, bind, getattr. rewrite Ha.
  now intros [= <- <-].
Qed.

(** *** Requiring columns *)

Lemma activate_spec (n : pname) (default : option string) (st : parameters) :
  exists s',
    activate n default st = Done tt s' /\
    parameterType (s' n) = Required /\
    enabled (s' n) = true /\
    value (s' n) = (if is_None (value (st n)) then of_option default
                    else value (st n)) /\
    filter (s' n) = filter (st n) /\
    (forall m, m <> n -> s' m = st m).
Proof.
  unfold activate, bind, setattr, getattr. rewrite !update_same.
  cbn [value with_enabled with_parameterType].
  destruct (is_None (value (st n))) eqn:E; simpl when; unfold setattr, ret;
    eexists; (split; [reflexivity|]); rewrite ?update_same;
    cbn [value with_enabled with_parameterType with_value parameterType
         enabled filter]; repeat split; try reflexivity;
    intros m Hm; rewrite ?update_other by congruence; reflexivity.
Qed.

Lemma require_columns_spec (d : defaults) (st s' : parameters) :
  altered (st geom_type) || altered (st pqt_pth) = true ->
  require_columns deactivate_parameter d st = Done tt s' ->
  if eq_str (value (st geom_type)) "COORDINATES" then
    activated x_col (x_col_value d) st s' /\
    activated y_col (y_col_value d) st s' /\
    s' geom_col = deactivate_parameter (st geom_col) /\
    s' h3_col = deactivate_parameter (st h3_col)
  else if eq_str (value (st geom_type)) "H3" then
    activated h3_col (h3_col_value d) st s' /\
    s' geom_col = deactivate_parameter (st geom_col) /\
    s' x_col = deactivate_parameter (st x_col) /\
    s' y_col = deactivate_parameter (st y_col)
  else
    activated geom_col (geom_col_value d) st s' /\
    s' x_col = deactivate_parameter (st x_col) /\
    s' y_col = deactivate_parameter (st y_col) /\
    s' h3_col = deactivate_parameter (st h3_col).
Proof.
  intros Hc. unfold require_columns, activated.
  unfold bind at 1, getattr at 1. unfold bind at 1, getattr at 1.
  rewrite Hc. simpl when. unfold bind at 1, getattr at 1.
  destruct (eq_str (value (st geom_type)) "COORDINATES");
    [|destruct (eq_str (value (st geom_type)) "H3")].
  - destruct (activate_spec x_col (x_col_value d) st)
      as (s1 & E1 & P1 & P2 & P3 & P4 & P5).
    rewrite (bind_step _ _ st s1 tt E1).
    destruct (activate_spec y_col (y_col_value d) s1)
      as (s2 & E2 & Q1 & Q2 & Q3 & Q4 & Q5).
    rewrite (bind_step _ _ s1 s2 tt E2).
    cbn [deactivate_all]. unfold bind, setattr, ret. intros [= <-].
    repeat (rewrite update_same || rewrite update_other by discriminate).
    rewrite !(Q5 x_col), !(Q5 geom_col), !(Q5 h3_col) by discriminate.
    rewrite !(P5 y_col), !(P5 geom_col), !(P5 h3_col) in * by discriminate.
    tauto.
  - destruct (activate_spec h3_col (h3_col_value d) st)
      as (s1 & E1 & P1 & P2 & P3 & P4 & P5).
    rewrite (bind_step _ _ st s1 tt E1).
    cbn [deactivate_all]. unfold bind, setattr, ret. intros [= <-].
    repeat (rewrite update_same || rewrite update_other by discriminate).
    rewrite !(P5 x_col), !(P5 geom_col), !(P5 y_col) by discriminate.
    tauto.
  - destruct (activate_spec geom_col (geom_col_value d) st)
      as (s1 & E1 & P1 & P2 & P3 & P4 & P5).
    rewrite (bind_step _ _ st s1 tt E1).
    cbn [deactivate_all]. unfold bind, setattr, ret. intros [= <-].
    repeat (rewrite update_same || rewrite update_other by discriminate).
    rewrite !(P5 x_col), !(P5 h3_col), !(P5 y_col) by discriminate.
    tauto.
Qed.

(** *** The steps of a completed run, seen from the step a statement is about *)

Lemma around_sample_count (st st' : parameters) :
  run st = Done tt st' ->
  exists s4 s5,
    sample_count_rules s4 = Done tt s5 /\
    s4 smpl = st smpl /\ s4 smpl_cnt = st smpl_cnt /\
    st' smpl_cnt = s5 smpl_cnt.
Proof.
  intros H. apply run_Done in H.
  destruct H as (s1 & p_pth & s2 & s3 & s4 & s5 & d & s6 & s7 &
                 H1 & H2 & H3 & H4 & H5 & H6 & H7 & H8).
  exists s4, s5. split; [exact H5|].
  assert (A1 : s1 smpl = st smpl) by kept (fun q : Param => q) smpl H1.
  assert (A2 : s2 smpl = s1 smpl) by kept (fun q : Param => q) smpl H2.
  assert (A3 : s3 smpl = s2 smpl) by kept (fun q : Param => q) smpl H3.
  assert (A4 : s4 smpl = s3 smpl) by kept (fun q : Param => q) smpl H4.
  assert (B1 : s1 smpl_cnt = st smpl_cnt) by kept (fun q : Param => q) smpl_cnt H1.
  assert (B2 : s2 smpl_cnt = s1 smpl_cnt) by kept (fun q : Param => q) smpl_cnt H2.
  assert (B3 : s3 smpl_cnt = s2 smpl_cnt) by kept (fun q : Param => q) smpl_cnt H3.
  assert (B4 : s4 smpl_cnt = s3 smpl_cnt) by kept (fun q : Param => q) smpl_cnt H4.
  assert (C6 : s6 smpl_cnt = s5 smpl_cnt) by kept (fun q : Param => q) smpl_cnt H6.
  assert (C7 : s7 smpl_cnt = s6 smpl_cnt) by kept (fun q : Param => q) smpl_cnt H7.
  assert (C8 : st' smpl_cnt = s7 smpl_cnt) by kept (fun q : Param => q) smpl_cnt H8.
  repeat split; congruence.
Qed.

Lemma around_columns (st st' : parameters) :
  run st = Done tt st' ->
  exists s5 d s6 s7,
    read_columns w s5 = Done d s6 /\
    require_columns deactivate_parameter d s6 = Done tt s7 /\
    (forall n, In n [geom_col; geom_type; x_col; y_col; h3_col] ->
               s5 n = st n) /\
    altered (s5 pqt_pth) = altered (st pqt_pth) /\
    value (s5 pqt_pth) = value (st pqt_pth) /\
    (forall n, In n [geom_col; x_col; y_col; h3_col] -> st' n = s7 n).
Proof.
  intros H. apply run_Done in H.
  destruct H as (s1 & p_pth & s2 & s3 & s4 & s5 & d & s6 & s7 &
                 H1 & H2 & H3 & H4 & H5 & H6 & H7 & H8).
  exists s5, d, s6, s7. split; [exact H6|]. split; [exact H7|].
  split; [|split; [|split]].
  - intros n Hn. simpl in Hn.
    assert (A1 : s1 n = st n)
      by (destruct Hn as [<-|[<-|[<-|[<-|[<-|[]]]]]];
          kept_whole H1).
    assert (A2 : s2 n = s1 n)
      by (destruct Hn as [<-|[<-|[<-|[<-|[<-|[]]]]]];
          kept_whole H2).
    assert (A3 : s3 n = s2 n)
      by (destruct Hn as [<-|[<-|[<-|[<-|[<-|[]]]]]];
          kept_whole H3).
    assert (A4 : s4 n = s3 n)
      by (destruct Hn as [<-|[<-|[<-|[<-|[<-|[]]]]]];
          kept_whole H4).
    assert (A5 : s5 n = s4 n)
      by (destruct Hn as [<-|[<-|[<-|[<-|[<-|[]]]]]];
          kept_whole H5).
    congruence.
  - assert (A1 : altered (s1 pqt_pth) = altered (st pqt_pth))
      by kept altered pqt_pth H1.
    assert (A2 : altered (s2 pqt_pth) = altered (s1 pqt_pth))
      by kept altered pqt_pth H2.
    assert (A3 : altered (s3 pqt_pth) = altered (s2 pqt_pth))
      by kept altered pqt_pth H3.
    assert (A4 : altered (s4 pqt_pth) = altered (s3 pqt_pth))
      by kept altered pqt_pth H4.
    assert (A5 : altered (s5 pqt_pth) = altered (s4 pqt_pth))
      by kept altered pqt_pth H5.
    congruence.
  - assert (A1 : value (s1 pqt_pth) = value (st pqt_pth))
      by kept value pqt_pth H1.
    assert (A2 : value (s2 pqt_pth) = value (s1 pqt_pth))
      by kept value pqt_pth H2.
    assert (A3 : value (s3 pqt_pth) = value (s2 pqt_pth))
      by kept value pqt_pth H3.
    assert (A4 : value (s4 pqt_pth) = value (s3 pqt_pth))
      by kept value pqt_pth H4.
    assert (A5 : value (s5 pqt_pth) = value (s4 pqt_pth))
      by kept value pqt_pth H5.
    congruence.
  - intros n Hn. simpl in Hn.
    destruct Hn as [<-|[<-|[<-|[<-|[]]]]]; kept_whole H8.
Qed.

Lemma before_require (st st' : parameters) :
  run st = Done tt st' ->
  exists d s6 s7,
    require_columns deactivate_parameter d s6 = Done tt s7 /\
    s6 geom_type = st geom_type /\
    altered (s6 pqt_pth) = altered (st pqt_pth) /\
    (forall n, In n [geom_col; x_col; y_col; h3_col] -> st' n = s7 n) /\
    (forall n, In n [geom_col; x_col; y_col; h3_col] ->
               value (s6 n) = value (st n)) /\
    (forall p, altered (st pqt_pth) = true ->
               valueAsText (st pqt_pth) = Some p ->
               exists col_lst,
                 schema_names w p = Some col_lst /\
                 d = search_defaults col_lst /\
                 forall n, In n [geom_col; x_col; y_col; h3_col] ->
                           filter_list (filter (s6 n)) = col_lst).
Proof.
  intros H. destruct (around_columns st st' H)
    as (s5 & d & s6 & s7 & H6 & H7 & K5 & Ka & Kv & K8).
  exists d, s6, s7. split; [exact H7|].
  assert (G : s6 geom_type = s5 geom_type) by kept_whole H6.
  assert (A : altered (s6 pqt_pth) = altered (s5 pqt_pth))
    by kept altered pqt_pth H6.
  split; [rewrite G; apply K5; simpl; tauto|].
  split; [congruence|]. split; [exact K8|]. split.
  - intros n Hn.
    assert (In n [geom_col; geom_type; x_col; y_col; h3_col])
      by (simpl in *; tauto).
    rewrite <- (K5 n) by assumption. simpl in Hn.
    destruct Hn as [<-|[<-|[<-|[<-|[]]]]].
    + kept value geom_col H6.
    + kept value x_col H6.
    + kept value y_col H6.
    + kept value h3_col H6.
  - intros p Ha Ht.
    assert (Ha5 : altered (s5 pqt_pth) = true) by congruence.
    assert (Ht5 : valueAsText (s5 pqt_pth) = Some p)
      by (unfold valueAsText in *; now rewrite Kv).
    destruct (read_columns_altered s5 s6 d p Ha5 Ht5 H6)
      as (col_lst & S1 & S2 & S3 & _).
    exists col_lst. split; [exact S1|]. split; [exact S2|].
    intros n Hn. now rewrite (S3 n Hn).
Qed.

(** *** When a run gets through *)

Lemma prepopulate_eq (st : parameters) :
  prepopulate_output_name w st =
  if altered (st pqt_pth) && is_None (value (st out_fc_pth))
  then Raised AttributeError st else Done tt st.
Proof.
  unfold prepopulate_output_name, bind, getattr.
  now destruct (altered (st pqt_pth) && is_None (value (st out_fc_pth))).
Qed.

Lemma inspect_unaltered (st : parameters) :
  altered (st pqt_pth) = false -> inspect_parquet_path w st = Done None st.
Proof. intros H. unfold inspect_parquet_path, bind, getattr. now rewrite H. Qed.

Lemma inspect_no_text (st : parameters) :
  altered (st pqt_pth) = true -> valueAsText (st pqt_pth) = None ->
  inspect_parquet_path w st = Raised TypeError st.
Proof.
  intros H T. unfold inspect_parquet_path, bind, getattr. now rewrite H, T.
Qed.

Lemma level_two_completes (st : parameters) (x : option Pathlib.path) :
  completes (level_two w x st) =
  if altered (st pqt_prt_01)
  then match x with Some _ => true | None => false end
       && is_text (value (st pqt_prt_01))
  else true.
Proof.
  destruct (altered (st pqt_prt_01)) eqn:Ha.
  - destruct x as [d|].
    + destruct (value (st pqt_prt_01)) as [|b1|z1|v1] eqn:Hv;
        try (unfold level_two, bind, getattr; rewrite Ha; cbn;
             rewrite Hv; reflexivity).
      rewrite (level_two_bound st d v1 Ha Hv).
      destruct (offer_partitions_Done pqt_prt_02
                  (get_partition_lst (root w) (Pathlib.joinpath d v1)) st)
        as [s E]. now rewrite E.
    + unfold level_two, bind, getattr. now rewrite Ha.
  - now rewrite level_two_skip.
Qed.

Lemma level_three_completes (st : parameters) (x : option Pathlib.path) :
  completes (level_three w x st) =
  if altered (st pqt_prt_02)
  then match x with Some _ => true | None => false end
       && is_text (value (st pqt_prt_01)) && is_text (value (st pqt_prt_02))
  else true.
Proof.
  destruct (altered (st pqt_prt_02)) eqn:Ha.
  - destruct x as [d|].
    + destruct (value (st pqt_prt_01)) as [|b1|z1|v1] eqn:Hv1;
        try (unfold level_three, bind, getattr; rewrite Ha; cbn;
             rewrite Hv1; reflexivity).
      destruct (value (st pqt_prt_02)) as [|b2|z2|v2] eqn:Hv2;
        try (unfold level_three, bind, getattr; rewrite Ha; cbn;
             rewrite Hv1; cbn; rewrite Hv2; reflexivity).
      rewrite (level_three_bound st d v1 v2 Ha Hv1 Hv2).
      destruct (offer_partitions_Done pqt_prt_03
                  (get_partition_lst (root w)
                     (Pathlib.joinpath (Pathlib.joinpath d v1) v2)) st)
        as [s E]. now rewrite E.
    + unfold level_three, bind, getattr. now rewrite Ha.
  - now rewrite level_three_skip.
Qed.

Lemma sample_count_rules_completes (st : parameters) :
  completes (sample_count_rules st) = sample_ready st.
Proof.
  unfold sample_ready, is_number, sample_count_rules, bind, getattr, and_then,
    lift, py_lt, ret, raise, setattr. cbv zeta.
  destruct (value (st smpl)) as [|[|]|z0|t0];
    destruct (value (st smpl_cnt)) as [|[|]|z|t];
    destruct (altered (st smpl));
    cbn [is_True is_False is_None andb orb negb as_number];
    try (destruct (Z.ltb_spec z 1));
    try change (1 <? 1)%Z with false; try change (0 <? 1)%Z with true;
    reflexivity.
Qed.

Lemma read_columns_completes (st : parameters) :
  completes (read_columns w st) =
  if altered (st pqt_pth) then
    match valueAsText (st pqt_pth) with
    | Some p => match schema_names w p with Some _ => true | None => false end
    | None => false
    end
  else true.
Proof.
  unfold read_columns, bind at 1, getattr at 1.
  destruct (altered (st pqt_pth)); [|reflexivity].
  unfold bind at 1, getattr at 1.
  destruct (valueAsText (st pqt_pth)) as [p|]; [|reflexivity].
  destruct (schema_names w p); reflexivity.
Qed.

Lemma require_columns_Done (d : defaults) (st : parameters) :
  exists s', require_columns deactivate_parameter d st = Done tt s'.
Proof.
  unfold require_columns.
  unfold bind at 1, getattr at 1. unfold bind at 1, getattr at 1.
  destruct (altered (st geom_type) || altered (st pqt_pth));
    [|eexists; reflexivity].
  simpl when. unfold bind at 1, getattr at 1.
  destruct (eq_str (value (st geom_type)) "COORDINATES");
    [|destruct (eq_str (value (st geom_type)) "H3")].
  - destruct (activate_spec x_col (x_col_value d) st) as (s1 & E1 & _).
    rewrite (bind_step _ _ st s1 tt E1).
    destruct (activate_spec y_col (y_col_value d) s1) as (s2 & E2 & _).
    rewrite (bind_step _ _ s1 s2 tt E2). eexists. reflexivity.
  - destruct (activate_spec h3_col (h3_col_value d) st) as (s1 & E1 & _).
    rewrite (bind_step _ _ st s1 tt E1). eexists. reflexivity.
  - destruct (activate_spec geom_col (geom_col_value d) st) as (s1 & E1 & _).
    rewrite (bind_step _ _ st s1 tt E1). eexists. reflexivity.
Qed.

Lemma find_schema_file_completes (st : parameters) :
  completes (find_schema_file w st) =
  if altered (st pqt_pth)
  then match valueAsText (st pqt_pth) with Some _ => true | None => false end
  else true.
Proof.
  unfold find_schema_file, bind at 1, getattr at 1.
  destruct (altered (st pqt_pth)); [|reflexivity].
  simpl when. unfold bind at 1, getattr at 1.
  destruct (valueAsText (st pqt_pth)) as [p|]; [|reflexivity].
  simpl Path_of. unfold bind, ret.
  destruct (Pathlib.rglob (root w) (Pathlib.parent (Pathlib.Path p)) "schema")
    as [|x l]; [reflexivity|].
  destruct (Pathlib.rglob (root w) x "part*.csv"); reflexivity.
Qed.

Lemma inspect_completes (st : parameters) :
  completes (inspect_parquet_path w st) =
  if altered (st pqt_pth)
  then match valueAsText (st pqt_pth) with Some _ => true | None => false end
  else true.
Proof.
  destruct (altered (st pqt_pth)) eqn:Ha.
  - destruct (valueAsText (st pqt_pth)) as [p|] eqn:Ht.
    + destruct (inspect_altered st p Ha Ht) as (s1 & E & _). now rewrite E.
    + now rewrite inspect_no_text.
  - now rewrite inspect_unaltered.
Qed.

(** The local variable [p_pth] is bound after the inspection exactly when
    the parquet path is altered. *)
Lemma inspect_binds (st s1 : parameters) (x : option Pathlib.path) :
  inspect_parquet_path w st = Done x s1 ->
  match x with Some _ => true | None => false end = altered (st pqt_pth).
Proof.
  destruct (altered (st pqt_pth)) eqn:Ha.
  - destruct (valueAsText (st pqt_pth)) as [p|] eqn:Ht.
    + destruct (inspect_altered st p Ha Ht) as (s2 & E & _). rewrite E.
      now intros [= <- _].
    + now rewrite inspect_no_text.
  - rewrite inspect_unaltered by exact Ha. now intros [= <- _].
Qed.

(** A run gets through exactly when the parameters are ready for it: these
    are all the ways in which [updateParameters] can raise. *)
Theorem run_completes_exactly (st : parameters) :
  completes (run st) = runs_through w st.
Proof.
  set (alt := altered (st pqt_pth)).
  set (txt := valueAsText (st pqt_pth)).
  set (B1 := negb (alt && is_None (value (st out_fc_pth)))).
  set (B2 := if alt then match txt with Some _ => true | None => false end
             else true).
  set (B3 := if altered (st pqt_prt_01)
             then alt && is_text (value (st pqt_prt_01)) else true).
  set (B4 := if altered (st pqt_prt_02)
             then alt && is_text (value (st pqt_prt_01))
                  && is_text (value (st pqt_prt_02))
             else true).
  set (B6 := if alt then
               match txt with
               | Some p => match schema_names w p with
                           | Some _ => true | None => false end
               | None => false
               end
             else true).
  assert (G : completes (run st) =
              B1 && (B2 && (B3 && (B4 && (sample_ready st
                                          && (B6 && (true && B2))))))).
  { unfold updateParameters.
    apply completes_seq.
    { rewrite prepopulate_eq. unfold B1, alt.
      now destruct (altered (st pqt_pth) && is_None (value (st out_fc_pth))). }
    intros [] s1 E1.
    assert (S1 : s1 = st).
    { rewrite prepopulate_eq in E1.
      destruct (altered (st pqt_pth) && is_None (value (st out_fc_pth)));
        [discriminate | now injection E1]. }
    subst s1. clear E1.
    apply completes_seq; [apply inspect_completes|].
    intros x s2 E2. pose proof (inspect_binds st s2 x E2) as Hx.
    assert (P2a : altered (s2 pqt_pth) = altered (st pqt_pth))
      by kept altered pqt_pth E2.
    assert (P2v : value (s2 pqt_pth) = value (st pqt_pth))
      by kept value pqt_pth E2.
    assert (Q2a : altered (s2 pqt_prt_01) = altered (st pqt_prt_01))
      by kept altered pqt_prt_01 E2.
    assert (Q2v : value (s2 pqt_prt_01) = value (st pqt_prt_01))
      by kept value pqt_prt_01 E2.
    assert (R2a : altered (s2 pqt_prt_02) = altered (st pqt_prt_02))
      by kept altered pqt_prt_02 E2.
    assert (R2v : value (s2 pqt_prt_02) = value (st pqt_prt_02))
      by kept value pqt_prt_02 E2.
    assert (S2 : s2 smpl = st smpl) by kept_whole E2.
    assert (T2 : s2 smpl_cnt = st smpl_cnt) by kept_whole E2.
    apply completes_seq.
    { rewrite level_two_completes, Q2a, Q2v, Hx. reflexivity. }
    intros [] s3 E3.
    assert (P3a : altered (s3 pqt_pth) = altered (s2 pqt_pth))
      by kept altered pqt_pth E3.
    assert (P3v : value (s3 pqt_pth) = value (s2 pqt_pth))
      by kept value pqt_pth E3.
    assert (Q3v : value (s3 pqt_prt_01) = value (s2 pqt_prt_01))
      by kept value pqt_prt_01 E3.
    assert (R3a : altered (s3 pqt_prt_02) = altered (s2 pqt_prt_02))
      by kept altered pqt_prt_02 E3.
    assert (R3v : value (s3 pqt_prt_02) = value (s2 pqt_prt_02))
      by kept value pqt_prt_02 E3.
    assert (S3 : s3 smpl = s2 smpl) by kept_whole E3.
    assert (T3 : s3 smpl_cnt = s2 smpl_cnt) by kept_whole E3.
    apply completes_seq.
    { rewrite level_three_completes, R3a, R2a, Q3v, Q2v, R3v, R2v, Hx.
      reflexivity. }
    intros [] s4 E4.
    assert (P4a : altered (s4 pqt_pth) = altered (s3 pqt_pth))
      by kept altered pqt_pth E4.
    assert (P4v : value (s4 pqt_pth) = value (s3 pqt_pth))
      by kept value pqt_pth E4.
    assert (S4 : s4 smpl = s3 smpl) by kept_whole E4.
    assert (T4 : s4 smpl_cnt = s3 smpl_cnt) by kept_whole E4.
    apply completes_seq.
    { rewrite sample_count_rules_completes. unfold sample_ready.
      now rewrite S4, S3, S2, T4, T3, T2. }
    intros [] s5 E5.
    assert (P5a : altered (s5 pqt_pth) = altered (s4 pqt_pth))
      by kept altered pqt_pth E5.
    assert (P5v : value (s5 pqt_pth) = value (s4 pqt_pth))
      by kept value pqt_pth E5.
    apply completes_seq.
    { rewrite read_columns_completes. unfold valueAsText, B6, alt, txt,
        valueAsText. now rewrite P5a, P4a, P3a, P2a, P5v, P4v, P3v, P2v. }
    intros d s6 E6.
    assert (P6a : altered (s6 pqt_pth) = altered (s5 pqt_pth))
      by kept altered pqt_pth E6.
    assert (P6v : value (s6 pqt_pth) = value (s5 pqt_pth))
      by kept value pqt_pth E6.
    apply completes_seq.
    { destruct (require_columns_Done d s6) as [s7 E7]. now rewrite E7. }
    intros [] s7 E7.
    assert (P7a : altered (s7 pqt_pth) = altered (s6 pqt_pth))
      by kept altered pqt_pth E7.
    assert (P7v : value (s7 pqt_pth) = value (s6 pqt_pth))
      by kept value pqt_pth E7.
    rewrite find_schema_file_completes. unfold valueAsText, B2, alt, txt,
      valueAsText.
    now rewrite P7a, P6a, P5a, P4a, P3a, P2a, P7v, P6v, P5v, P4v, P3v, P2v. }
  rewrite G. unfold runs_through, folder_ready, partitions_ready, B1, B2, B3,
    B4, B6, alt, txt.
  destruct (altered (st pqt_pth)); destruct (is_None (value (st out_fc_pth)));
    destruct (valueAsText (st pqt_pth)) as [p|];
    try destruct (schema_names w p);
    destruct (altered (st pqt_prt_01)); destruct (altered (st pqt_prt_02));
    destruct (is_text (value (st pqt_prt_01)));
    destruct (is_text (value (st pqt_prt_02)));
    destruct (sample_ready st); reflexivity.
Qed.

End Runs.

(** *** The earlier copy of the tool *)

(** The earlier copy looks for names that merely start with part-. *)
Lemma earlier_no_part_files_spec (fs : Pathlib.node) (p : Pathlib.path) :
  Earlier.no_part_files fs p = true <->
  ~ exists x, under fs p x
              /\ exists r, Pathlib.node_name x = ("part-" ++ r)%string.
Proof.
  unfold Earlier.no_part_files.
  assert (N : Nat.eqb (List.length (Pathlib.rglob fs p "part-*")) 0 = true
              <-> Pathlib.rglob fs p "part-*" = []).
  { destruct (Pathlib.rglob fs p "part-*"); simpl; split; congruence. }
  rewrite N, PathlibFacts.rglob_nil.
  assert (F : forall nm, Pathlib.fnmatch "part-*" nm = true
                         <-> exists r, nm = ("part-" ++ r)%string).
  { intros nm. split.
    - intros H. apply PathlibFacts.fnmatch_char in H; [|reflexivity].
      destruct H as (n1 & -> & H).
      apply PathlibFacts.fnmatch_char in H; [|reflexivity].
      destruct H as (n2 & -> & H).
      apply PathlibFacts.fnmatch_char in H; [|reflexivity].
      destruct H as (n3 & -> & H).
      apply PathlibFacts.fnmatch_char in H; [|reflexivity].
      destruct H as (n4 & -> & H).
      apply PathlibFacts.fnmatch_char in H; [|reflexivity].
      destruct H as (n5 & -> & H). now exists n5.
    - intros (r & ->).
      do 5 (apply PathlibFacts.fnmatch_char; [reflexivity|];
            eexists; split; [reflexivity|]).
      apply PathlibFacts.fnmatch_any. }
  split; intros H (x & Hu & Hx); apply H; exists x; (split; [exact Hu|]);
    now apply F.
Qed.

(** Where the sample count has a value, the earlier rules are the current
    ones. *)
Lemma earlier_sample_rules_agree (st : parameters) :
  value (st smpl_cnt) <> PyNone ->
  Earlier.sample_count_rules st = sample_count_rules st.
Proof.
  intros Hv. unfold Earlier.sample_count_rules, sample_count_rules, bind,
    getattr, and_then, lift, py_lt, ret, raise, setattr. cbv zeta.
  destruct (value (st smpl_cnt)) as [|[|]|z|t]; [congruence|..];
    destruct (value (st smpl)) as [|[|]|z0|t0];
    destruct (altered (st smpl));
    cbn [is_True is_False is_None andb as_number];
    try (destruct (Z.ltb z 1));
    try change (1 <? 1)%Z with false; try change (0 <? 1)%Z with true;
    reflexivity.
Qed.

(** Where it is missing and gets compared, the earlier rules raise. *)
Lemma earlier_sample_rules_missing_count (st : parameters) :
  value (st smpl_cnt) = PyNone ->
  is_True (value (st smpl)) = true
  \/ (altered (st smpl) = true /\ is_False (value (st smpl)) = true) ->
  Earlier.sample_count_rules st = Raised TypeError st.
Proof.
  intros Hv Hc. unfold Earlier.sample_count_rules, bind, getattr, and_then,
    lift, py_lt, ret, raise, setattr. cbv zeta. rewrite Hv.
  destruct (value (st smpl)) as [|[|]|z0|t0];
    destruct (altered (st smpl)); simpl in *;
    try reflexivity; destruct Hc as [Hc|[Hc1 Hc2]]; discriminate.
Qed.

Lemma first_wkb_spec (col_lst : list string) :
  match Earlier.first_wkb col_lst with
  | Some c => In c col_lst /\ wkb_name c
  | None => forall c, In c col_lst -> ~ wkb_name c
  end.
Proof.
  induction col_lst as [|col rest IH]; simpl.
  - tauto.
  - destruct (contains "wkb" (lower col)) eqn:E.
    + split; [now left | now apply is_wkb_spec].
    + destruct (Earlier.first_wkb rest) as [c|].
      * destruct IH. auto.
      * intros c [<-|Hc]; [|now apply IH].
        intros H. apply is_wkb_spec in H. unfold is_wkb in H. congruence.
Qed.

(** The earlier copy gives the geometry column its default whatever the
    geometry type and whatever value it had. *)
Lemma earlier_read_columns_default (w : World) (st s' : parameters)
  (p : string) :
  altered (st pqt_pth) = true ->
  valueAsText (st pqt_pth) = Some p ->
  Earlier.read_columns w st = Done tt s' ->
  exists col_lst,
    schema_names w p = Some col_lst /\
    filter_list (filter (s' geom_col)) = col_lst /\
    ((exists c, In c col_lst /\ wkb_name c) ->
     exists c, value (s' geom_col) = PyStr c /\ In c col_lst /\ wkb_name c).
Proof.
  intros Ha Ht. unfold Earlier.read_columns, bind at 1, getattr at 1.
  rewrite Ha. simpl when. unfold bind at 1, getattr at 1. rewrite Ht.
  destruct (schema_names w p) as [col_lst|]; [|discriminate].
  unfold bind, ret, setattr.
  pose proof (first_wkb_spec col_lst) as F.
  destruct (Earlier.first_wkb col_lst) as [c|]; intros [= <-];
    exists col_lst; (split; [reflexivity|]); rewrite ?update_same;
    (split; [reflexivity|]).
  - intros _. exists c. split; [reflexivity | exact F].
  - intros (c & Hc & Hw). destruct (F c Hc Hw).
Qed.

End ToolFacts.

(** * The properties of the specification *)

Section ValidationProperties.
Import PyStr Arcpy ParquetToFeatureClass Spec RunFacts ToolFacts.
Local Open Scope py_scope.

(** The helper imported from [arcpy_parquet.utils.pyt_utils], whatever it
    does to the one object it is given, and the machine the tool runs on. *)
Variable deactivate_parameter : Param -> Param.
Variable w : World.

Local Abbreviation run := (updateParameters deactivate_parameter w).

(** C3. When the parquet path is altered (and the output already has a
    value, so that the routine gets to look at the folder), the run leaves
    the message Cannot locate parquet "part" files. on the parquet path
    parameter if and only if no file of any kind named part-*.parquet lies
    anywhere under the folder. The message is posted before anything that
    can still raise, so this holds however the run ends. *)
Theorem C3_cannot_locate_part_files (st : parameters) (p : string) :
  altered (st pqt_pth) = true ->
  valueAsText (st pqt_pth) = Some p ->
  value (st out_fc_pth) <> PyNone ->
  message (st pqt_pth) <> Some cannot_locate ->
  message (final_store (run st) pqt_pth) = Some cannot_locate
  <->
  ~ exists x, Spec.under (root w) (Pathlib.Path p) x
              /\ Spec.is_part_file_name (Pathlib.node_name x).
Proof.
  intros Ha Ht Ho Hm.
  assert (E : message (final_store (run st) pqt_pth) =
              match Pathlib.rglob (root w) (Pathlib.Path p) "part-*.parquet" with
              | [] => Some cannot_locate
              | _ :: _ => message (st pqt_pth)
              end).
  { unfold updateParameters.
    rewrite (bind_step _ _ st st tt).
    2:{ apply prepopulate_skips. now rewrite (set_not_None _ Ho), andb_false_r. }
    rewrite final_bind by (intros a; keeps_blocks).
    destruct (inspect_altered w st p Ha Ht) as (st1 & E1 & E2 & _).
    now rewrite E1. }
  rewrite E.
  assert (R : Pathlib.rglob (root w) (Pathlib.Path p) "part-*.parquet" = [] <->
              ~ exists x, Spec.under (root w) (Pathlib.Path p) x
                          /\ Spec.is_part_file_name (Pathlib.node_name x)).
  { rewrite PathlibFacts.rglob_nil. split; intros H (x & Hu & Hx); apply H;
      exists x; (split; [exact Hu|]); now apply PathlibFacts.fnmatch_part_parquet. }
  rewrite <- R.
  destruct (Pathlib.rglob (root w) (Pathlib.Path p) "part-*.parquet").
  - tauto.
  - split; [intros H; contradiction | discriminate].
Qed.

(** C1. When the parquet path is altered (and the output already has a
    value), the run enables the level-one drop-down with exactly the stems of
    the folder's sub-directories whenever there is one; and when the level-one
    (level-two) value has been set, it enables the level-two (level-three)
    drop-down with the stems of the sub-directories of the folder joined with
    the values chosen so far, whenever there is one. *)
Theorem C1_partition_dropdowns (st : parameters) (p : string) :
  Pathlib.well_formed (root w) = true ->
  altered (st pqt_pth) = true ->
  valueAsText (st pqt_pth) = Some p ->
  value (st out_fc_pth) <> PyNone ->
  let st' := final_store (run st) in
  let folder := Pathlib.Path p in
  let options := fun dir =>
    map Pathlib.stem_of_name (Pathlib.child_dir_names (root w) dir) in
  (Pathlib.child_dir_names (root w) folder <> [] ->
   enabled (st' pqt_prt_01) = true /\
   filter_list (filter (st' pqt_prt_01)) = options folder)
  /\
  (forall v1,
     altered (st pqt_prt_01) = true -> value (st pqt_prt_01) = PyStr v1 ->
     Pathlib.child_dir_names (root w) (Pathlib.joinpath folder v1) <> [] ->
     enabled (st' pqt_prt_02) = true /\
     filter_list (filter (st' pqt_prt_02)) =
       options (Pathlib.joinpath folder v1))
  /\
  (forall v1 v2,
     value (st pqt_prt_01) = PyStr v1 ->
     altered (st pqt_prt_02) = true -> value (st pqt_prt_02) = PyStr v2 ->
     Pathlib.child_dir_names (root w)
       (Pathlib.joinpath (Pathlib.joinpath folder v1) v2) <> [] ->
     enabled (st' pqt_prt_03) = true /\
     filter_list (filter (st' pqt_prt_03)) =
       options (Pathlib.joinpath (Pathlib.joinpath folder v1) v2)).
Proof.
  intros Hw Ha Ht Ho st' folder options.
  assert (Hne : forall d, Pathlib.child_dir_names (root w) d <> [] ->
                          get_partition_lst (root w) d <> []).
  { intros d Hd. rewrite (get_partition_lst_spec _ d Hw).
    intros E. apply map_eq_nil in E. contradiction. }
  assert (Hpre : prepopulate_output_name w st = Done tt st).
  { apply prepopulate_skips. now rewrite (set_not_None _ Ho), andb_false_r. }
  destruct (inspect_altered w st p Ha Ht) as (st1 & E1 & _ & L1).
  assert (A1 : altered (st1 pqt_prt_01) = altered (st pqt_prt_01))
    by kept altered pqt_prt_01 E1.
  assert (V1 : value (st1 pqt_prt_01) = value (st pqt_prt_01))
    by kept value pqt_prt_01 E1.
  assert (A2 : altered (st1 pqt_prt_02) = altered (st pqt_prt_02))
    by kept altered pqt_prt_02 E1.
  assert (V2 : value (st1 pqt_prt_02) = value (st pqt_prt_02))
    by kept value pqt_prt_02 E1.
  split; [|split].
  - intros Hd. specialize (L1 (Hne _ Hd)).
    assert (E : st' pqt_prt_01 = st1 pqt_prt_01).
    { unfold st', updateParameters. rewrite (bind_step _ _ st st tt Hpre).
      rewrite (final_bind (fun q => q)) by (intros a; keeps_blocks).
      now rewrite E1. }
    rewrite E. unfold options. now rewrite <- (get_partition_lst_spec _ _ Hw).
  - intros v1 Ha1 Hv1 Hd.
    assert (E : st' pqt_prt_02 =
                final_store (level_two w (Some folder) st1) pqt_prt_02).
    { unfold st', updateParameters. rewrite (bind_step _ _ st st tt Hpre).
      rewrite (bind_step _ _ st st1 (Some folder) E1).
      now rewrite (final_bind (fun q => q)) by (intros a; keeps_blocks). }
    rewrite E. rewrite (level_two_bound w st1 folder v1) by congruence.
    destruct (offer_partitions_some pqt_prt_02 _ st1 (Hne _ Hd))
      as (st2 & E2 & En & Fl).
    rewrite E2. simpl final_store. unfold options.
    now rewrite <- (get_partition_lst_spec _ _ Hw).
  - intros v1 v2 Hv1 Ha2 Hv2 Hd.
    destruct (level_two_Done w st1 folder) as (st2 & E2).
    { intros _. exists v1. congruence. }
    assert (E : st' pqt_prt_03 =
                final_store (level_three w (Some folder) st2) pqt_prt_03).
    { unfold st', updateParameters. rewrite (bind_step _ _ st st tt Hpre).
      rewrite (bind_step _ _ st st1 (Some folder) E1).
      rewrite (bind_step _ _ st1 st2 tt E2).
      now rewrite (final_bind (fun q => q)) by (intros a; keeps_blocks). }
    rewrite E.
    assert (B1 : value (st2 pqt_prt_01) = value (st1 pqt_prt_01))
      by kept value pqt_prt_01 E2.
    assert (B2 : value (st2 pqt_prt_02) = value (st1 pqt_prt_02))
      by kept value pqt_prt_02 E2.
    assert (B3 : altered (st2 pqt_prt_02) = altered (st1 pqt_prt_02))
      by kept altered pqt_prt_02 E2.
    rewrite (level_three_bound w st2 folder v1 v2) by congruence.
    destruct (offer_partitions_some pqt_prt_03 _ st2 (Hne _ Hd))
      as (st3 & E3 & En & Fl).
    rewrite E3. simpl final_store. unfold options.
    now rewrite <- (get_partition_lst_spec _ _ Hw).
Qed.

(** C4. In a run that completes (with no such message posted before), the
    message Sample count must be greater than zero. is on the sample count
    parameter afterwards if and only if the Export Sample flag is True and
    the sample count is missing or less than one. When the flag was altered
    to False and the count is missing or less than one, the count becomes
    100 and no message is posted. *)
Theorem C4_sample_count_message (st st' : parameters) :
  run st = Done tt st' ->
  message (st smpl_cnt) <> Some sample_count_positive ->
  (message (st' smpl_cnt) = Some sample_count_positive
   <-> value (st smpl) = PyBool true /\ no_sample_count (value (st smpl_cnt)))
  /\
  (altered (st smpl) = true -> value (st smpl) = PyBool false ->
   no_sample_count (value (st smpl_cnt)) ->
   value (st' smpl_cnt) = PyInt 100 /\
   message (st' smpl_cnt) = message (st smpl_cnt)).
Proof.
  intros Hrun Hm.
  destruct (around_sample_count deactivate_parameter w st st' Hrun)
    as (s4 & s5 & H5 & Es & Ec & E').
  destruct (sample_count_rules_spec s4 s5 H5) as (P1 & P2 & P3).
  rewrite Es, Ec in P1, P2, P3. rewrite E'.
  assert (T : is_True (value (st smpl)) = true <-> value (st smpl) = PyBool true).
  { destruct (value (st smpl)) as [|[|]| |]; simpl; split; congruence. }
  split.
  - split.
    + intros Hmsg. rewrite <- T.
      destruct (is_True (value (st smpl))) eqn:E.
      * split; [reflexivity|].
        destruct (value (st smpl_cnt)) as [|b|z|t] eqn:Ecv.
        -- now left.
        -- right. destruct b; simpl.
           ++ exfalso. apply Hm. rewrite <- P2; [exact Hmsg|].
              intros [_ [F|(z & F & Hz)]]; [discriminate|].
              simpl in F. injection F as <-. lia.
           ++ exists 0%Z. split; [reflexivity | lia].
        -- right. exists z. split; [reflexivity|].
           destruct (Z.lt_ge_cases z 1) as [L|G]; [exact L|].
           exfalso. apply Hm. rewrite <- P2; [exact Hmsg|].
           intros [_ [F|(z' & F & Hz)]]; [discriminate|].
           simpl in F. injection F as <-. lia.
        -- exfalso. apply Hm. rewrite <- P2; [exact Hmsg|].
           intros [_ [F|(z' & F & Hz)]]; discriminate.
      * exfalso. apply Hm. rewrite <- P2; [exact Hmsg|]. intros [F _].
        discriminate.
    + intros [Hv Hc]. apply P1. split; [now apply T | exact Hc].
  - intros Ha Hv Hc. split.
    + apply P3; [exact Ha | now rewrite Hv | exact Hc].
    + apply P2. intros [F _]. rewrite Hv in F. discriminate.
Qed.

(** C6, as amended. In a run that completes after the parquet path was
    altered, the geometry column parameter ends with the schema's column
    names as its option list (the helper leaving option lists alone); and if
    the geometry type is neither COORDINATES nor H3, the geometry column
    had no value and some column name contains wkb in lower case, its value
    becomes such a column. *)
Theorem C6_geometry_column_options_and_default
  (st st' : parameters) (p : string) :
  (forall q, filter_list (filter (deactivate_parameter q))
             = filter_list (filter q)) ->
  altered (st pqt_pth) = true ->
  valueAsText (st pqt_pth) = Some p ->
  run st = Done tt st' ->
  exists col_lst,
    schema_names w p = Some col_lst /\
    filter_list (filter (st' geom_col)) = col_lst /\
    (eq_str (value (st geom_type)) "COORDINATES" = false ->
     eq_str (value (st geom_type)) "H3" = false ->
     value (st geom_col) = PyNone ->
     (exists c, In c col_lst /\ wkb_name c) ->
     exists c, value (st' geom_col) = PyStr c /\ In c col_lst /\ wkb_name c).
Proof.
  intros Hd Ha Ht Hrun.
  destruct (before_require deactivate_parameter w st st' Hrun)
    as (d & s6 & s7 & H7 & G & A & K8 & Kv & Kc).
  destruct (Kc p Ha Ht) as (col_lst & S1 & S2 & S3).
  exists col_lst. split; [exact S1|].
  assert (C : altered (s6 geom_type) || altered (s6 pqt_pth) = true)
    by (rewrite A, Ha; apply orb_true_r).
  pose proof (require_columns_spec deactivate_parameter d s6 s7 C H7) as R.
  rewrite G in R. rewrite (K8 geom_col) by (simpl; tauto).
  assert (F : filter_list (filter (s6 geom_col)) = col_lst)
    by (apply S3; simpl; tauto).
  assert (V : value (s6 geom_col) = value (st geom_col))
    by (apply Kv; simpl; tauto).
  destruct (eq_str (value (st geom_type)) "COORDINATES");
    [|destruct (eq_str (value (st geom_type)) "H3")].
  - destruct R as (_ & _ & R & _). rewrite R, Hd. split; [exact F|].
    discriminate.
  - destruct R as (_ & R & _). rewrite R, Hd. split; [exact F|].
    intros _ E. discriminate.
  - destruct R as ((_ & _ & Rv & Rf) & _). rewrite Rf. split; [exact F|].
    intros _ _ Hv Hex. rewrite Rv, V.
    destruct (default_from_search is_wkb wkb_name col_lst (value (st geom_col))
                is_wkb_spec) as [D _].
    destruct (D Hv) as [D1 _]. rewrite S2.
    destruct (search_defaults_spec col_lst) as (-> & _).
    now apply D1.
Qed.

(** C7. In a run that completes after the parquet path was altered: with
    geometry type COORDINATES the longitude column, if it had no value,
    becomes a schema column whose lower-case name is x, lon or longitude (and
    stays unset if there is none), the latitude column likewise with y, lat
    or latitude; with geometry type H3 the H3 column, if it had no value,
    becomes a column whose lower-case name starts with h3. A column
    parameter that had a value keeps it. *)
Theorem C7_coordinate_and_h3_defaults (st st' : parameters) (p : string) :
  altered (st pqt_pth) = true ->
  valueAsText (st pqt_pth) = Some p ->
  run st = Done tt st' ->
  exists col_lst,
    schema_names w p = Some col_lst /\
    (value (st geom_type) = PyStr "COORDINATES" ->
     default_or_kept lon_name col_lst (value (st x_col)) (value (st' x_col)) /\
     default_or_kept lat_name col_lst (value (st y_col)) (value (st' y_col)))
    /\
    (value (st geom_type) = PyStr "H3" ->
     default_or_kept h3_name col_lst (value (st h3_col)) (value (st' h3_col))).
Proof.
  intros Ha Ht Hrun.
  destruct (before_require deactivate_parameter w st st' Hrun)
    as (d & s6 & s7 & H7 & G & A & K8 & Kv & Kc).
  destruct (Kc p Ha Ht) as (col_lst & S1 & S2 & S3).
  exists col_lst. split; [exact S1|].
  assert (C : altered (s6 geom_type) || altered (s6 pqt_pth) = true)
    by (rewrite A, Ha; apply orb_true_r).
  pose proof (require_columns_spec deactivate_parameter d s6 s7 C H7) as R.
  rewrite G in R.
  destruct (search_defaults_spec col_lst) as (_ & Dx & Dy & Dh).
  rewrite <- S2 in Dx, Dy, Dh.
  split.
  - intros Hg. rewrite Hg in R. simpl in R.
    destruct R as ((_ & _ & Rx & _) & (_ & _ & Ry & _) & _).
    rewrite (K8 x_col), (K8 y_col) by (simpl; tauto).
    rewrite Rx, Ry, Dx, Dy, (Kv x_col), (Kv y_col) by (simpl; tauto).
    split; apply default_from_search; [apply is_lon_spec | apply is_lat_spec].
  - intros Hg. rewrite Hg in R. simpl in R.
    destruct R as ((_ & _ & Rh & _) & _).
    rewrite (K8 h3_col) by (simpl; tauto).
    rewrite Rh, Dh, (Kv h3_col) by (simpl; tauto).
    apply default_from_search, is_h3_spec.
Qed.

(** C8. In a run that completes after the geometry type or the parquet path
    was altered, the column parameters of the geometry type's group are
    enabled and required (longitude and latitude for COORDINATES, the H3
    column for H3, the geometry column otherwise) and every other column
    parameter is what the deactivating helper made of it, hence not enabled,
    the helper being one that disables. *)
Theorem C8_one_group_of_columns (st st' : parameters) :
  (forall q, enabled (deactivate_parameter q) = false) ->
  altered (st geom_type) || altered (st pqt_pth) = true ->
  run st = Done tt st' ->
  let on := switched_on st' in
  let off := switched_off deactivate_parameter st' in
  if eq_str (value (st geom_type)) "COORDINATES" then
    on x_col /\ on y_col /\ off geom_col /\ off h3_col
  else if eq_str (value (st geom_type)) "H3" then
    on h3_col /\ off geom_col /\ off x_col /\ off y_col
  else
    on geom_col /\ off x_col /\ off y_col /\ off h3_col.
Proof.
  intros Hd Hc Hrun on off.
  destruct (before_require deactivate_parameter w st st' Hrun)
    as (d & s6 & s7 & H7 & G & A & K8 & _ & _).
  assert (C : altered (s6 geom_type) || altered (s6 pqt_pth) = true)
    by (rewrite G, A; exact Hc).
  pose proof (require_columns_spec deactivate_parameter d s6 s7 C H7) as R.
  rewrite G in R. unfold on, off, switched_on, switched_off.
  rewrite (K8 geom_col), (K8 x_col), (K8 y_col), (K8 h3_col) by (simpl; tauto).
  destruct (eq_str (value (st geom_type)) "COORDINATES");
    [|destruct (eq_str (value (st geom_type)) "H3")].
  - destruct R as ((X1 & X2 & _) & (Y1 & Y2 & _) & Rg & Rh).
    rewrite Rg, Rh, !Hd. repeat split; eauto.
  - destruct R as ((X1 & X2 & _) & Rg & Rx & Ry).
    rewrite Rg, Rx, Ry, !Hd. repeat split; eauto.
  - destruct R as ((X1 & X2 & _) & Rx & Ry & Rh).
    rewrite Rx, Ry, Rh, !Hd. repeat split; eauto.
Qed.

(** C2. A run can raise. The local variable holding the folder is bound
    only where the parquet path is altered, and the step for the second
    level reads it whenever the first partition is altered: with the parquet
    path unaltered and the first partition altered the run ends in an
    UnboundLocalError, all parameters untouched. ([ToolFacts.prepopulate_raises]
    is the other way a run stops at once, and [ToolFacts.run_completes_exactly]
    tells the runs that get through from those that raise.) *)
Theorem C2_partition_without_folder_raises (st : parameters) :
  altered (st pqt_pth) = false ->
  altered (st pqt_prt_01) = true ->
  run st = Raised UnboundLocalError st.
Proof.
  intros Hp H1. unfold updateParameters.
  rewrite (bind_step _ _ st st tt).
  2:{ apply prepopulate_skips. now rewrite Hp. }
  rewrite (bind_step _ _ st st None).
  2:{ unfold inspect_parquet_path, bind, getattr. now rewrite Hp. }
  unfold bind at 1, level_two, bind at 1, getattr at 1. now rewrite H1.
Qed.

End ValidationProperties.

Section DeclarationAndExecuteProperties.
Import PyStr Arcpy ParquetToFeatureClass Spec.

(** C5, as amended. The Feature Class to Parquet tool offers exactly WKB,
    WKT and XY as geometry formats, WKB being the default; the Parquet to
    Feature Class tool offers POINT, POLYLINE, POLYGON and COORDINATES as
    geometry types, and H3 after them exactly when the h3 package can be
    imported. *)
Theorem C5_geometry_choices :
  (exists q,
     nth_error FeatureClassToParquet.getParameterInfo 2 = Some q /\
     name q = "geometry_format" /\
     filter_list (filter q) = ["WKB"; "WKT"; "XY"] /\
     value q = PyStr "WKB")
  /\
  (forall (has_h3 : bool) (wgs84 : string),
     let q := store_of (getParameterInfo has_h3 wgs84) geom_type in
     name q = "geom_type" /\
     filter_list (filter q) =
       ["POINT"; "POLYLINE"; "POLYGON"; "COORDINATES"]
       ++ (if has_h3 then ["H3"] else [])).
Proof.
  split.
  - eexists. split; [reflexivity|]. repeat split.
  - intros has_h3 wgs84. destruct has_h3; split; reflexivity.
Qed.

(** The partition values that are set, in order. *)
Lemma not_none_spec (l : list (option string)) :
  not_none l =
  flat_map (fun o => match o with Some v => [v] | None => [] end) l.
Proof.
  induction l as [|[v|] l IH]; simpl; [reflexivity | now f_equal | exact IH].
Qed.

Lemma valueAsText_int (q : Param) (n : Z) :
  value q = PyInt n -> valueAsText q = Some (str_of_int n).
Proof. unfold valueAsText. now intros ->. Qed.

(** [execute] reaches the conversion whenever the output has a text and,
    with a sample asked for, the count is a number. *)
Lemma execute_returns (st : parameters) (o : string) :
  valueAsText (st out_fc_pth) = Some o ->
  (is_True (value (st smpl)) = true -> exists n, value (st smpl_cnt) = PyInt n) ->
  exists call, execute st = inr call.
Proof.
  intros Ho Hs. unfold execute. cbv zeta. rewrite Ho.
  destruct (is_True (value (st smpl))) eqn:E.
  - destruct (Hs eq_refl) as [n Hn]. rewrite (valueAsText_int _ n Hn).
    unfold int. rewrite PyStrFacts.int_of_str_of_int. eauto.
  - eauto.
Qed.

(** C9. Given an output path, [execute] calls the conversion with no
    sample count whenever the Export Sample flag is not True, whatever the
    sample count parameter holds, and with the integer held by the sample
    count parameter whenever the flag is True. *)
Theorem C9_sample_count_forwarded (st : parameters) (o : string) :
  valueAsText (st out_fc_pth) = Some o ->
  (value (st smpl) <> PyBool true ->
   exists call, execute st = inr call /\ sample_count call = None)
  /\
  (forall n, value (st smpl) = PyBool true -> value (st smpl_cnt) = PyInt n ->
   exists call, execute st = inr call /\ sample_count call = Some n).
Proof.
  intros Ho. split.
  - intros Hs. unfold execute. cbv zeta. rewrite Ho.
    assert (E : is_True (value (st smpl)) = false).
    { destruct (value (st smpl)) as [|[|]| |]; try reflexivity. congruence. }
    rewrite E. eexists. split; reflexivity.
  - intros n Hs Hn. unfold execute. cbv zeta. rewrite Ho, Hs. simpl is_True.
    cbv iota. rewrite (valueAsText_int _ n Hn). unfold int.
    rewrite PyStrFacts.int_of_str_of_int. eexists. split; reflexivity.
Qed.

(** C10. Whenever [execute] reaches the conversion, the partitions it passes
    are the texts of the level-one, level-two and level-three partition
    parameters, in that order, without those that are unset; and the
    geometry column it passes is the pair of the longitude and latitude
    columns for the geometry type COORDINATES, the H3 column for H3, and
    the geometry column for any other geometry type. *)
Theorem C10_partitions_and_geometry_column (st : parameters) (o : string) :
  valueAsText (st out_fc_pth) = Some o ->
  (is_True (value (st smpl)) = true -> exists n, value (st smpl_cnt) = PyInt n) ->
  exists call,
    execute st = inr call /\
    parquet_partitions call =
      flat_map (fun v => match v with Some t => [t] | None => [] end)
        [valueAsText (st pqt_prt_01); valueAsText (st pqt_prt_02);
         valueAsText (st pqt_prt_03)] /\
    (valueAsText (st geom_type) = Some "COORDINATES" ->
     geometry_column call =
       Columns [valueAsText (st x_col); valueAsText (st y_col)]) /\
    (valueAsText (st geom_type) = Some "H3" ->
     geometry_column call = Column (valueAsText (st h3_col))) /\
    (valueAsText (st geom_type) <> Some "COORDINATES" ->
     valueAsText (st geom_type) <> Some "H3" ->
     geometry_column call = Column (valueAsText (st geom_col))).
Proof.
  intros Ho Hs. destruct (execute_returns st o Ho Hs) as [call E].
  exists call. split; [exact E|].
  unfold execute in E. cbv zeta in E. rewrite Ho in E.
  destruct (if is_True (value (st smpl))
            then match int (valueAsText (st smpl_cnt)) with
                 | inl e => inl e
                 | inr z => inr (Some z)
                 end
            else inr None) as [e|cnt]; [discriminate|].
  injection E as <-. cbn [parquet_partitions geometry_column].
  split.
  { exact (not_none_spec [valueAsText (st pqt_prt_01);
                          valueAsText (st pqt_prt_02);
                          valueAsText (st pqt_prt_03)]). }
  assert (Q : forall t s, eq_str (of_option t) s = true <-> t = Some s).
  { intros [t|] s; simpl.
    - rewrite String.eqb_eq. split; congruence.
    - split; discriminate. }
  split; [|split].
  - intros Hg. rewrite Hg. reflexivity.
  - intros Hg. rewrite Hg. reflexivity.
  - intros H1 H2.
    destruct (eq_str (of_option (valueAsText (st geom_type))) "COORDINATES") eqn:E1.
    { apply Q in E1. contradiction. }
    destruct (eq_str (of_option (valueAsText (st geom_type))) "H3") eqn:E2.
    { apply Q in E2. contradiction. }
    reflexivity.
Qed.

End DeclarationAndExecuteProperties.

(** * The properties at concrete inputs *)

Section Instances.
Import PyStr Arcpy ParquetToFeatureClass Spec Examples.

Local Abbreviation run_on w st :=
  (updateParameters pyt_utils.deactivate_parameter w st).

(** With folder, year and month chosen, the three drop-downs offer the
    years, the months of 2020 and the days of its first month. *)
Lemma C1_partition_dropdowns_witness :
  Pathlib.well_formed (root machine) = true /\
  altered (partitions_chosen pqt_pth) = true /\
  valueAsText (partitions_chosen pqt_pth) = Some "/data/pqt" /\
  value (partitions_chosen out_fc_pth) <> PyNone /\
  let st' := final_store (run_on machine partitions_chosen) in
  (enabled (st' pqt_prt_01) = true /\
   filter_list (filter (st' pqt_prt_01)) = ["year=2020"; "year=2021"]) /\
  (enabled (st' pqt_prt_02) = true /\
   filter_list (filter (st' pqt_prt_02)) = ["month=1"]) /\
  (enabled (st' pqt_prt_03) = true /\
   filter_list (filter (st' pqt_prt_03)) = ["day=5"]).
Proof.
  assert (Ho : value (partitions_chosen out_fc_pth) <> PyNone)
    by discriminate.
  repeat (split; [reflexivity || exact Ho|]).
  destruct (C1_partition_dropdowns pyt_utils.deactivate_parameter machine
              partitions_chosen "/data/pqt" eq_refl eq_refl eq_refl Ho)
    as (L1 & L2 & L3).
  split; [|split].
  - apply L1. discriminate.
  - apply (L2 "year=2020"); [reflexivity | reflexivity | discriminate].
  - apply (L3 "year=2020" "month=1");
      [reflexivity | reflexivity | reflexivity | discriminate].
Defined.

(** A first partition entered while the folder parameter is unaltered. *)
Lemma C2_partition_without_folder_raises_witness :
  altered (partition_only pqt_pth) = false /\
  altered (partition_only pqt_prt_01) = true /\
  run_on machine partition_only = Raised UnboundLocalError partition_only.
Proof.
  split; [reflexivity|]. split; [reflexivity|].
  apply C2_partition_without_folder_raises; reflexivity.
Defined.

(** The folder chosen while the output has no value: the run stops at the
    first statement, reading an attribute parameter objects do not have. *)
Lemma folder_without_output_raises :
  run_on machine folder_chosen_no_output
  = Raised AttributeError folder_chosen_no_output.
Proof. apply ToolFacts.prepopulate_raises; reflexivity. Qed.

(** The dataset folder holds a part file, so no message is posted. *)
Lemma C3_cannot_locate_part_files_witness :
  altered (folder_chosen pqt_pth) = true /\
  valueAsText (folder_chosen pqt_pth) = Some "/data/pqt" /\
  value (folder_chosen out_fc_pth) <> PyNone /\
  message (folder_chosen pqt_pth) <> Some cannot_locate /\
  (message (final_store (run_on machine folder_chosen) pqt_pth)
   = Some cannot_locate
   <->
   ~ exists x, under (root machine) (Pathlib.Path "/data/pqt") x
               /\ is_part_file_name (Pathlib.node_name x)).
Proof.
  assert (Ho : value (folder_chosen out_fc_pth) <> PyNone) by discriminate.
  assert (Hm : message (folder_chosen pqt_pth) <> Some cannot_locate)
    by discriminate.
  split; [reflexivity|]. split; [reflexivity|]. split; [exact Ho|].
  split; [exact Hm|].
  exact (C3_cannot_locate_part_files pyt_utils.deactivate_parameter machine
           folder_chosen "/data/pqt" eq_refl eq_refl Ho Hm).
Defined.

(** A sample asked for with the count blanked out. *)
Lemma C4_sample_count_message_witness :
  message (sample_without_count smpl_cnt) <> Some sample_count_positive /\
  exists st',
    run_on machine sample_without_count = Done tt st' /\
    message (st' smpl_cnt) = Some sample_count_positive.
Proof.
  assert (Hm : message (sample_without_count smpl_cnt)
               <> Some sample_count_positive) by discriminate.
  split; [exact Hm|].
  destruct (RunFacts.completes_Done (run_on machine sample_without_count))
    as [st' Hr]; [vm_compute; reflexivity|].
  exists st'. split; [exact Hr|].
  destruct (C4_sample_count_message pyt_utils.deactivate_parameter machine
              sample_without_count st' Hr Hm) as [[_ L] _].
  apply L. split; [reflexivity | left; reflexivity].
Defined.

(** With the geometry type POINT the geometry column takes the WKB
    column. *)
Lemma C6_geometry_column_options_and_default_witness :
  (forall q, filter_list (filter (pyt_utils.deactivate_parameter q))
             = filter_list (filter q)) /\
  altered (point_chosen pqt_pth) = true /\
  valueAsText (point_chosen pqt_pth) = Some "/data/pqt" /\
  exists st',
    run_on machine point_chosen = Done tt st' /\
    filter_list (filter (st' geom_col)) = columns /\
    exists c, value (st' geom_col) = PyStr c /\ In c columns /\ wkb_name c.
Proof.
  assert (Hd : forall q, filter_list (filter (pyt_utils.deactivate_parameter q))
                         = filter_list (filter q)) by reflexivity.
  split; [exact Hd|]. split; [reflexivity|]. split; [reflexivity|].
  destruct (RunFacts.completes_Done (run_on machine point_chosen))
    as [st' Hr]; [vm_compute; reflexivity|].
  exists st'. split; [exact Hr|].
  destruct (C6_geometry_column_options_and_default
              pyt_utils.deactivate_parameter machine point_chosen st'
              "/data/pqt" Hd eq_refl eq_refl Hr) as (col_lst & S & F & D).
  assert (E : Some columns = Some col_lst) by (rewrite <- S; reflexivity).
  injection E as <-. split; [exact F|].
  apply D; [reflexivity | reflexivity | reflexivity |].
  exists "WKB_geom". split; [simpl; tauto | now exists "", "_geom"].
Defined.

(** With the default geometry type COORDINATES both coordinate columns get
    their defaults. *)
Lemma C7_coordinate_and_h3_defaults_witness :
  altered (folder_chosen pqt_pth) = true /\
  valueAsText (folder_chosen pqt_pth) = Some "/data/pqt" /\
  exists st',
    run_on machine folder_chosen = Done tt st' /\
    exists col_lst,
      schema_names machine "/data/pqt" = Some col_lst /\
      default_or_kept lon_name col_lst (value (folder_chosen x_col))
        (value (st' x_col)) /\
      default_or_kept lat_name col_lst (value (folder_chosen y_col))
        (value (st' y_col)).
Proof.
  split; [reflexivity|]. split; [reflexivity|].
  destruct (RunFacts.completes_Done (run_on machine folder_chosen))
    as [st' Hr]; [vm_compute; reflexivity|].
  exists st'. split; [exact Hr|].
  destruct (C7_coordinate_and_h3_defaults pyt_utils.deactivate_parameter
              machine folder_chosen st' "/data/pqt" eq_refl eq_refl Hr)
    as (col_lst & S & L & _).
  exists col_lst. split; [exact S|]. apply L. reflexivity.
Defined.

(** With the geometry type H3 the H3 column alone is switched on. *)
Lemma C8_one_group_of_columns_witness :
  (forall q, enabled (pyt_utils.deactivate_parameter q) = false) /\
  altered (h3_chosen geom_type) || altered (h3_chosen pqt_pth) = true /\
  exists st',
    run_on machine h3_chosen = Done tt st' /\
    switched_on st' h3_col /\
    switched_off pyt_utils.deactivate_parameter st' geom_col /\
    switched_off pyt_utils.deactivate_parameter st' x_col /\
    switched_off pyt_utils.deactivate_parameter st' y_col.
Proof.
  assert (Hd : forall q, enabled (pyt_utils.deactivate_parameter q) = false)
    by reflexivity.
  split; [exact Hd|]. split; [reflexivity|].
  destruct (RunFacts.completes_Done (run_on machine h3_chosen))
    as [st' Hr]; [vm_compute; reflexivity|].
  exists st'. split; [exact Hr|].
  exact (C8_one_group_of_columns pyt_utils.deactivate_parameter machine
           h3_chosen st' Hd eq_refl Hr).
Defined.

(** A sample of 25 rows is forwarded as the number 25. *)
Lemma C9_sample_count_forwarded_witness :
  valueAsText (sample_of_25 out_fc_pth) = Some "/ws/project.gdb/pqt" /\
  exists call, execute sample_of_25 = inr call /\ sample_count call = Some 25%Z.
Proof.
  split; [reflexivity|].
  destruct (C9_sample_count_forwarded sample_of_25 "/ws/project.gdb/pqt"
              eq_refl) as [_ L].
  apply (L 25%Z); reflexivity.
Defined.

(** Year and month chosen, day left unset. *)
Lemma C10_partitions_and_geometry_column_witness :
  valueAsText (partitions_chosen out_fc_pth) = Some "/ws/project.gdb/pqt" /\
  exists call,
    execute partitions_chosen = inr call /\
    parquet_partitions call = ["year=2020"; "month=1"] /\
    geometry_column call = Columns [None; None].
Proof.
  split; [reflexivity|].
  destruct (C10_partitions_and_geometry_column partitions_chosen
              "/ws/project.gdb/pqt" eq_refl) as (call & E & P & G & _).
  { discriminate. }
  exists call. split; [exact E|]. split; [exact P|]. apply G. reflexivity.
Defined.

(** C5, as first stated, fails where the h3 package is missing: H3 is not
    among the geometry types then. *)
Lemma C5_H3_not_offered_without_h3 :
  ~ (forall (has_h3 : bool) (wgs84 : string),
       In "H3" (filter_list
                  (filter (store_of (getParameterInfo has_h3 wgs84) geom_type)))).
Proof.
  intros H. specialize (H false "GEOGCS"). simpl in H.
  repeat (destruct H as [H|H]; [discriminate H|]). exact H.
Qed.

(** C6, as first stated, fails with the default geometry type: the folder
    is chosen, the schema has a WKB column, the geometry column has no
    value, and after the run it still has none. *)
Lemma C6_no_default_for_coordinates :
  ~ (forall (w : World) (st st' : parameters) (p : string)
            (col_lst : list string),
       altered (st pqt_pth) = true ->
       valueAsText (st pqt_pth) = Some p ->
       schema_names w p = Some col_lst ->
       updateParameters pyt_utils.deactivate_parameter w st = Done tt st' ->
       filter_list (filter (st' geom_col)) = col_lst /\
       (value (st geom_col) = PyNone ->
        (exists c, In c col_lst /\ wkb_name c) ->
        exists c, value (st' geom_col) = PyStr c /\ In c col_lst /\ wkb_name c)).
Proof.
  intros H.
  destruct (RunFacts.completes_Done (run_on machine folder_chosen))
    as [st' Hr]; [vm_compute; reflexivity|].
  destruct (H machine folder_chosen st' "/data/pqt" columns
              eq_refl eq_refl eq_refl Hr) as [_ D].
  destruct D as (c & Hc & _).
  - reflexivity.
  - exists "WKB_geom". split; [simpl; tauto|]. now exists "", "_geom".
  - assert (E : value (final_store (run_on machine folder_chosen) geom_col)
                = PyNone) by (vm_compute; reflexivity).
    rewrite Hr in E. simpl in E. congruence.
Qed.

End Instances.

(** * Further properties of the toolbox *)

Module MoreFacts.
Import PyStr Pathlib Spec MoreSpec.

Lemma last_app_nonempty (p rest : list string) :
  rest <> [] -> last (p ++ rest) "" = last rest "".
Proof.
  intros H. induction p as [|a p IH]; [reflexivity|].
  simpl. destruct (p ++ rest) eqn:E; [|exact IH].
  apply app_eq_nil in E. destruct E. contradiction.
Qed.

(** Whatever recursive globbing yields lies below the directory it started
    from and bears a name the pattern accepts. *)
Lemma rglob_node_sound (pat : string) (n : node) :
  forall here q,
    In q (rglob_node pat here n) ->
    exists rest x,
      q = here ++ rest /\ rest <> [] /\ below n x /\
      node_name x = last rest "" /\ fnmatch pat (node_name x) = true.
Proof.
  induction n as [nm|nm ch IH] using node_ind; intros here q; simpl.
  - intros [].
  - rewrite Forall_forall in IH. intros H. apply in_app_or in H.
    destruct H as [H|H].
    + apply in_map_iff in H. destruct H as (c & <- & Hc).
      apply filter_In in Hc. destruct Hc as [Hin Hm].
      exists [node_name c], c. repeat split; try assumption.
      * discriminate.
      * now constructor.
    + apply in_flat_map in H. destruct H as (c & Hin & Hq).
      destruct (IH c Hin _ _ Hq) as (rest & x & -> & Hr & Hb & Hn & Hm).
      exists (node_name c :: rest), x. repeat split; try assumption.
      * now rewrite <- app_assoc.
      * discriminate.
      * now apply below_deeper with c.
      * rewrite Hn. destruct rest; [contradiction | reflexivity].
Qed.

Lemma rglob_sound (fs : node) (p q : path) (pat : string) :
  In q (rglob fs p pat) ->
  exists rest x,
    q = p ++ rest /\ rest <> [] /\ under fs p x /\
    node_name x = name q /\ fnmatch pat (name q) = true.
Proof.
  unfold rglob, under. destruct (lookup fs p) as [n|] eqn:E; [|intros []].
  intros H. destruct (rglob_node_sound pat n p q H)
    as (rest & x & -> & Hr & Hb & Hn & Hm).
  exists rest, x. unfold name. rewrite (last_app_nonempty p rest Hr).
  repeat split; try assumption.
  - now exists n.
  - now rewrite <- Hn.
Qed.

(** What [part*.csv] accepts. *)
Lemma fnmatch_part_csv (nm : string) :
  fnmatch "part*.csv" nm = true <-> is_schema_part_name nm.
Proof.
  unfold is_schema_part_name. split.
  - intros H. apply PathlibFacts.fnmatch_char in H; [|reflexivity].
    destruct H as (n1 & -> & H).
    apply PathlibFacts.fnmatch_char in H; [|reflexivity].
    destruct H as (n2 & -> & H).
    apply PathlibFacts.fnmatch_char in H; [|reflexivity].
    destruct H as (n3 & -> & H).
    apply PathlibFacts.fnmatch_char in H; [|reflexivity].
    destruct H as (n4 & -> & H). apply PathlibFacts.fnmatch_star in H.
    destruct H as (a & b & -> & H).
    apply PathlibFacts.fnmatch_literal in H; [|reflexivity].
    subst b. now exists a.
  - intros (mid & ->).
    do 4 (apply PathlibFacts.fnmatch_char; [reflexivity|];
          eexists; split; [reflexivity|]).
    apply PathlibFacts.fnmatch_star. exists mid, ".csv". split; reflexivity.
Qed.

Lemma split_without_separator (sep : ascii) (s : string) :
  rfind sep s = None -> split sep s = [s].
Proof.
  induction s as [|a s IH]; simpl; [reflexivity|].
  destruct (rfind sep s); [discriminate|].
  destruct (Ascii.eqb a sep); [discriminate|]. intros _.
  now rewrite IH.
Qed.

(** Joining a path with a plain name appends the name. *)
Lemma joinpath_plain_name (p : path) (nm : string) :
  nm <> "" -> rfind "/" nm = None -> rfind "." nm = None ->
  joinpath p nm = p ++ [nm].
Proof.
  intros Hne Hs Hd. unfold joinpath, components.
  rewrite (split_without_separator "/" nm Hs).
  assert (S : startswith nm "/" = false).
  { clear Hne Hd. destruct nm as [|a nm]; [reflexivity|].
    cbn [rfind] in Hs. cbn [startswith].
    destruct (rfind "/" nm); [discriminate|].
    destruct (Ascii.eqb a "/") eqn:E; [discriminate|].
    now rewrite Ascii.eqb_sym, E. }
  rewrite S. simpl.
  assert (E1 : String.eqb nm "" = false) by now apply String.eqb_neq.
  assert (E2 : String.eqb nm "." = false).
  { apply String.eqb_neq. intros ->. discriminate Hd. }
  now rewrite E1, E2.
Qed.

Lemma stem_without_suffix (nm : string) :
  rfind "." nm = None -> stem_of_name nm = nm.
Proof. unfold stem_of_name. now intros ->. Qed.

End MoreFacts.

Section FurtherValidationProperties.
Import PyStr Arcpy ParquetToFeatureClass Spec MoreSpec RunFacts ToolFacts MoreFacts.
Local Open Scope py_scope.

Variable deactivate_parameter : Param -> Param.
Variable w : World.

Local Abbreviation run := (updateParameters deactivate_parameter w).

(** Reading the missing attribute ends the statement it stands in. *)
Lemma keeps_getattr_stem_bind {A B : Type} (f : Param -> B) (n m : pname)
  (k : string -> M A) :
  keeps f n (bind (getattr_stem m) k).
Proof. intros st. reflexivity. Qed.

Lemma keeps_run_whole (n : pname) :
  In n [sptl_ref; out_fc_pth; geom_type; build_idx; smpl] ->
  keeps (fun q : Param => q) n run.
Proof.
  intros Hn. simpl in Hn. unfold updateParameters.
  destruct Hn as [<-|[<-|[<-|[<-|[<-|[]]]]]];
    open_blocks;
    repeat first [ apply keeps_getattr_stem_bind | keeps_step ].
Qed.

Lemma keeps_run_entered (n : pname) :
  In n [pqt_pth; pqt_prt_01; pqt_prt_02; pqt_prt_03] ->
  keeps value n run /\ keeps altered n run /\ keeps parameterType n run.
Proof.
  intros Hn. simpl in Hn. unfold updateParameters.
  destruct Hn as [<-|[<-|[<-|[<-|[]]]]]; repeat split;
    open_blocks;
    repeat first [ apply keeps_getattr_stem_bind | keeps_step ].
Qed.

(** X1. [updateParameters] gets through exactly on the parameter states that
    are ready for it: an altered parquet path comes with a text, an output
    that has a value and a folder the Parquet reader opens; an altered
    partition comes with an altered parquet path and texts in the partition
    values that get joined; a sample count that gets compared with 1 is a
    number. On every other state it raises. *)
Theorem X1_updateParameters_completes_exactly (st : parameters) :
  (exists st', run st = Done tt st') <-> runs_through w st = true.
Proof.
  rewrite <- (run_completes_exactly deactivate_parameter w st). split.
  - intros [st' E]. now rewrite E.
  - apply completes_Done.
Qed.

(** X2. While no parameter that the routine looks at is altered and no
    sample is asked for, a run changes nothing at all. *)
Theorem X2_nothing_altered_nothing_changed (st : parameters) :
  nothing_to_do st = true -> run st = Done tt st.
Proof.
  unfold nothing_to_do. intros H.
  repeat (apply andb_true_iff in H; destruct H as [H ?]).
  repeat match goal with
         | E : negb _ = true |- _ => apply negb_true_iff in E
         end.
  unfold updateParameters.
  rewrite (bind_step _ _ st st tt).
  2:{ apply prepopulate_skips. now rewrite H. }
  rewrite (bind_step _ _ st st None) by now apply inspect_unaltered.
  rewrite (bind_step _ _ st st tt) by now apply level_two_skip.
  rewrite (bind_step _ _ st st tt) by now apply level_three_skip.
  rewrite (bind_step _ _ st st tt).
  2:{ unfold sample_count_rules, bind, getattr, and_then, ret. cbv zeta.
      match goal with E : is_True _ = false |- _ => rewrite E end.
      match goal with E : altered (st smpl) = false |- _ => rewrite E end.
      reflexivity. }
  rewrite (bind_step _ _ st st (mkDefaults None None None None)).
  2:{ unfold read_columns, bind, getattr. now rewrite H. }
  rewrite (bind_step _ _ st st tt).
  2:{ unfold require_columns, bind, getattr.
      match goal with E : altered (st geom_type) = false |- _ => rewrite E end.
      now rewrite H. }
  unfold find_schema_file, bind, getattr. now rewrite H.
Qed.

(** X3. However a run ends, it leaves the spatial reference, the output
    path, the geometry type, the index flag and the sample flag untouched,
    and of the parquet path and the three partitions it changes neither the
    value, nor the altered mark, nor the parameter type. In particular the
    output path is never pre-populated. *)
Theorem X3_parameters_a_run_never_changes (st : parameters) :
  let st' := final_store (run st) in
  Forall (fun n => st' n = st n)
    [sptl_ref; out_fc_pth; geom_type; build_idx; smpl]
  /\
  Forall (fun n => value (st' n) = value (st n)
                   /\ altered (st' n) = altered (st n)
                   /\ parameterType (st' n) = parameterType (st n))
    [pqt_pth; pqt_prt_01; pqt_prt_02; pqt_prt_03].
Proof.
  intros st'. split; apply Forall_forall; intros n Hn.
  - apply (keeps_run_whole n Hn st).
  - destruct (keeps_run_entered n Hn) as (K1 & K2 & K3).
    split; [apply K1 | split; [apply K2 | apply K3]].
Qed.

(** X4. When the chosen folder has no sub-directory, the level-one
    drop-down is left exactly as it was: a run only ever fills and enables
    it, so options offered for a folder chosen before stay. *)
Theorem X4_no_partitions_leaves_dropdown (st : parameters) (p : string) :
  Pathlib.well_formed (root w) = true ->
  altered (st pqt_pth) = true ->
  valueAsText (st pqt_pth) = Some p ->
  Pathlib.child_dir_names (root w) (Pathlib.Path p) = [] ->
  final_store (run st) pqt_prt_01 = st pqt_prt_01.
Proof.
  intros Hw Ha Ht Hd.
  assert (Hl : get_partition_lst (root w) (Pathlib.Path p) = [])
    by (rewrite (get_partition_lst_spec _ _ Hw), Hd; reflexivity).
  unfold updateParameters, bind at 1. rewrite prepopulate_eq.
  destruct (altered (st pqt_pth) && is_None (value (st out_fc_pth)));
    [reflexivity|].
  rewrite (final_bind (fun q : Param => q)) by (intros a; keeps_blocks).
  unfold inspect_parquet_path, bind at 1, getattr at 1. rewrite Ha.
  unfold bind at 1, getattr at 1. rewrite Ht. simpl Path_of.
  unfold bind at 1, ret at 1. rewrite Hl.
  destruct (Pathlib.rglob (root w) (Pathlib.Path p) "part-*.parquet");
    reflexivity.
Qed.

(** The search for the schema file, as a step. *)
Lemma find_schema_file_spec (st st' : parameters) (p : string) :
  altered (st pqt_pth) = true ->
  valueAsText (st pqt_pth) = Some p ->
  find_schema_file w st = Done tt st' ->
  match Pathlib.rglob (root w) (Pathlib.parent (Pathlib.Path p)) "schema" with
  | [] => st' = st
  | schm_dir_pth :: _ =>
      match Pathlib.rglob (root w) schm_dir_pth "part*.csv" with
      | [] => st' = st
      | csv_pth :: _ =>
          st' = update st schema_file_pth
                  (with_value (PyStr (Pathlib.str csv_pth)))
      end
  end.
Proof.
  intros Ha Ht. unfold find_schema_file, bind at 1, getattr at 1. rewrite Ha.
  simpl when. unfold bind at 1, getattr at 1. rewrite Ht. simpl Path_of.
  unfold bind, ret.
  destruct (Pathlib.rglob (root w) (Pathlib.parent (Pathlib.Path p)) "schema")
    as [|s l]; [now intros [= <-]|].
  destruct (Pathlib.rglob (root w) s "part*.csv") as [|q l'];
    [now intros [= <-]|].
  unfold setattr. now intros [= <-].
Qed.

(** X5. In a run that completes after the parquet path was altered, the
    schema file parameter either stays as it was or gets, as its value and
    nothing else, the path of something named part*.csv that lies below
    something named schema that lies below the folder holding the dataset.
    It stays as it was when nothing below that folder is named schema. *)
Theorem X5_schema_file_by_convention (st st' : parameters) (p : string) :
  altered (st pqt_pth) = true ->
  valueAsText (st pqt_pth) = Some p ->
  run st = Done tt st' ->
  let ds_pth := Pathlib.parent (Pathlib.Path p) in
  (st' schema_file_pth = st schema_file_pth
   \/
   exists to_schema to_csv x,
     to_schema <> [] /\ to_csv <> [] /\
     Pathlib.name (ds_pth ++ to_schema) = "schema" /\
     under (root w) (ds_pth ++ to_schema) x /\
     Pathlib.node_name x = Pathlib.name (ds_pth ++ to_schema ++ to_csv) /\
     is_schema_part_name (Pathlib.node_name x) /\
     st' schema_file_pth =
       with_value (PyStr (Pathlib.str (ds_pth ++ to_schema ++ to_csv)))
         (st schema_file_pth))
  /\
  ((forall x, under (root w) ds_pth x -> Pathlib.node_name x <> "schema") ->
   st' schema_file_pth = st schema_file_pth).
Proof.
  intros Ha Ht Hrun ds_pth. apply run_Done in Hrun.
  destruct Hrun as (s1 & p_pth & s2 & s3 & s4 & s5 & d & s6 & s7 &
                    H1 & H2 & H3 & H4 & H5 & H6 & H7 & H8).
  assert (K : s7 schema_file_pth = st schema_file_pth).
  { assert (A1 : s1 schema_file_pth = st schema_file_pth) by kept_whole H1.
    assert (A2 : s2 schema_file_pth = s1 schema_file_pth) by kept_whole H2.
    assert (A3 : s3 schema_file_pth = s2 schema_file_pth) by kept_whole H3.
    assert (A4 : s4 schema_file_pth = s3 schema_file_pth) by kept_whole H4.
    assert (A5 : s5 schema_file_pth = s4 schema_file_pth) by kept_whole H5.
    assert (A6 : s6 schema_file_pth = s5 schema_file_pth) by kept_whole H6.
    assert (A7 : s7 schema_file_pth = s6 schema_file_pth) by kept_whole H7.
    congruence. }
  assert (Ka : altered (s7 pqt_pth) = true).
  { assert (A1 : altered (s1 pqt_pth) = altered (st pqt_pth))
      by kept altered pqt_pth H1.
    assert (A2 : altered (s2 pqt_pth) = altered (s1 pqt_pth))
      by kept altered pqt_pth H2.
    assert (A3 : altered (s3 pqt_pth) = altered (s2 pqt_pth))
      by kept altered pqt_pth H3.
    assert (A4 : altered (s4 pqt_pth) = altered (s3 pqt_pth))
      by kept altered pqt_pth H4.
    assert (A5 : altered (s5 pqt_pth) = altered (s4 pqt_pth))
      by kept altered pqt_pth H5.
    assert (A6 : altered (s6 pqt_pth) = altered (s5 pqt_pth))
      by kept altered pqt_pth H6.
    assert (A7 : altered (s7 pqt_pth) = altered (s6 pqt_pth))
      by kept altered pqt_pth H7.
    congruence. }
  assert (Kt : valueAsText (s7 pqt_pth) = Some p).
  { assert (A1 : value (s1 pqt_pth) = value (st pqt_pth))
      by kept value pqt_pth H1.
    assert (A2 : value (s2 pqt_pth) = value (s1 pqt_pth))
      by kept value pqt_pth H2.
    assert (A3 : value (s3 pqt_pth) = value (s2 pqt_pth))
      by kept value pqt_pth H3.
    assert (A4 : value (s4 pqt_pth) = value (s3 pqt_pth))
      by kept value pqt_pth H4.
    assert (A5 : value (s5 pqt_pth) = value (s4 pqt_pth))
      by kept value pqt_pth H5.
    assert (A6 : value (s6 pqt_pth) = value (s5 pqt_pth))
      by kept value pqt_pth H6.
    assert (A7 : value (s7 pqt_pth) = value (s6 pqt_pth))
      by kept value pqt_pth H7.
    unfold valueAsText in *. now rewrite A7, A6, A5, A4, A3, A2, A1. }
  pose proof (find_schema_file_spec s7 st' p Ka Kt H8) as F.
  fold ds_pth in F. split.
  - destruct (Pathlib.rglob (root w) ds_pth "schema") as [|s l] eqn:Es.
    { left. now rewrite F. }
    destruct (Pathlib.rglob (root w) s "part*.csv") as [|q l'] eqn:Eq.
    { left. now rewrite F. }
    right.
    destruct (rglob_sound (root w) ds_pth s "schema")
      as (r1 & x1 & -> & Hr1 & _ & _ & Hm1); [rewrite Es; now left|].
    destruct (rglob_sound (root w) (ds_pth ++ r1) q "part*.csv")
      as (r2 & x2 & -> & Hr2 & Hu2 & Hn2 & Hm2); [rewrite Eq; now left|].
    exists r1, r2, x2. rewrite <- app_assoc in *.
    repeat split; try assumption.
    + apply PathlibFacts.fnmatch_literal in Hm1; [exact Hm1 | reflexivity].
    + rewrite Hn2. now apply fnmatch_part_csv.
    + rewrite F, update_same, K. reflexivity.
  - intros Hno.
    assert (E : Pathlib.rglob (root w) ds_pth "schema" = []).
    { apply PathlibFacts.rglob_nil. intros (x & Hu & Hm).
      apply PathlibFacts.fnmatch_literal in Hm; [|reflexivity].
      exact (Hno x Hu Hm). }
    rewrite E in F. now rewrite F.
Qed.

(** The sample count rules on a count that is a number. *)
Lemma sample_count_rules_number (st s' : parameters) (n : Z) :
  sample_count_rules st = Done tt s' ->
  value (st smpl_cnt) = PyInt n ->
  ((1 <= n)%Z ->
   value (s' smpl_cnt) = PyInt n /\
   message (s' smpl_cnt) = message (st smpl_cnt) /\
   (altered (st smpl) = true -> value (st smpl) = PyBool true ->
    enabled (s' smpl_cnt) = true) /\
   (altered (st smpl) = true -> value (st smpl) = PyBool false ->
    enabled (s' smpl_cnt) = false) /\
   (altered (st smpl) = false -> s' smpl_cnt = st smpl_cnt))
  /\
  ((n < 1)%Z -> altered (st smpl) = true -> value (st smpl) = PyBool false ->
   value (s' smpl_cnt) = PyInt 100 /\
   enabled (s' smpl_cnt) = enabled (st smpl_cnt)).
Proof.
  intros E Hv. revert E.
  unfold sample_count_rules, bind, getattr, and_then, lift, py_lt, ret, raise,
    setattr. cbv zeta. rewrite Hv.
  cbn [is_None as_number andb]. rewrite !andb_false_r.
  destruct (value (st smpl)) as [|[|]|z0|t0];
    destruct (altered (st smpl));
    cbn [is_True is_False andb];
    destruct (Z.ltb_spec n 1);
    cbv beta iota;
    intros E; injection E as <-;
    rewrite ?update_same;
    cbn [message value enabled with_message with_value with_enabled];
    (split; [intros ?; repeat split; intros; try reflexivity;
             try discriminate; try congruence; try lia
            |intros; try discriminate; try lia; try (split; reflexivity)]).
Qed.

(** X8. In a run that completes with a whole number in the sample count: if
    the number is at least one, the count and its message stay, switching
    the sample flag on enables the count, switching it off disables it, and
    with the flag unaltered the count parameter is not touched; if the
    number is below one and the flag was switched off, the count becomes 100
    and is left enabled or disabled as it was. *)
Theorem X8_sample_flag_switches_count (st st' : parameters) (n : Z) :
  run st = Done tt st' ->
  value (st smpl_cnt) = PyInt n ->
  ((1 <= n)%Z ->
   value (st' smpl_cnt) = PyInt n /\
   message (st' smpl_cnt) = message (st smpl_cnt) /\
   (altered (st smpl) = true -> value (st smpl) = PyBool true ->
    enabled (st' smpl_cnt) = true) /\
   (altered (st smpl) = true -> value (st smpl) = PyBool false ->
    enabled (st' smpl_cnt) = false) /\
   (altered (st smpl) = false -> st' smpl_cnt = st smpl_cnt))
  /\
  ((n < 1)%Z -> altered (st smpl) = true -> value (st smpl) = PyBool false ->
   value (st' smpl_cnt) = PyInt 100 /\
   enabled (st' smpl_cnt) = enabled (st smpl_cnt)).
Proof.
  intros Hrun Hv.
  destruct (around_sample_count deactivate_parameter w st st' Hrun)
    as (s4 & s5 & H5 & Es & Ec & E').
  assert (Hv4 : value (s4 smpl_cnt) = PyInt n) by now rewrite Ec.
  pose proof (sample_count_rules_number s4 s5 n H5 Hv4) as P.
  rewrite Es, Ec in P. now rewrite E'.
Qed.

(** X15. In a run that completes after the parquet path was altered, the
    column parameters the geometry type switches on offer exactly the
    schema's column names: longitude and latitude for COORDINATES, the H3
    column for H3, whatever the deactivating helper does. *)
Theorem X15_switched_on_columns_offer_schema (st st' : parameters)
  (p : string) :
  altered (st pqt_pth) = true ->
  valueAsText (st pqt_pth) = Some p ->
  run st = Done tt st' ->
  exists col_lst,
    schema_names w p = Some col_lst /\
    (value (st geom_type) = PyStr "COORDINATES" ->
     filter_list (filter (st' x_col)) = col_lst /\
     filter_list (filter (st' y_col)) = col_lst) /\
    (value (st geom_type) = PyStr "H3" ->
     filter_list (filter (st' h3_col)) = col_lst).
Proof.
  intros Ha Ht Hrun.
  destruct (before_require deactivate_parameter w st st' Hrun)
    as (d & s6 & s7 & H7 & G & A & K8 & Kv & Kc).
  destruct (Kc p Ha Ht) as (col_lst & S1 & S2 & S3).
  exists col_lst. split; [exact S1|].
  assert (C : altered (s6 geom_type) || altered (s6 pqt_pth) = true)
    by (rewrite A, Ha; apply orb_true_r).
  pose proof (require_columns_spec deactivate_parameter d s6 s7 C H7) as R.
  rewrite G in R. split.
  - intros Hg. rewrite Hg in R. simpl in R.
    destruct R as ((_ & _ & _ & Rx) & (_ & _ & _ & Ry) & _).
    rewrite (K8 x_col), (K8 y_col) by (simpl; tauto).
    rewrite Rx, Ry. split; apply S3; simpl; tauto.
  - intros Hg. rewrite Hg in R. simpl in R.
    destruct R as ((_ & _ & _ & Rh) & _).
    rewrite (K8 h3_col) by (simpl; tauto).
    rewrite Rh. apply S3; simpl; tauto.
Qed.

End FurtherValidationProperties.

Section FurtherProperties.
Import PyStr Arcpy ParquetToFeatureClass Spec MoreSpec RunFacts ToolFacts MoreFacts.

(** X6. A sub-directory whose name has no dot and no slash is offered under
    that very name, and the folder joined with the offered name is that
    directory again: choosing it leads on to the next level. *)
Theorem X6_offered_partition_leads_on (fs : Pathlib.node) (p : Pathlib.path)
  (n c : Pathlib.node) :
  Pathlib.well_formed fs = true ->
  Pathlib.lookup fs p = Some n ->
  In c (Pathlib.entries n) ->
  Pathlib.node_is_dir c = true ->
  rfind "." (Pathlib.node_name c) = None ->
  rfind "/" (Pathlib.node_name c) = None ->
  In (Pathlib.node_name c) (get_partition_lst fs p) /\
  Pathlib.lookup fs (Pathlib.joinpath p (Pathlib.node_name c)) = Some c /\
  get_partition_lst fs (Pathlib.joinpath p (Pathlib.node_name c)) =
    map Pathlib.stem_of_name
      (map Pathlib.node_name (List.filter Pathlib.node_is_dir (Pathlib.entries c))).
Proof.
  intros Hw Hn Hc Hd Hdot Hslash.
  pose proof (PathlibFacts.lookup_well_formed fs p n Hw Hn) as Hwn.
  apply PathlibFacts.well_formed_entries in Hwn. destruct Hwn as [Hdist Hne].
  destruct (Hne c Hc) as [Hnm _].
  assert (L : Pathlib.lookup fs (Pathlib.joinpath p (Pathlib.node_name c))
              = Some c).
  { rewrite (joinpath_plain_name p _ Hnm Hslash Hdot).
    rewrite PathlibFacts.lookup_snoc, Hn.
    now apply PathlibFacts.find_child_self. }
  split; [|split; [exact L|]].
  - rewrite (get_partition_lst_spec fs p Hw). unfold Pathlib.child_dir_names.
    rewrite Hn. rewrite <- (stem_without_suffix _ Hdot) at 1.
    apply in_map, in_map. apply filter_In. now split.
  - rewrite (get_partition_lst_spec fs _ Hw). unfold Pathlib.child_dir_names.
    now rewrite L.
Qed.

Lemma last_such_app (f : string -> bool) (before after : list string)
  (col : string) (init : option string) :
  f col = true -> (forall c, In c after -> f c = false) ->
  last_such f (before ++ col :: after) init = Some col.
Proof.
  intros Hc Ha. unfold last_such. rewrite fold_left_app. simpl. rewrite Hc.
  clear Hc.
  induction after as [|a after IH]; [reflexivity|]. simpl.
  rewrite (Ha a) by now left. apply IH. intros c Hin. apply Ha. now right.
Qed.

(** X7. The search for default columns has no early exit: of the columns of
    a kind (WKB, longitude, latitude, H3) it keeps the last one in schema
    order. *)
Theorem X7_last_matching_column_wins (before after : list string)
  (col : string) :
  let d := search_defaults (before ++ col :: after) in
  (wkb_name col -> (forall c, In c after -> ~ wkb_name c) ->
   geom_col_value d = Some col) /\
  (lon_name col -> (forall c, In c after -> ~ lon_name c) ->
   x_col_value d = Some col) /\
  (lat_name col -> (forall c, In c after -> ~ lat_name c) ->
   y_col_value d = Some col) /\
  (h3_name col -> (forall c, In c after -> ~ h3_name c) ->
   h3_col_value d = Some col).
Proof.
  intros d. destruct (search_defaults_spec (before ++ col :: after))
    as (Eg & Ex & Ey & Eh).
  fold d in Eg, Ex, Ey, Eh.
  assert (G : forall (f : string -> bool) (P : string -> Prop),
             (forall c, f c = true <-> P c) ->
             P col -> (forall c, In c after -> ~ P c) ->
             last_such f (before ++ col :: after) None = Some col).
  { intros f P HfP Hc Ha. apply last_such_app; [now apply HfP|].
    intros c Hin. destruct (f c) eqn:E; [|reflexivity].
    exfalso. apply (Ha c Hin). now apply HfP. }
  repeat split; intros Hc Ha.
  - rewrite Eg. now apply (G is_wkb wkb_name is_wkb_spec).
  - rewrite Ex. now apply (G is_lon lon_name is_lon_spec).
  - rewrite Ey. now apply (G is_lat lat_name is_lat_spec).
  - rewrite Eh. now apply (G is_h3 h3_name is_h3_spec).
Qed.

(** X9. [execute] reaches the conversion exactly when the output has a text
    and, with a sample asked for, the text of the sample count is a numeral.
    Before that it raises a TypeError for a missing output or a missing
    count, and a ValueError for a count that is no numeral. *)
Theorem X9_execute_failure_modes (st : parameters) :
  ((exists call, execute st = inr call) <->
   valueAsText (st out_fc_pth) <> None /\
   (value (st smpl) = PyBool true ->
    exists z, int (valueAsText (st smpl_cnt)) = inr z))
  /\
  (forall e, execute st = inl e ->
     (e = TypeError /\
      (valueAsText (st out_fc_pth) = None \/
       (value (st smpl) = PyBool true /\ valueAsText (st smpl_cnt) = None)))
     \/
     (e = ValueError /\ value (st smpl) = PyBool true /\
      exists t, valueAsText (st smpl_cnt) = Some t /\ int_of_str t = None)).
Proof.
  assert (T : is_True (value (st smpl)) = true <-> value (st smpl) = PyBool true).
  { destruct (value (st smpl)) as [|[|]| |]; simpl; split; congruence. }
  unfold execute. cbv zeta.
  destruct (is_True (value (st smpl))) eqn:Es.
  - assert (Hs : value (st smpl) = PyBool true) by now apply T.
    unfold int at 1 3.
    destruct (valueAsText (st smpl_cnt)) as [t|] eqn:Ec.
    + destruct (int_of_str t) as [z|] eqn:Ez.
      * destruct (valueAsText (st out_fc_pth)) as [o|] eqn:Eo; split.
        -- split; [intros _|eauto]. split; [discriminate|].
           intros _. exists z. unfold int. now rewrite Ez.
        -- discriminate.
        -- split; [intros [c H]; discriminate | intros [H _]; congruence].
        -- intros e [= <-]. left. split; [reflexivity | now left].
      * split.
        -- split; [intros [c H]; discriminate|].
           intros [_ H]. destruct (H Hs) as [z Hz]. unfold int in Hz.
           rewrite Ez in Hz. discriminate.
        -- intros e [= <-]. right. split; [reflexivity|]. split; [exact Hs|].
           exists t. auto.
    + split.
      * split; [intros [c H]; discriminate|].
        intros [_ H]. destruct (H Hs) as [z Hz]. discriminate.
      * intros e [= <-]. left. split; [reflexivity|]. right. auto.
  - assert (Hs : value (st smpl) <> PyBool true)
      by (intros H; apply T in H; congruence).
    destruct (valueAsText (st out_fc_pth)) as [o|] eqn:Eo; split.
    + split; [intros _|eauto]. split; [discriminate | intros H; contradiction].
    + discriminate.
    + split; [intros [c H]; discriminate | intros [H _]; congruence].
    + intros e [= <-]. left. split; [reflexivity | now left].
Qed.

(** X16. The helper listing partitions never raises: for a path that names
    no directory (nothing, or a regular file) it lists nothing, and for a
    directory of a well-formed tree it lists one option for each
    sub-directory, regular files left out. *)
Theorem X16_get_partition_lst_edges (fs : Pathlib.node) (p : Pathlib.path) :
  (Pathlib.is_dir fs p = false -> get_partition_lst fs p = []) /\
  (Pathlib.well_formed fs = true ->
   forall n, Pathlib.lookup fs p = Some n ->
     List.length (get_partition_lst fs p) =
     List.length (List.filter Pathlib.node_is_dir (Pathlib.entries n))).
Proof.
  split.
  - unfold Pathlib.is_dir, get_partition_lst, Pathlib.glob.
    destruct (Pathlib.lookup fs p) as [[nm|nm ch]|]; try reflexivity.
    discriminate.
  - intros Hw n Hn. rewrite (get_partition_lst_spec fs p Hw).
    unfold Pathlib.child_dir_names. rewrite Hn. now rewrite !length_map.
Qed.

End FurtherProperties.

Section OtherToolsAndEarlierCopy.
Import PyStr Arcpy ParquetToFeatureClass Spec MoreSpec RunFacts ToolFacts MoreFacts.
Local Open Scope py_scope.

(** X10. The Create Schema File tool declares its schema file as an optional
    parameter without a default, yet [execute] turns its text into a path
    unconditionally: with the schema file left empty it raises a TypeError
    whatever the template is, and it reaches [create_schema_file] exactly
    when both parameters have a text, passing the two paths. *)
Theorem X10_create_schema_file_needs_both (tmplt_fc_pth schema_file_pth : Param) :
  (exists q, nth_error CreateSchemaFile.getParameterInfo 1 = Some q /\
             name q = "schema_file_pth" /\
             parameterType q = Optional /\ value q = PyNone /\
             CreateSchemaFile.execute tmplt_fc_pth q = inl TypeError)
  /\
  (forall call,
     CreateSchemaFile.execute tmplt_fc_pth schema_file_pth = inr call <->
     exists t s,
       valueAsText tmplt_fc_pth = Some t /\
       valueAsText schema_file_pth = Some s /\
       call = CreateSchemaFile.mkSchemaCall (Pathlib.Path t) (Pathlib.Path s))
  /\
  (valueAsText tmplt_fc_pth = None \/ valueAsText schema_file_pth = None ->
   CreateSchemaFile.execute tmplt_fc_pth schema_file_pth = inl TypeError).
Proof.
  split; [|split].
  - eexists. split; [reflexivity|]. repeat split.
    unfold CreateSchemaFile.execute.
    now destruct (valueAsText tmplt_fc_pth).
  - intros call. unfold CreateSchemaFile.execute.
    destruct (valueAsText tmplt_fc_pth) as [t|];
      destruct (valueAsText schema_file_pth) as [s|]; split;
      try discriminate;
      try (intros (t0 & s0 & H1 & H2 & _); discriminate).
    + intros [= <-]. now exists t, s.
    + intros (t0 & s0 & [= <-] & [= <-] & ->). reflexivity.
  - unfold CreateSchemaFile.execute.
    destruct (valueAsText tmplt_fc_pth); destruct (valueAsText schema_file_pth);
      intros [H|H]; try discriminate; reflexivity.
Qed.

(** X14. The statements at the head of the toolbox file raise exactly when
    the package is not installed and nothing right under the [src] folder has
    the stem arcpy_parquet; any file or folder with that stem will do.
    Otherwise [sys.path] is left alone (package installed) or gets the [src]
    folder put in front. *)
Theorem X14_import_local_library (installed : bool) (fs : Pathlib.node)
  (file : Pathlib.path) (sys_path : list string) :
  let dir_src :=
    Pathlib.joinpath (Pathlib.parent (Pathlib.parent file)) "src" in
  let listed :=
    match Pathlib.lookup fs dir_src with
    | Some n => Pathlib.entries n
    | None => []
    end in
  let result := Loading.import_local_library installed fs file sys_path in
  (result = None <->
   installed = false /\
   forall c, In c listed ->
             Pathlib.stem_of_name (Pathlib.node_name c) <> "arcpy_parquet")
  /\
  (installed = true -> result = Some sys_path)
  /\
  (installed = false -> result <> None ->
   result = Some (Pathlib.str dir_src :: sys_path)).
Proof.
  intros dir_src listed result. unfold result, Loading.import_local_library.
  fold dir_src. destruct installed.
  - split; [|split]; try reflexivity; try discriminate.
    split; [discriminate | intros [H _]; discriminate].
  - assert (G : List.filter
                  (fun pth => String.eqb (Pathlib.stem pth) "arcpy_parquet")
                  (Pathlib.glob fs dir_src "*") = []
                <-> forall c, In c listed ->
                      Pathlib.stem_of_name (Pathlib.node_name c)
                      <> "arcpy_parquet").
    { rewrite PathlibFacts.filter_nil. unfold Pathlib.glob, listed.
      destruct (Pathlib.lookup fs dir_src) as [n|]; [|simpl; tauto].
      rewrite (filter_all (fun c => Pathlib.fnmatch "*" (Pathlib.node_name c)))
        by (intros; apply PathlibFacts.fnmatch_any).
      split.
      - intros H c Hc. apply String.eqb_neq.
        rewrite <- (PathlibFacts.name_snoc dir_src (Pathlib.node_name c)).
        apply (H (dir_src ++ [Pathlib.node_name c])).
        apply in_map_iff. now exists c.
      - intros H q Hq. apply in_map_iff in Hq. destruct Hq as (c & <- & Hc).
        apply String.eqb_neq. unfold Pathlib.stem.
        rewrite PathlibFacts.name_snoc. now apply H. }
    destruct (List.filter
                (fun pth => String.eqb (Pathlib.stem pth) "arcpy_parquet")
                (Pathlib.glob fs dir_src "*")) as [|x l] eqn:E; simpl.
    + split; [|split]; try discriminate; try congruence.
      split; [intros _; split; [reflexivity | now apply G] | reflexivity].
    + split; [|split]; try discriminate; try reflexivity.
      split; [discriminate|]. intros [_ H]. apply G in H. discriminate.
Qed.

(** *** The earlier copy, as a whole run *)

Ltac keeps_earlier :=
  unfold EarlierRun.inspect_parquet_path, Earlier.sample_count_rules,
    Earlier.read_columns;
  keeps_blocks.

Ltac kept_earlier f n E :=
  refine (keeps_Done f n _ _ _ _ _ E); keeps_earlier.

Lemma earlier_run_Done (w : World) (st st' : parameters) :
  EarlierRun.updateParameters w st = Done tt st' ->
  exists s1 p_pth s2 s3 s4 s5 s6,
    prepopulate_output_name w st = Done tt s1 /\
    EarlierRun.inspect_parquet_path w s1 = Done p_pth s2 /\
    level_two w p_pth s2 = Done tt s3 /\
    level_three w p_pth s3 = Done tt s4 /\
    Earlier.sample_count_rules s4 = Done tt s5 /\
    Earlier.read_columns w s5 = Done tt s6 /\
    find_schema_file w s6 = Done tt st'.
Proof.
  unfold EarlierRun.updateParameters. intros H.
  apply bind_Done in H. destruct H as ([] & s1 & H1 & H).
  apply bind_Done in H. destruct H as (p_pth & s2 & H2 & H).
  apply bind_Done in H. destruct H as ([] & s3 & H3 & H).
  apply bind_Done in H. destruct H as ([] & s4 & H4 & H).
  apply bind_Done in H. destruct H as ([] & s5 & H5 & H).
  apply bind_Done in H. destruct H as ([] & s6 & H6 & H).
  exists s1, p_pth, s2, s3, s4, s5, s6. tauto.
Qed.

Lemma first_wkb_first (col_lst : list string) (col : string) :
  Earlier.first_wkb col_lst = Some col ->
  exists before after,
    col_lst = before ++ col :: after /\
    (forall c, In c before -> ~ wkb_name c).
Proof.
  induction col_lst as [|a l IH]; simpl; [discriminate|].
  destruct (contains "wkb" (lower a)) eqn:E.
  - intros [= <-]. exists [], l. split; [reflexivity | intros c []].
  - intros H. destruct (IH H) as (before & after & -> & Hb).
    exists (a :: before), after. split; [reflexivity|].
    intros c [<-|Hc]; [|now apply Hb].
    intros Hw. apply is_wkb_spec in Hw. unfold is_wkb in Hw. congruence.
Qed.

(** X11. The earlier copy compares the sample count with 1 without testing
    for a missing value: with nothing else entered, a missing count and the
    sample flag True (or just switched to False) the earlier run ends in a
    TypeError, all parameters untouched, where the current run gets
    through. *)
Theorem X11_earlier_run_missing_count (deactivate_parameter : Param -> Param)
  (w : World) (st : parameters) :
  altered (st pqt_pth) = false ->
  altered (st pqt_prt_01) = false ->
  altered (st pqt_prt_02) = false ->
  value (st smpl_cnt) = PyNone ->
  is_True (value (st smpl)) = true
  \/ (altered (st smpl) = true /\ is_False (value (st smpl)) = true) ->
  EarlierRun.updateParameters w st = Raised TypeError st /\
  exists st', updateParameters deactivate_parameter w st = Done tt st'.
Proof.
  intros Hp H1 H2 Hv Hs. split.
  - unfold EarlierRun.updateParameters.
    rewrite (bind_step _ _ st st tt).
    2:{ apply prepopulate_skips. now rewrite Hp. }
    rewrite (bind_step _ _ st st None).
    2:{ unfold EarlierRun.inspect_parquet_path, bind, getattr. now rewrite Hp. }
    rewrite (bind_step _ _ st st tt) by now apply level_two_skip.
    rewrite (bind_step _ _ st st tt) by now apply level_three_skip.
    unfold bind at 1.
    now rewrite (earlier_sample_rules_missing_count st Hv Hs).
  - apply completes_Done. rewrite run_completes_exactly.
    unfold runs_through, folder_ready, partitions_ready, sample_ready.
    now rewrite Hp, H1, H2, Hv, andb_false_r.
Qed.

(** X12. In a run of the earlier copy that completes after the parquet path
    was altered, the geometry column gets the schema's column names as
    options and, whatever value it had, the first column in schema order
    whose name contains wkb in lower case; it keeps its value only when there
    is no such column. *)
Theorem X12_earlier_run_geometry_column (w : World) (st st' : parameters)
  (p : string) :
  altered (st pqt_pth) = true ->
  valueAsText (st pqt_pth) = Some p ->
  EarlierRun.updateParameters w st = Done tt st' ->
  exists col_lst,
    schema_names w p = Some col_lst /\
    filter_list (filter (st' geom_col)) = col_lst /\
    (forall before col after,
       col_lst = before ++ col :: after ->
       wkb_name col -> (forall c, In c before -> ~ wkb_name c) ->
       value (st' geom_col) = PyStr col) /\
    ((forall c, In c col_lst -> ~ wkb_name c) ->
     value (st' geom_col) = value (st geom_col)).
Proof.
  intros Ha Ht Hrun. apply earlier_run_Done in Hrun.
  destruct Hrun as (s1 & p_pth & s2 & s3 & s4 & s5 & s6 &
                    H1 & H2 & H3 & H4 & H5 & H6 & H7).
  assert (G : value (s5 geom_col) = value (st geom_col)).
  { assert (A1 : value (s1 geom_col) = value (st geom_col))
      by kept_earlier value geom_col H1.
    assert (A2 : value (s2 geom_col) = value (s1 geom_col))
      by kept_earlier value geom_col H2.
    assert (A3 : value (s3 geom_col) = value (s2 geom_col))
      by kept_earlier value geom_col H3.
    assert (A4 : value (s4 geom_col) = value (s3 geom_col))
      by kept_earlier value geom_col H4.
    assert (A5 : value (s5 geom_col) = value (s4 geom_col))
      by kept_earlier value geom_col H5.
    congruence. }
  assert (Ka : altered (s5 pqt_pth) = true).
  { assert (A1 : altered (s1 pqt_pth) = altered (st pqt_pth))
      by kept_earlier altered pqt_pth H1.
    assert (A2 : altered (s2 pqt_pth) = altered (s1 pqt_pth))
      by kept_earlier altered pqt_pth H2.
    assert (A3 : altered (s3 pqt_pth) = altered (s2 pqt_pth))
      by kept_earlier altered pqt_pth H3.
    assert (A4 : altered (s4 pqt_pth) = altered (s3 pqt_pth))
      by kept_earlier altered pqt_pth H4.
    assert (A5 : altered (s5 pqt_pth) = altered (s4 pqt_pth))
      by kept_earlier altered pqt_pth H5.
    congruence. }
  assert (Kt : valueAsText (s5 pqt_pth) = Some p).
  { assert (A1 : value (s1 pqt_pth) = value (st pqt_pth))
      by kept_earlier value pqt_pth H1.
    assert (A2 : value (s2 pqt_pth) = value (s1 pqt_pth))
      by kept_earlier value pqt_pth H2.
    assert (A3 : value (s3 pqt_pth) = value (s2 pqt_pth))
      by kept_earlier value pqt_pth H3.
    assert (A4 : value (s4 pqt_pth) = value (s3 pqt_pth))
      by kept_earlier value pqt_pth H4.
    assert (A5 : value (s5 pqt_pth) = value (s4 pqt_pth))
      by kept_earlier value pqt_pth H5.
    unfold valueAsText in *. now rewrite A5, A4, A3, A2, A1. }
  assert (L : st' geom_col = s6 geom_col)
    by kept_earlier (fun q : Param => q) geom_col H7.
  revert H6. unfold Earlier.read_columns, bind at 1, getattr at 1.
  rewrite Ka. simpl when. unfold bind at 1, getattr at 1. rewrite Kt.
  destruct (schema_names w p) as [col_lst|]; [|discriminate].
  unfold bind, ret, setattr.
  pose proof (first_wkb_spec col_lst) as F.
  destruct (Earlier.first_wkb col_lst) as [c|] eqn:Ef; intros [= <-];
    exists col_lst; (split; [reflexivity|]); rewrite L, ?update_same;
    (split; [reflexivity|]); split.
  - intros before col after E Hw Hb.
    destruct (first_wkb_first col_lst c Ef) as (b' & a' & E' & Hb').
    cbn [value with_value]. f_equal.
    assert (Q : forall l1 l2 x y r1 r2,
               l1 ++ x :: r1 = l2 ++ y :: r2 ->
               wkb_name x -> wkb_name y ->
               (forall z, In z l1 -> ~ wkb_name z) ->
               (forall z, In z l2 -> ~ wkb_name z) -> x = y).
    { induction l1 as [|h l1 IH1]; intros [|h2 l2] x y r1 r2 Heq Hx Hy N1 N2.
      - now injection Heq.
      - injection Heq as -> _. exfalso. apply (N2 h2); [now left | exact Hx].
      - injection Heq as -> _. exfalso. apply (N1 y); [now left | exact Hy].
      - injection Heq as -> Heq. apply (IH1 l2 x y r1 r2 Heq Hx Hy).
        + intros z Hz. apply N1. now right.
        + intros z Hz. apply N2. now right. }
    destruct F as [_ Fw].
    apply (Q b' before c col a' after); try assumption. congruence.
  - intros Hno. destruct F as [Fin Fw]. destruct (Hno c Fin Fw).
  - intros before col after E Hw Hb. exfalso. apply (F col); [|exact Hw].
    rewrite E. apply in_or_app. right. now left.
  - intros _. cbn [value with_filter_list]. exact G.
Qed.

(** X13. The earlier copy looks for part files by the pattern part-*: with
    the parquet path altered (and an output that has a value) its run leaves
    the Cannot locate message on the parquet path exactly when nothing below
    the folder has a name starting with part-, whatever the suffix. *)
Theorem X13_earlier_run_part_files (w : World) (st : parameters) (p : string) :
  altered (st pqt_pth) = true ->
  valueAsText (st pqt_pth) = Some p ->
  value (st out_fc_pth) <> PyNone ->
  message (st pqt_pth) <> Some cannot_locate ->
  message (final_store (EarlierRun.updateParameters w st) pqt_pth)
  = Some cannot_locate
  <->
  ~ exists x, under (root w) (Pathlib.Path p) x
              /\ exists r, Pathlib.node_name x = ("part-" ++ r)%string.
Proof.
  intros Ha Ht Ho Hm.
  rewrite <- (earlier_no_part_files_spec (root w) (Pathlib.Path p)).
  unfold EarlierRun.updateParameters.
  rewrite (bind_step _ _ st st tt).
  2:{ apply prepopulate_skips. now rewrite (set_not_None _ Ho), andb_false_r. }
  rewrite final_bind by (intros a; keeps_earlier).
  unfold EarlierRun.inspect_parquet_path, bind at 1, getattr at 1. rewrite Ha.
  unfold bind at 1, getattr at 1. rewrite Ht. simpl Path_of.
  unfold bind at 1, ret at 1.
  destruct (Earlier.no_part_files (root w) (Pathlib.Path p)); simpl when.
  - unfold bind at 1, setattr at 1.
    assert (E : forall lst s,
               message (final_store
                          (bind (offer_partitions pqt_prt_01 lst)
                                (fun _ => ret (Some (Pathlib.Path p))) s)
                          pqt_pth) = message (s pqt_pth)).
    { intros lst s. apply (keeps_bind message pqt_pth); [|intros; apply keeps_ret].
      keeps_blocks. }
    rewrite E, update_same. simpl. tauto.
  - unfold bind at 1, ret at 1.
    assert (E : forall lst s,
               message (final_store
                          (bind (offer_partitions pqt_prt_01 lst)
                                (fun _ => ret (Some (Pathlib.Path p))) s)
                          pqt_pth) = message (s pqt_pth)).
    { intros lst s. apply (keeps_bind message pqt_pth); [|intros; apply keeps_ret].
      keeps_blocks. }
    rewrite E. split; [intros H; contradiction | discriminate].
Qed.

End OtherToolsAndEarlierCopy.

(** * The further properties at concrete inputs *)

Section FurtherInstances.
Import PyStr Arcpy ParquetToFeatureClass Spec MoreSpec Examples MoreExamples.

Local Abbreviation run_on w st :=
  (updateParameters pyt_utils.deactivate_parameter w st).

(** The tool as it opens. *)
Lemma X2_nothing_altered_nothing_changed_witness :
  nothing_to_do fresh = true /\
  run_on machine fresh = Done tt fresh.
Proof.
  split; [reflexivity|].
  apply X2_nothing_altered_nothing_changed. reflexivity.
Defined.

(** The empty folder. *)
Lemma X4_no_partitions_leaves_dropdown_witness :
  Pathlib.well_formed (root bare_machine) = true /\
  altered (empty_folder_chosen pqt_pth) = true /\
  valueAsText (empty_folder_chosen pqt_pth) = Some "/empty" /\
  Pathlib.child_dir_names (root bare_machine) (Pathlib.Path "/empty") = [] /\
  final_store (run_on bare_machine empty_folder_chosen) pqt_prt_01
  = empty_folder_chosen pqt_prt_01.
Proof.
  repeat (split; [reflexivity|]).
  apply (X4_no_partitions_leaves_dropdown pyt_utils.deactivate_parameter
           bare_machine empty_folder_chosen "/empty"); reflexivity.
Defined.

(** The dataset with its schema folder beside it. *)
Lemma X5_schema_file_by_convention_witness :
  altered (folder_chosen pqt_pth) = true /\
  valueAsText (folder_chosen pqt_pth) = Some "/data/pqt" /\
  exists st',
    run_on machine folder_chosen = Done tt st' /\
    exists v, st' schema_file_pth
              = with_value v (folder_chosen schema_file_pth).
Proof.
  split; [reflexivity|]. split; [reflexivity|].
  destruct (RunFacts.completes_Done (run_on machine folder_chosen))
    as [st' Hr]; [vm_compute; reflexivity|].
  exists st'. split; [exact Hr|].
  destruct (X5_schema_file_by_convention pyt_utils.deactivate_parameter
              machine folder_chosen st' "/data/pqt" eq_refl eq_refl Hr)
    as [[E|(r1 & r2 & x & _ & _ & _ & _ & _ & _ & E)] _].
  - exists (value (folder_chosen schema_file_pth)). rewrite E. reflexivity.
  - eexists. exact E.
Defined.

(** The first year of the dataset. *)
Lemma X6_offered_partition_leads_on_witness :
  Pathlib.well_formed tree = true /\
  Pathlib.lookup tree ["data"; "pqt"] = Some dataset /\
  In year_2020 (Pathlib.entries dataset) /\
  In "year=2020" (get_partition_lst tree ["data"; "pqt"]) /\
  get_partition_lst tree (Pathlib.joinpath ["data"; "pqt"] "year=2020")
  = ["month=1"].
Proof.
  assert (Hin : In year_2020 (Pathlib.entries dataset)) by (simpl; tauto).
  split; [reflexivity|]. split; [reflexivity|]. split; [exact Hin|].
  destruct (X6_offered_partition_leads_on tree ["data"; "pqt"] dataset
              year_2020 eq_refl eq_refl Hin eq_refl eq_refl eq_refl)
    as (H1 & _ & H3).
  split; [exact H1 | exact H3].
Defined.

(** A sample of 25 rows switched on. *)
Lemma X8_sample_flag_switches_count_witness :
  value (sample_switched_on smpl_cnt) = PyInt 25 /\
  exists st',
    run_on machine sample_switched_on = Done tt st' /\
    value (st' smpl_cnt) = PyInt 25 /\
    enabled (st' smpl_cnt) = true.
Proof.
  split; [reflexivity|].
  destruct (RunFacts.completes_Done (run_on machine sample_switched_on))
    as [st' Hr]; [vm_compute; reflexivity|].
  exists st'. split; [exact Hr|].
  destruct (X8_sample_flag_switches_count pyt_utils.deactivate_parameter
              machine sample_switched_on st' 25%Z Hr eq_refl) as [L _].
  destruct L as (V & _ & On & _); [lia|].
  split; [exact V | apply On; reflexivity].
Defined.

(** A sample asked for with the count blanked out, nothing else entered. *)
Lemma X11_earlier_run_missing_count_witness :
  altered (only_sample_without_count pqt_pth) = false /\
  value (only_sample_without_count smpl_cnt) = PyNone /\
  is_True (value (only_sample_without_count smpl)) = true /\
  EarlierRun.updateParameters machine only_sample_without_count
  = Raised TypeError only_sample_without_count.
Proof.
  repeat (split; [reflexivity|]).
  apply (X11_earlier_run_missing_count pyt_utils.deactivate_parameter machine
           only_sample_without_count); try reflexivity.
  left. reflexivity.
Defined.

(** The user picked the identifier column; the earlier copy puts the WKB
    column back. *)
Lemma X12_earlier_run_geometry_column_witness :
  altered (geometry_column_picked pqt_pth) = true /\
  valueAsText (geometry_column_picked pqt_pth) = Some "/data/pqt" /\
  value (geometry_column_picked geom_col) = PyStr "id" /\
  exists st',
    EarlierRun.updateParameters machine geometry_column_picked = Done tt st' /\
    value (st' geom_col) = PyStr "WKB_geom".
Proof.
  repeat (split; [reflexivity|]).
  destruct (RunFacts.completes_Done
              (EarlierRun.updateParameters machine geometry_column_picked))
    as [st' Hr]; [vm_compute; reflexivity|].
  exists st'. split; [exact Hr|].
  destruct (X12_earlier_run_geometry_column machine geometry_column_picked st'
              "/data/pqt" eq_refl eq_refl Hr) as (col_lst & S & _ & F & _).
  assert (E : Some columns = Some col_lst) by (rewrite <- S; reflexivity).
  injection E as <-.
  apply (F ["id"] "WKB_geom" ["Lon"; "LAT"; "h3_09"]).
  - reflexivity.
  - now exists "", "_geom".
  - intros c [<-|[]] H. apply ToolFacts.is_wkb_spec in H. discriminate H.
Defined.

(** The dataset folder holds a part file. *)
Lemma X13_earlier_run_part_files_witness :
  altered (folder_chosen pqt_pth) = true /\
  valueAsText (folder_chosen pqt_pth) = Some "/data/pqt" /\
  (message (final_store (EarlierRun.updateParameters machine folder_chosen)
              pqt_pth) = Some cannot_locate
   <->
   ~ exists x, under (root machine) (Pathlib.Path "/data/pqt") x
               /\ exists r, Pathlib.node_name x = ("part-" ++ r)%string).
Proof.
  split; [reflexivity|]. split; [reflexivity|].
  apply (X13_earlier_run_part_files machine folder_chosen "/data/pqt");
    try reflexivity; discriminate.
Defined.

(** The default geometry type with the folder chosen. *)
Lemma X15_switched_on_columns_offer_schema_witness :
  altered (folder_chosen pqt_pth) = true /\
  valueAsText (folder_chosen pqt_pth) = Some "/data/pqt" /\
  exists st',
    run_on machine folder_chosen = Done tt st' /\
    filter_list (filter (st' x_col)) = columns /\
    filter_list (filter (st' y_col)) = columns.
Proof.
  split; [reflexivity|]. split; [reflexivity|].
  destruct (RunFacts.completes_Done (run_on machine folder_chosen))
    as [st' Hr]; [vm_compute; reflexivity|].
  exists st'. split; [exact Hr|].
  destruct (X15_switched_on_columns_offer_schema
              pyt_utils.deactivate_parameter machine folder_chosen st'
              "/data/pqt" eq_refl eq_refl Hr) as (col_lst & S & L & _).
  assert (E : Some columns = Some col_lst) by (rewrite <- S; reflexivity).
  injection E as <-. apply L. reflexivity.
Defined.

End FurtherInstances.
